(** * LinkLocal backend: authorization, request lifecycle and feedback core

    A shallow embedding of the TypeScript sources

      - [src/utils/auth.ts]        (token service, [AuthUtils])
      - [src/middleware/auth.ts]   ([authenticateToken], [requireRole])
      - the router mounted at /requests (POST /, PATCH /:id)
      - the router mounted at /feedback (POST /, GET /provider/:id)
      - [src/middleware/errorHandler.ts] ([errorHandler], [notFoundHandler])
      - the router mounted at /services (GET /:id, DELETE /:id)
      - the routers mounted at /auth (register, login, refresh) and
        /profile (GET /, PATCH /)

    Conventions of the embedding.

      - The relational store behind Prisma is a record of tables, each table
        a list of rows in insertion order.  [findFirst]/[findUnique] return
        the first matching row, [create] appends and raises on a primary-key
        collision, [update] rewrites the rows selected by the key.
      - A JavaScript number is given by its exact value, a rational
        ([Q]); every arithmetic operation rounds its exact result to the
        nearest binary64 number, ties to even ([Double.round64]).
        Infinities and NaN are not values here: overflow beyond the
        largest binary64 number is not modelled, and the handlers divide
        by a length only when it is positive.
        [Math.round] is [floor (x + 1/2)].  Timestamps are integers ([Z]).
      - A JavaScript array holds fewer than 2^32 elements; a [findMany]
        whose result cannot be an array rejects.
      - An awaited Prisma call that rejects is a value of [PrismaError]; the
        handlers' [catch] clauses turn it into a 500 response.
      - The [jsonwebtoken] library, the [Date] constructor and the column
        defaults declared in [schema.prisma] are not part of the sources and
        are parameters of the corresponding sections. *)

From Stdlib Require Import String Ascii List Bool Arith ZArith QArith Qround.
From Stdlib Require Import Qpower.
From Stdlib Require Qcanon.
From Stdlib Require Import Lia Lqa Permutation Sorted DecimalString.
Import ListNotations.

Local Open Scope string_scope.
Local Open Scope list_scope.

(* ------------------------------------------------------------------ *)
(** ** JavaScript helpers *)

Module JS.

  (** [a || b] on [string | undefined]: the empty string is falsy. *)
Definition or_default (a : option string) (b : string) : string :=
    match a with
    | Some s => if (s =? "")%string then b else s
    | None => b
    end.

  (** [Array.prototype.includes] on an array of strings. *)
Definition includes (l : list string) (x : string) : bool :=
    existsb (String.eqb x) l.

  (** [s.split(sep)] for a one-character separator. *)
Fixpoint split (sep : ascii) (s : string) : list string :=
    match s with
    | EmptyString => [EmptyString]
    | String c rest =>
        if Ascii.eqb c sep then EmptyString :: split sep rest
        else match split sep rest with
             | [] => [String c EmptyString]
             | w :: ws => String c w :: ws
             end
    end.

  (** [Math.round]: nearest integer, halves towards plus infinity. *)
Definition Math_round (x : Q) : Z := Qfloor (x + (1 # 2)).

  (** Values a parsed JSON body can hold under a key; a missing key reads
      as [JUndefined], arrays and objects are [JCompound]. *)
Inductive json : Type :=
  | JUndefined
  | JNull
  | JBool (b : bool)
  | JNumber (q : Q)
  | JString (s : string)
  | JCompound.

End JS.

(** Binary64 arithmetic on exact values. *)
Module Double.

Definition pow2 (e : Z) : Q := (2 # 1) ^ e.

(** Binary exponent [floor (log2 x)] of a positive rational. *)
Definition ilog2 (x : Q) : Z :=
  let L := (Z.log2 (Qnum x) - Z.log2 (Zpos (Qden x)))%Z in
  if Qle_bool (pow2 L) x then L else (L - 1)%Z.

(** Exponent of the last place: 53 significant bits, and the spacing of
    the subnormal numbers at the bottom. *)
Definition exponent (x : Q) : Z := Z.max (ilog2 x - 52) (-1074).

(** Nearest integer, ties to even. *)
Definition rne (y : Q) : Z :=
  let f := Qfloor y in
  match Qcompare (y - inject_Z f) (1 # 2) with
  | Lt => f
  | Gt => (f + 1)%Z
  | Eq => if Z.even f then f else (f + 1)%Z
  end.

Definition round_pos (x : Q) : Q :=
  let e := exponent x in inject_Z (rne (x / pow2 e)) * pow2 e.

(** The binary64 number nearest to [x], ties to even. *)
Definition round64 (x : Q) : Q :=
  let x := Qred x in
  match Qnum x with
  | Z0 => 0
  | Zpos _ => round_pos x
  | Zneg _ => - round_pos (- x)
  end.

(** [x + y], [x * y] and [x / y] on numbers. *)
Definition add (x y : Q) : Q := round64 (x + y).
Definition mul (x y : Q) : Q := round64 (x * y).
Definition div (x y : Q) : Q := round64 (x / y).

End Double.

(** What [findMany] resolves to: the rows as a JavaScript array, which
    holds fewer than 2^32 elements, or a rejection ([None]). *)
Definition findMany_result {A : Type} (rows : list A) : option (list A) :=
  if (Z.of_nat (length rows) <? 2 ^ 32)%Z then Some rows else None.

(* ------------------------------------------------------------------ *)
(** ** Data model (the Prisma models the handlers touch) *)

Inductive RequestStatus : Type :=
| pending | accepted | declined | completed | cancelled.

Definition RequestStatus_eqb (a b : RequestStatus) : bool :=
  match a, b with
  | pending, pending | accepted, accepted | declined, declined
  | completed, completed | cancelled, cancelled => true
  | _, _ => false
  end.

Definition RequestStatus_name (s : RequestStatus) : string :=
  match s with
  | pending => "pending"
  | accepted => "accepted"
  | declined => "declined"
  | completed => "completed"
  | cancelled => "cancelled"
  end.

Module User.
Record t : Type := mk
    { id : string; email : string; role : string;
      is_active : bool; rating : Q }.
Definition set_rating (u : t) (r : Q) : t :=
    mk (id u) (email u) (role u) (is_active u) r.
End User.

Module Service.
Record t : Type := mk
    { id : string; provider_id : string; is_active : bool }.
End Service.

Module ServiceRequest.
Record t : Type := mk
    { id : string; service_id : string; customer_id : string;
      provider_id : string; status : RequestStatus;
      message : option string; requested_date : option Z;
      estimated_duration : option Q }.
Definition set_status (r : t) (s : RequestStatus) : t :=
    mk (id r) (service_id r) (customer_id r) (provider_id r) s
       (message r) (requested_date r) (estimated_duration r).
End ServiceRequest.

Module Feedback.
Record t : Type := mk
    { id : string; service_request_id : string; customer_id : string;
      provider_id : string; rating : Q; comment : option string;
      is_public : bool; created_at : Z }.
End Feedback.

Record Db : Type := mkDb
  { users : list User.t;
    services : list Service.t;
    serviceRequests : list ServiceRequest.t;
    feedbacks : list Feedback.t }.

Definition with_serviceRequests (db : Db) (l : list ServiceRequest.t) : Db :=
  mkDb (users db) (services db) l (feedbacks db).
Definition with_feedbacks (db : Db) (l : list Feedback.t) : Db :=
  mkDb (users db) (services db) (serviceRequests db) l.
Definition with_users (db : Db) (l : list User.t) : Db :=
  mkDb l (services db) (serviceRequests db) (feedbacks db).

(** A rejected Prisma promise. *)
Inductive PrismaError : Type :=
| P2002   (* unique constraint failed *)
| P2025   (* record to update not found *)
| PrismaValidation.

(** HTTP response envelope: status code, [message] and optional [data]. *)
Record Response (A : Type) : Type := mkResponse
  { status : nat; message : string; data : option A }.
Arguments mkResponse {A}.
Arguments status {A}.
Arguments message {A}.
Arguments data {A}.

Definition fail {A} (code : nat) (msg : string) : Response A :=
  mkResponse code msg None.

(* ------------------------------------------------------------------ *)
(** ** Token service ([src/utils/auth.ts]) *)

Record JWTPayload : Type := mkPayload
  { userId : string; payload_email : string; payload_role : string }.

Record UserTokenData : Type := mkUserTokenData
  { utd_id : string; utd_email : string; utd_role : string }.

Record TokenPair : Type := mkTokenPair
  { accessToken : string; refreshToken : string; expiresIn : Z }.

(** The interface of the [jsonwebtoken] package as [AuthUtils] uses it.
    [jwt_sign payload secret now lifetime] is [jwt.sign] called at clock
    time [now] (seconds) with [expiresIn] of [lifetime] seconds;
    [jwt_verify token secret now] is [jwt.verify], [None] standing for
    any thrown error (malformed, bad signature, expired). *)
Class JsonWebToken : Type :=
  { jwt_sign : JWTPayload -> string -> Z -> Z -> string;
    jwt_verify : string -> string -> Z -> option JWTPayload }.

(** [process.env], restricted to the one variable [auth.ts] reads. *)
Record ProcessEnv : Type := mkEnv { JWT_SECRET_KEY : option string }.

Module AuthUtils.
Section WithLibrary.
Context {J : JsonWebToken} (env : ProcessEnv).

Definition JWT_SECRET : string :=
    JS.or_default (JWT_SECRET_KEY env) "your-secret-key".
Definition JWT_REFRESH_SECRET : string :=
    JS.or_default (JWT_SECRET_KEY env) "your-refresh-secret-key".

Definition payload_of (user : UserTokenData) : JWTPayload :=
    mkPayload (utd_id user) (utd_email user) (utd_role user).

Definition generateAccessToken (now : Z) (user : UserTokenData) : string :=
    jwt_sign (payload_of user) JWT_SECRET now (15 * 60).

Definition generateRefreshToken (now : Z) (user : UserTokenData) : string :=
    jwt_sign (payload_of user) JWT_REFRESH_SECRET now (7 * 24 * 60 * 60).

Definition generateTokenPair (now : Z) (user : UserTokenData) : TokenPair :=
    mkTokenPair (generateAccessToken now user)
                (generateRefreshToken now user)
                (15 * 60).

Definition verifyAccessToken (now : Z) (token : string) : option JWTPayload :=
    jwt_verify token JWT_SECRET now.

Definition verifyRefreshToken (now : Z) (token : string) : option JWTPayload :=
    jwt_verify token JWT_REFRESH_SECRET now.

Definition isTokenExpired (now : Z) (token : string) : bool :=
    match jwt_verify token JWT_SECRET now with
    | Some _ => false
    | None => true
    end.
End WithLibrary.
End AuthUtils.

(** An executable stand-in for the library, used to run the token service
    on concrete inputs: the token spells out the signing key, the three
    claims and the expiry instant, separated by vertical bars. *)
Module ToyJwt.
Definition show (z : Z) : string :=
    NilEmpty.string_of_uint (N.to_uint (Z.to_N z)).
Definition read (s : string) : option Z :=
    option_map (fun u => Z.of_N (N.of_uint u))
               (NilEmpty.uint_of_string s).

Definition sign (p : JWTPayload) (secret : string) (now life : Z) : string :=
    (secret ++ "|" ++ userId p ++ "|" ++ payload_email p ++ "|"
            ++ payload_role p ++ "|" ++ show (now + life))%string.

Definition verify (token secret : string) (now : Z) : option JWTPayload :=
    match JS.split "|"%char token with
    | [k; u; e; r; x] =>
        match read x with
        | Some exp =>
            if (k =? secret)%string && (now <? exp)%Z
            then Some (mkPayload u e r) else None
        | None => None
        end
    | _ => None
    end.

Definition lib : JsonWebToken := Build_JsonWebToken sign verify.
End ToyJwt.

(* ------------------------------------------------------------------ *)
(** ** Authorization gate ([src/middleware/auth.ts]) *)

(** What a middleware does with a call: hand it on with [req.user] set,
    or answer it with a status and a message. *)
Inductive Gate : Type :=
| Next (user : JWTPayload)
| Halt (code : nat) (msg : string).

Module Middleware.
Section WithLibrary.
Context {J : JsonWebToken} (env : ProcessEnv).

  (** [authHeader && authHeader.split(' ')[1]]; [None] is [undefined]. *)
Definition bearer (authorization : option string) : option string :=
    match authorization with
    | None => None
    | Some h => if (h =? "")%string then Some ""
                else nth_error (JS.split " "%char h) 1
    end.

  (** [!token] *)
Definition falsy (token : option string) : bool :=
    match token with
    | None => true
    | Some t => (t =? "")%string
    end.

Definition findUser (db : Db) (id : string) : option User.t :=
    find (fun u => (User.id u =? id)%string) (users db).

Definition authenticateToken
      (authorization : option string) (db : Db) (now : Z) : Gate :=
    let token := bearer authorization in
    if falsy token then Halt 401 "Access token required"
    else
      match token with
      | None => Halt 401 "Access token required"
      | Some token =>
          match AuthUtils.verifyAccessToken env now token with
          | None => Halt 401 "Invalid or expired token"
          | Some payload =>
              match findUser db (userId payload) with
              | None => Halt 401 "User account is inactive or does not exist"
              | Some user =>
                  if negb (User.is_active user)
                  then Halt 401 "User account is inactive or does not exist"
                  else Next payload
              end
          end
      end.

  (** [requireRole(allowedRoles)], reading [req.user]. *)
Definition requireRole
      (allowedRoles : list string) (req_user : option JWTPayload) : Gate :=
    match req_user with
    | None => Halt 401 "Authentication required"
    | Some u =>
        if negb (JS.includes allowedRoles (payload_role u))
        then Halt 403 "Insufficient permissions"
        else Next u
    end.

  (** Express chains middlewares: the next one runs only after [next()]. *)
Definition and_then (g : Gate) (k : JWTPayload -> Gate) : Gate :=
    match g with
    | Next u => k u
    | Halt c m => Halt c m
    end.

  (** A route: the handler runs only if the gate called [next()]. *)
Definition route {A} (g : Gate) (db : Db)
      (handler : JWTPayload -> Response A * Db) : Response A * Db :=
    match g with
    | Next u => handler u
    | Halt c m => (fail c m, db)
    end.
End WithLibrary.
End Middleware.

(* ------------------------------------------------------------------ *)
(** ** Request bodies and their zod schemas *)

(** What the sources rely on without declaring it: the [Date] constructor
    ([None] is an Invalid Date) and two facts of [schema.prisma], the
    default of [Feedback.is_public] and whether the [Feedback.rating]
    column is an [Int] (Prisma then refuses a fractional value). *)
Class Platform : Type :=
  { Date_parse : string -> option Z;
    feedback_is_public_default : bool;
    feedback_rating_is_Int : bool }.

Module Zod.
Import JS.

(** [z.string().min(n)] *)
Definition string_min (n : nat) (j : json) : option string :=
  match j with
  | JString s => if (n <=? String.length s)%nat then Some s else None
  | _ => None
  end.

(** [z.string().optional()] *)
Definition string_optional (j : json) : option (option string) :=
  match j with
  | JUndefined => Some None
  | JString s => Some (Some s)
  | _ => None
  end.

(** [z.number().min(lo).max(hi)] *)
Definition number_min_max (lo hi : Q) (j : json) : option Q :=
  match j with
  | JNumber q => if Qle_bool lo q && Qle_bool q hi then Some q else None
  | _ => None
  end.

(** [z.number().positive().optional()] *)
Definition number_positive_optional (j : json) : option (option Q) :=
  match j with
  | JUndefined => Some None
  | JNumber q => if negb (Qle_bool q 0) then Some (Some q) else None
  | _ => None
  end.

(** [z.enum(['pending', 'accepted', 'declined', 'completed', 'cancelled'])] *)
Definition enum_status (j : json) : option RequestStatus :=
  match j with
  | JString s =>
      find (fun st => (RequestStatus_name st =? s)%string)
           [pending; accepted; declined; completed; cancelled]
  | _ => None
  end.

End Zod.

Module CreateRequestBody.
Record t : Type := mk
  { service_id : JS.json; message : JS.json;
    requested_date : JS.json; estimated_duration : JS.json }.
End CreateRequestBody.

Module CreateRequestData.
Record t : Type := mk
  { service_id : string; message : option string;
    requested_date : option string; estimated_duration : option Q }.
End CreateRequestData.

Module SubmitFeedbackBody.
Record t : Type := mk
  { service_request_id : JS.json; rating : JS.json; comment : JS.json }.
End SubmitFeedbackBody.

Module SubmitFeedbackData.
Record t : Type := mk
  { service_request_id : string; rating : Q; comment : option string }.
End SubmitFeedbackData.

(* ------------------------------------------------------------------ *)
(** ** Request lifecycle engine (the router mounted at /requests) *)

Module Requests.
Section WithPlatform.
Context {P : Platform}.

Definition createRequestSchema (b : CreateRequestBody.t)
  : option CreateRequestData.t :=
  match Zod.string_min 1 (CreateRequestBody.service_id b),
        Zod.string_optional (CreateRequestBody.message b),
        Zod.string_optional (CreateRequestBody.requested_date b),
        Zod.number_positive_optional (CreateRequestBody.estimated_duration b)
  with
  | Some sid, Some m, Some d, Some e => Some (CreateRequestData.mk sid m d e)
  | _, _, _, _ => None
  end.

Definition updateRequestStatusSchema (status : JS.json) : option RequestStatus :=
  Zod.enum_status status.

(** [prisma.service.findUnique({ where: { id, is_active: true } })] *)
Definition findActiveService (db : Db) (id : string) : option Service.t :=
  find (fun s => (Service.id s =? id)%string && Service.is_active s)
       (services db).

(** [status: { in: ['pending', 'accepted'] }] *)
Definition is_open (s : RequestStatus) : bool :=
  existsb (RequestStatus_eqb s) [pending; accepted].

(** [prisma.serviceRequest.findFirst] of the duplicate check. *)
Definition findOpenRequest (db : Db) (service_id customer_id : string)
  : option ServiceRequest.t :=
  find (fun r => (ServiceRequest.service_id r =? service_id)%string
                 && (ServiceRequest.customer_id r =? customer_id)%string
                 && is_open (ServiceRequest.status r))
       (serviceRequests db).

(** [prisma.serviceRequest.findUnique({ where: { id } })] *)
Definition findRequest (db : Db) (id : string) : option ServiceRequest.t :=
  find (fun r => (ServiceRequest.id r =? id)%string) (serviceRequests db).

(** [prisma.serviceRequest.create]; [requested_date] is [null] ([None]) or
    a [Date] object, itself possibly invalid ([Some None]).  The primary
    key [new_id] is the one the database generated for the row. *)
Definition createServiceRequest (db : Db) (new_id : string)
    (service_id customer_id provider_id : string) (st : RequestStatus)
    (msg : option string) (requested_date : option (option Z))
    (duration : option Q)
  : PrismaError + (ServiceRequest.t * Db) :=
  match requested_date with
  | Some None => inl PrismaValidation
  | _ =>
      if existsb (fun r => (ServiceRequest.id r =? new_id)%string)
                 (serviceRequests db)
      then inl P2002
      else
        let row := ServiceRequest.mk new_id service_id customer_id provider_id
                     st msg (match requested_date with
                             | Some d => d
                             | None => None
                             end) duration in
        inr (row, with_serviceRequests db (serviceRequests db ++ [row]))
  end.

(** [prisma.serviceRequest.update({ where: { id }, data: { status } })] *)
Definition updateStatus (db : Db) (id : string) (st : RequestStatus)
  : PrismaError + (ServiceRequest.t * Db) :=
  match findRequest db id with
  | None => inl P2025
  | Some r =>
      inr (ServiceRequest.set_status r st,
           with_serviceRequests db
             (map (fun r => if (ServiceRequest.id r =? id)%string
                            then ServiceRequest.set_status r st else r)
                  (serviceRequests db)))
  end.

(** POST /requests, after the gate has set [req.user]. *)
Definition post (user : JWTPayload) (body : CreateRequestBody.t)
    (new_id : string) (db : Db) : Response ServiceRequest.t * Db :=
  match createRequestSchema body with
  | None => (fail 400 "Validation failed", db)
  | Some validatedData =>
      let customerId := userId user in
      match findActiveService db (CreateRequestData.service_id validatedData) with
      | None => (fail 404 "Service not found", db)
      | Some service =>
          match findOpenRequest db (CreateRequestData.service_id validatedData)
                                customerId with
          | Some _ =>
              (fail 409 "You already have a pending or accepted request for this service", db)
          | None =>
              let requested_date :=
                match CreateRequestData.requested_date validatedData with
                | Some s => if (s =? "")%string then None else Some (Date_parse s)
                | None => None
                end in
              match createServiceRequest db new_id
                      (CreateRequestData.service_id validatedData)
                      customerId (Service.provider_id service) pending
                      (CreateRequestData.message validatedData)
                      requested_date
                      (CreateRequestData.estimated_duration validatedData) with
              | inl _ => (fail 500 "Failed to create request", db)
              | inr (request, db') =>
                  (mkResponse 201 "Request created successfully" (Some request), db')
              end
          end
      end
  end.

(** The permission check of PATCH /requests/:id. *)
Definition canUpdate (userRole userId : string) (request : ServiceRequest.t)
    (status : RequestStatus) : bool :=
  if (userRole =? "provider")%string
     && (ServiceRequest.provider_id request =? userId)%string
  then existsb (RequestStatus_eqb status) [accepted; declined; completed]
  else if (userRole =? "customer")%string
          && (ServiceRequest.customer_id request =? userId)%string
  then RequestStatus_eqb status cancelled
       && RequestStatus_eqb (ServiceRequest.status request) pending
  else false.

(** PATCH /requests/:id, after the gate has set [req.user]. *)
Definition patch (user : JWTPayload) (id : string) (body_status : JS.json)
    (db : Db) : Response ServiceRequest.t * Db :=
  let userId := userId user in
  let userRole := payload_role user in
  match updateRequestStatusSchema body_status with
  | None => (fail 400 "Validation failed", db)
  | Some status =>
      match findRequest db id with
      | None => (fail 404 "Request not found", db)
      | Some request =>
          if negb (canUpdate userRole userId request status)
          then (fail 403 "You do not have permission to update this request", db)
          else
            match updateStatus db id status with
            | inl _ => (fail 500 "Failed to update request", db)
            | inr (updatedRequest, db') =>
                (mkResponse 200 "Request updated successfully" (Some updatedRequest), db')
            end
      end
  end.

End WithPlatform.
End Requests.

(* ------------------------------------------------------------------ *)
(** ** Feedback and rating aggregator (the router mounted at /feedback) *)

(** [data] of GET /feedback/provider/:id *)
Record ProviderFeedback : Type := mkProviderFeedback
  { feedback : list Feedback.t; average_rating : Q; total_reviews : nat }.

Module FeedbackRoutes.
Section WithPlatform.
Context {P : Platform}.

Definition submitFeedbackSchema (b : SubmitFeedbackBody.t)
  : option SubmitFeedbackData.t :=
  match Zod.string_min 1 (SubmitFeedbackBody.service_request_id b),
        Zod.number_min_max 1 5 (SubmitFeedbackBody.rating b),
        Zod.string_optional (SubmitFeedbackBody.comment b)
  with
  | Some i, Some r, Some c => Some (SubmitFeedbackData.mk i r c)
  | _, _, _ => None
  end.

(** [prisma.serviceRequest.findFirst] of the eligibility check. *)
Definition findCompletedRequest (db : Db) (id customer_id : string)
  : option ServiceRequest.t :=
  find (fun r => (ServiceRequest.id r =? id)%string
                 && (ServiceRequest.customer_id r =? customer_id)%string
                 && RequestStatus_eqb (ServiceRequest.status r) completed)
       (serviceRequests db).

(** [prisma.feedback.findUnique({ where: { service_request_id } })] *)
Definition findFeedback (db : Db) (service_request_id : string)
  : option Feedback.t :=
  find (fun f => (Feedback.service_request_id f =? service_request_id)%string)
       (feedbacks db).

Definition is_integer (q : Q) : bool := Qeq_bool q (inject_Z (Qfloor q)).

(** [prisma.feedback.create].  [findUnique] above type-checks only for a
    [@unique] column, so a second row for the same request is a unique
    constraint violation, like a clash on the primary key. *)
Definition createFeedback (db : Db) (new_id : string)
    (service_request_id customer_id provider_id : string) (rating : Q)
    (comment : option string) (now : Z)
  : PrismaError + (Feedback.t * Db) :=
  if feedback_rating_is_Int && negb (is_integer rating)
  then inl PrismaValidation
  else if existsb (fun f => (Feedback.id f =? new_id)%string
                            || (Feedback.service_request_id f =? service_request_id)%string)
                  (feedbacks db)
  then inl P2002
  else
    let row := Feedback.mk new_id service_request_id customer_id provider_id
                 rating comment feedback_is_public_default now in
    inr (row, with_feedbacks db (feedbacks db ++ [row])).

(** [prisma.feedback.findMany({ where: { provider_id } })] *)
Definition findProviderFeedback (db : Db) (provider_id : string)
  : list Feedback.t :=
  filter (fun f => (Feedback.provider_id f =? provider_id)%string) (feedbacks db).

(** [prisma.user.update({ where: { id }, data: { rating } })] *)
Definition updateUserRating (db : Db) (id : string) (rating : Q)
  : PrismaError + Db :=
  if existsb (fun u => (User.id u =? id)%string) (users db)
  then inr (with_users db
              (map (fun u => if (User.id u =? id)%string
                             then User.set_rating u rating else u)
                   (users db)))
  else inl P2025.

(** [list.reduce((sum, f) => sum + f.rating, 0)] *)
Definition sum_ratings (l : list Feedback.t) : Q :=
  fold_left (fun sum f => Double.add sum (Feedback.rating f)) l 0.

(** [Math.round(x * 10) / 10] *)
Definition round1 (x : Q) : Q :=
  Double.div (inject_Z (JS.Math_round (Double.mul x 10))) 10.

(** POST /feedback, after the gate has set [req.user]. *)
Definition post (user : JWTPayload) (body : SubmitFeedbackBody.t)
    (new_id : string) (now : Z) (db : Db) : Response Feedback.t * Db :=
  match submitFeedbackSchema body with
  | None => (fail 400 "Validation failed", db)
  | Some validatedData =>
      let customerId := userId user in
      let service_request_id :=
        SubmitFeedbackData.service_request_id validatedData in
      match findCompletedRequest db service_request_id customerId with
      | None =>
          (fail 404 "Service request not found or not eligible for feedback", db)
      | Some serviceRequest =>
          match findFeedback db service_request_id with
          | Some _ =>
              (fail 409 "Feedback already submitted for this service request", db)
          | None =>
              match createFeedback db new_id service_request_id customerId
                      (ServiceRequest.provider_id serviceRequest)
                      (SubmitFeedbackData.rating validatedData)
                      (SubmitFeedbackData.comment validatedData) now with
              | inl _ => (fail 500 "Failed to submit feedback", db)
              | inr (feedback, db1) =>
                  match findMany_result
                          (findProviderFeedback db1
                             (ServiceRequest.provider_id serviceRequest)) with
                  | None => (fail 500 "Failed to submit feedback", db1)
                  | Some providerFeedback =>
                      let averageRating :=
                        Double.div (sum_ratings providerFeedback)
                          (inject_Z (Z.of_nat (length providerFeedback))) in
                      match updateUserRating db1
                              (ServiceRequest.provider_id serviceRequest)
                              (round1 averageRating) with
                      | inl _ => (fail 500 "Failed to submit feedback", db1)
                      | inr db2 =>
                          (mkResponse 201 "Feedback submitted successfully"
                                      (Some feedback), db2)
                      end
                  end
              end
          end
      end
  end.

(** [orderBy: { created_at: 'desc' }] *)
Fixpoint insert_desc (f : Feedback.t) (l : list Feedback.t) : list Feedback.t :=
  match l with
  | [] => [f]
  | g :: l' =>
      if (Feedback.created_at g <=? Feedback.created_at f)%Z
      then f :: g :: l'
      else g :: insert_desc f l'
  end.

Definition orderBy_created_at_desc (l : list Feedback.t) : list Feedback.t :=
  fold_right insert_desc [] l.

(** [prisma.user.findUnique({ where: { id, role: 'provider' } })] *)
Definition findProvider (db : Db) (id : string) : option User.t :=
  find (fun u => (User.id u =? id)%string && (User.role u =? "provider")%string)
       (users db).

(** [prisma.feedback.findMany] of the listing: public rows of the
    provider, newest first. *)
Definition findPublicFeedback (db : Db) (id : string) : list Feedback.t :=
  orderBy_created_at_desc
    (filter (fun f => (Feedback.provider_id f =? id)%string
                      && Feedback.is_public f)
            (feedbacks db)).

(** GET /feedback/provider/:id (no gate on this route; the success
    envelope carries no message). *)
Definition getProvider (id : string) (db : Db) : Response ProviderFeedback :=
  match findProvider db id with
  | None => fail 404 "Provider not found"
  | Some provider =>
      match findMany_result (findPublicFeedback db id) with
      | None => fail 500 "Failed to fetch feedback"
      | Some feedback =>
          let totalReviews := length feedback in
          let averageRating :=
            if (0 <? totalReviews)%nat
            then Double.div (sum_ratings feedback)
                            (inject_Z (Z.of_nat totalReviews))
            else 0 in
          mkResponse 200 ""
            (Some (mkProviderFeedback feedback (round1 averageRating)
                                      totalReviews))
      end
  end.

End WithPlatform.
End FeedbackRoutes.

(* ------------------------------------------------------------------ *)
(** ** Routes: gate, then handler *)

Module Routes.
Section WithLibrary.
Context {J : JsonWebToken} {P : Platform} (env : ProcessEnv).

Definition customerGate (authorization : option string) (db : Db) (now : Z)
  : Gate :=
  Middleware.and_then
    (Middleware.authenticateToken env authorization db now)
    (fun u => Middleware.requireRole ["customer"] (Some u)).

(** [router.post('/', authenticateToken, requireRole(['customer']), ...)] *)
Definition POST_requests (authorization : option string) (now : Z)
    (body : CreateRequestBody.t) (new_id : string) (db : Db)
  : Response ServiceRequest.t * Db :=
  Middleware.route (customerGate authorization db now) db
    (fun u => Requests.post u body new_id db).

(** [router.patch('/:id', authenticateToken, ...)] *)
Definition PATCH_requests (authorization : option string) (now : Z)
    (id : string) (body_status : JS.json) (db : Db)
  : Response ServiceRequest.t * Db :=
  Middleware.route (Middleware.authenticateToken env authorization db now) db
    (fun u => Requests.patch u id body_status db).

(** [router.post('/', authenticateToken, requireRole(['customer']), ...)] *)
Definition POST_feedback (authorization : option string) (now : Z)
    (body : SubmitFeedbackBody.t) (new_id : string) (db : Db)
  : Response Feedback.t * Db :=
  Middleware.route (customerGate authorization db now) db
    (fun u => FeedbackRoutes.post u body new_id now db).

End WithLibrary.
End Routes.

(* ------------------------------------------------------------------ *)
(** ** The API as a transition system on the store *)

(** One write of the API.  Besides the three handlers above, the routes
    of registration, profile and service management write the [users] and
    [services] tables only; [step_other] over-approximates them. *)
Inductive step {P : Platform} : Db -> Db -> Prop :=
| step_create_request user body new_id db :
    step db (snd (Requests.post user body new_id db))
| step_update_status user id body_status db :
    step db (snd (Requests.patch user id body_status db))
| step_submit_feedback user body new_id now db :
    step db (snd (FeedbackRoutes.post user body new_id now db))
| step_other us ss db :
    step db (mkDb us ss (serviceRequests db) (feedbacks db)).

Inductive reachable {P : Platform} (db : Db) : Db -> Prop :=
| reach_here : reachable db db
| reach_step db1 db2 : reachable db db1 -> step db1 db2 -> reachable db db2.

(** A platform to run the handlers on: ISO dates are not interpreted
    (every non-empty string is the instant 0), feedback is public by
    default, and the rating column is a float or an integer. *)
Definition floatPlatform : Platform :=
  Build_Platform (fun _ => Some 0%Z) true false.
Definition intPlatform : Platform :=
  Build_Platform (fun _ => Some 0%Z) true true.

(** A platform whose [Date] constructor finds the string "not-a-date"
    invalid and reads every other string as the instant 0. *)
Definition datePlatform : Platform :=
  Build_Platform
    (fun s => if (s =? "not-a-date")%string then None else Some 0%Z) true false.

(* ------------------------------------------------------------------ *)
(** ** Notions the statements are phrased in *)

(** The authorization matrix of a status transition: who may move a
    request to which target. *)
Definition transition_allowed
    (user : JWTPayload) (request : ServiceRequest.t) (target : RequestStatus)
  : Prop :=
  (payload_role user = "provider"
   /\ ServiceRequest.provider_id request = userId user
   /\ (target = accepted \/ target = declined \/ target = completed))
  \/ (payload_role user = "customer"
      /\ ServiceRequest.customer_id request = userId user
      /\ target = cancelled
      /\ ServiceRequest.status request = pending).


(** The sum of a list of numbers as [reduce] accumulates it: from the
    left, starting at 0, each partial sum rounded to binary64. *)
Definition float_sum (l : list Q) : Q :=
  fold_left (fun sum x => Double.round64 (sum + x)) l 0.


(** A rating the submission schema lets through. *)
Definition rating_in_range (q : Q) : Prop := 1 <= q /\ q <= 5.

(** A rating as the data model describes it: a whole number from 1 to 5. *)
Definition whole_rating (q : Q) : Prop :=
  exists z : Z, (1 <= z <= 5)%Z /\ q == inject_Z z.


(* ------------------------------------------------------------------ *)
(** ** Boundary error handler ([src/middleware/errorHandler.ts]) *)

Module ErrorHandler.

(** One issue of a [ZodError]: its path, segments already printed, and
    its message. *)
Record ZodIssue : Type := mkIssue
  { issue_path : list string; issue_message : string }.

(** The class of a thrown value as the [instanceof] tests tell it apart.
    [meta] of a Prisma error is kept opaque. *)
Inductive ErrorClass : Type :=
| ZodError (errors : list ZodIssue)
| PrismaClientKnownRequestError (code : string) (meta : option string)
| PrismaClientValidationError
| AppError (statusCode : nat) (isOperational : bool)
| PlainError.

Record JsError : Type := mkError
  { error_class : ErrorClass; error_name : string;
    error_message : string; error_stack : option string }.

(** [new AppError(message, statusCode = 500, isOperational = true)];
    the class does not set [name], which stays that of [Error]. *)
Definition new_AppError (message : string) (statusCode : option nat)
    (isOperational : option bool) (stack : option string) : JsError :=
  mkError (AppError (match statusCode with Some c => c | None => 500%nat end)
                    (match isOperational with Some b => b | None => true end))
          "Error" message stack.

(** [errorDetails] when it is not [null]. *)
Inductive ErrorDetails : Type :=
| ZodDetails (fields : list (string * string))
| PrismaDetails (code : string) (meta : option string).

(** The JSON body sent: [success], [message], [error] (the details, or
    else the message of the thrown value) and, if present, [stack]. *)
Record ErrorBody : Type := mkErrorBody
  { body_success : bool; body_message : string;
    body_error : ErrorDetails + string; body_stack : option string }.

(** [process.env.NODE_ENV === 'development'] *)
Definition development (NODE_ENV : option string) : bool :=
  match NODE_ENV with
  | Some v => (v =? "development")%string
  | None => false
  end.

Definition errorHandler (NODE_ENV : option string) (error : JsError)
  : nat * ErrorBody :=
  let '(statusCode, message, errorDetails) :=
    match error_class error with
    | ZodError errors =>
        (400%nat, "Validation failed",
         Some (ZodDetails
                 (map (fun err => (String.concat "." (issue_path err),
                                   issue_message err)) errors)))
    | PrismaClientKnownRequestError code meta =>
        let '(c, m) :=
          if (code =? "P2002")%string
          then (409%nat, "A record with this information already exists")
          else if (code =? "P2025")%string
          then (404%nat, "Record not found")
          else (400%nat, "Database operation failed") in
        (c, m, Some (PrismaDetails code meta))
    | PrismaClientValidationError =>
        (400%nat, "Invalid data provided", None)
    | AppError statusCode _ =>
        (statusCode, error_message error, None)
    | PlainError =>
        if (error_name error =? "JsonWebTokenError")%string
        then (401%nat, "Invalid token", None)
        else if (error_name error =? "TokenExpiredError")%string
        then (401%nat, "Token expired", None)
        else (500%nat, "Internal server error", None)
    end in
  (statusCode,
   mkErrorBody false message
     (match errorDetails with
      | Some d => inl d
      | None => inr (error_message error)
      end)
     (if development NODE_ENV then error_stack error else None)).

(** [notFoundHandler]: the error it passes to [next]. *)
Definition notFoundHandler (originalUrl : string) (stack : option string)
  : JsError :=
  new_AppError ("Route " ++ originalUrl ++ " not found")%string
               (Some 404%nat) None stack.

End ErrorHandler.

(* ------------------------------------------------------------------ *)
(** ** Service routes that read or write the columns modelled here
       ([src/routes/services.ts]: GET /:id and DELETE /:id) *)

Definition with_services (db : Db) (l : list Service.t) : Db :=
  mkDb (users db) l (serviceRequests db) (feedbacks db).

Module Services.

(** [prisma.service.findFirst({ where: { id, provider_id, is_active: true } })] *)
Definition findOwnedService (db : Db) (id providerId : string)
  : option Service.t :=
  find (fun s => (Service.id s =? id)%string
                 && (Service.provider_id s =? providerId)%string
                 && Service.is_active s)
       (services db).

(** [prisma.service.update({ where: { id }, data: { is_active: false } })] *)
Definition deactivate (db : Db) (id : string) : PrismaError + Db :=
  if existsb (fun s => (Service.id s =? id)%string) (services db)
  then inr (with_services db
              (map (fun s => if (Service.id s =? id)%string
                             then Service.mk (Service.id s)
                                             (Service.provider_id s) false
                             else s)
                   (services db)))
  else inl P2025.

(** DELETE /services/:id, after the gate has set [req.user]. *)
Definition delete (user : JWTPayload) (id : string) (db : Db)
  : Response unit * Db :=
  let providerId := userId user in
  match findOwnedService db id providerId with
  | None => (fail 404 "Service not found or access denied", db)
  | Some existingService =>
      match deactivate db id with
      | inl _ => (fail 500 "Failed to delete service", db)
      | inr db' => (mkResponse 200 "Service deleted successfully" None, db')
      end
  end.

(** [_count: { requests: true }] *)
Definition count_requests (db : Db) (service_id : string) : nat :=
  length (filter (fun r => (ServiceRequest.service_id r =? service_id)%string)
                 (serviceRequests db)).

(** GET /services/:id (no gate): the row and its [review_count]. *)
Definition get (id : string) (db : Db) : Response (Service.t * nat) :=
  match Requests.findActiveService db id with
  | None => fail 404 "Service not found"
  | Some service =>
      mkResponse 200 "" (Some (service, count_requests db id))
  end.

End Services.

(* ------------------------------------------------------------------ *)
(** ** Accounts: registration, login, refresh and profile
       (the routers mounted at /auth and /profile) *)

(** The [bcryptjs] package as [AuthUtils] uses it; the salt drawn by
    [bcrypt.hash] is an argument. *)
Class Bcrypt : Type :=
  { bcrypt_hash : string -> nat -> string -> string;
    bcrypt_compare : string -> string -> bool }.

(** What these routes rely on without declaring it: zod's e-mail test and
    the column defaults of the [User] model in [schema.prisma]. *)
Class AccountPlatform : Type :=
  { zod_email : string -> bool;
    user_is_active_default : bool;
    user_is_verified_default : bool;
    user_rating_default : Q }.

(** A row of the users table with the columns these routes read or write;
    [user] holds those the gate and the handlers above read, so that
    [Db.users] is the projection [users_of].  The columns [avatar_url] and
    [updated_at], only ever copied into a response, are left out. *)
Module Account.
Record t : Type := mk
  { user : User.t; name : string; password : string;
    phone : option string; location : option string;
    is_verified : bool; created_at : Z }.
End Account.

Definition users_of (accounts : list Account.t) : list User.t :=
  map Account.user accounts.

(** The [select]ed columns sent back: never the password. *)
Record UserResponse : Type := mkUserResponse
  { ur_id : string; ur_name : string; ur_email : string; ur_role : string;
    ur_phone : option string; ur_location : option string; ur_rating : Q;
    ur_is_verified : bool; ur_created_at : Z }.

Definition respond_user (a : Account.t) : UserResponse :=
  mkUserResponse (User.id (Account.user a)) (Account.name a)
    (User.email (Account.user a)) (User.role (Account.user a))
    (Account.phone a) (Account.location a) (User.rating (Account.user a))
    (Account.is_verified a) (Account.created_at a).

Module RegisterBody.
Record t : Type := mk
  { name : JS.json; email : JS.json; password : JS.json; role : JS.json;
    phone : JS.json; location : JS.json }.
End RegisterBody.

Module RegisterData.
Record t : Type := mk
  { name : string; email : string; password : string; role : string;
    phone : option string; location : option string }.
End RegisterData.

Module UpdateProfileBody.
Record t : Type := mk
  { name : JS.json; phone : JS.json; location : JS.json }.
End UpdateProfileBody.

Module UpdateProfileData.
Record t : Type := mk
  { name : option string; phone : option string; location : option string }.
End UpdateProfileData.

Module ZodAccount.
Import JS.

(** [z.string().email()] *)
Definition email {A : AccountPlatform} (j : json) : option string :=
  match j with
  | JString s => if zod_email s then Some s else None
  | _ => None
  end.

(** [z.enum(['customer', 'provider'])] *)
Definition enum_role (j : json) : option string :=
  match j with
  | JString s => if JS.includes ["customer"; "provider"] s then Some s else None
  | _ => None
  end.

(** [z.string().min(n).optional()] *)
Definition string_min_optional (n : nat) (j : json) : option (option string) :=
  match j with
  | JUndefined => Some None
  | JString s => if (n <=? String.length s)%nat then Some (Some s) else None
  | _ => None
  end.

End ZodAccount.

Module AuthRoutes.
Section WithLibraries.
Context {J : JsonWebToken} {B : Bcrypt} {A : AccountPlatform} (env : ProcessEnv).

(** [AuthUtils.hashPassword]: [bcrypt.hash(password, 12)] *)
Definition hashPassword (password salt : string) : string :=
  bcrypt_hash password 12 salt.

(** [AuthUtils.verifyPassword] *)
Definition verifyPassword (password hashedPassword : string) : bool :=
  bcrypt_compare password hashedPassword.

Definition registerSchema (b : RegisterBody.t) : option RegisterData.t :=
  match Zod.string_min 2 (RegisterBody.name b),
        ZodAccount.email (RegisterBody.email b),
        Zod.string_min 6 (RegisterBody.password b),
        ZodAccount.enum_role (RegisterBody.role b),
        Zod.string_optional (RegisterBody.phone b),
        Zod.string_optional (RegisterBody.location b)
  with
  | Some n, Some e, Some p, Some r, Some ph, Some l =>
      Some (RegisterData.mk n e p r ph l)
  | _, _, _, _, _, _ => None
  end.

(** [loginSchema]: the validated [email] and [password]. *)
Definition loginSchema (email password : JS.json) : option (string * string) :=
  match ZodAccount.email email, Zod.string_min 1 password with
  | Some e, Some p => Some (e, p)
  | _, _ => None
  end.

Definition refreshTokenSchema (refresh_token : JS.json) : option string :=
  Zod.string_min 1 refresh_token.

(** [prisma.user.findUnique({ where: { email } })] *)
Definition findByEmail (accounts : list Account.t) (email : string)
  : option Account.t :=
  find (fun a => (User.email (Account.user a) =? email)%string) accounts.

(** [prisma.user.findUnique({ where: { id } })] *)
Definition findById (accounts : list Account.t) (id : string)
  : option Account.t :=
  find (fun a => (User.id (Account.user a) =? id)%string) accounts.

(** [prisma.user.create]: [id] and [email] are unique columns; the
    columns not given take their defaults. *)
Definition createUser (accounts : list Account.t) (new_id : string)
    (d : RegisterData.t) (hashedPassword : string) (now : Z)
  : PrismaError + (Account.t * list Account.t) :=
  if existsb (fun a => (User.id (Account.user a) =? new_id)%string
                       || (User.email (Account.user a) =? RegisterData.email d)%string)
             accounts
  then inl P2002
  else
    let row :=
      Account.mk (User.mk new_id (RegisterData.email d) (RegisterData.role d)
                          user_is_active_default user_rating_default)
                 (RegisterData.name d) hashedPassword
                 (RegisterData.phone d) (RegisterData.location d)
                 user_is_verified_default now in
    inr (row, accounts ++ [row]).

Definition tokenData (a : Account.t) : UserTokenData :=
  mkUserTokenData (User.id (Account.user a)) (User.email (Account.user a))
                  (User.role (Account.user a)).

(** POST /auth/register *)
Definition register (body : RegisterBody.t) (new_id salt : string) (now : Z)
    (accounts : list Account.t)
  : Response (TokenPair * UserResponse) * list Account.t :=
  match registerSchema body with
  | None => (fail 400 "Validation failed", accounts)
  | Some validatedData =>
      match findByEmail accounts (RegisterData.email validatedData) with
      | Some _ => (fail 409 "User with this email already exists", accounts)
      | None =>
          let hashedPassword :=
            hashPassword (RegisterData.password validatedData) salt in
          match createUser accounts new_id validatedData hashedPassword now with
          | inl _ => (fail 500 "Registration failed", accounts)
          | inr (user, accounts') =>
              let tokenPair :=
                AuthUtils.generateTokenPair env now (tokenData user) in
              (mkResponse 201 "User registered successfully"
                          (Some (tokenPair, respond_user user)), accounts')
          end
      end
  end.

(** POST /auth/login *)
Definition login (email password : JS.json) (now : Z)
    (accounts : list Account.t) : Response (TokenPair * UserResponse) :=
  match loginSchema email password with
  | None => fail 400 "Validation failed"
  | Some (email, password) =>
      match findByEmail accounts email with
      | None => fail 401 "Invalid email or password"
      | Some user =>
          if negb (verifyPassword password (Account.password user))
          then fail 401 "Invalid email or password"
          else if negb (User.is_active (Account.user user))
          then fail 401 "Account is deactivated"
          else
            let tokenPair :=
              AuthUtils.generateTokenPair env now (tokenData user) in
            mkResponse 200 "Login successful"
                       (Some (tokenPair, respond_user user))
      end
  end.

(** POST /auth/refresh *)
Definition refresh (refresh_token : JS.json) (now : Z)
    (accounts : list Account.t) : Response TokenPair :=
  match refreshTokenSchema refresh_token with
  | None => fail 400 "Validation failed"
  | Some refresh_token =>
      match AuthUtils.verifyRefreshToken env now refresh_token with
      | None => fail 401 "Invalid refresh token"
      | Some payload =>
          match findById accounts (userId payload) with
          | None => fail 401 "User not found or inactive"
          | Some user =>
              if negb (User.is_active (Account.user user))
              then fail 401 "User not found or inactive"
              else
                mkResponse 200 "Token refreshed successfully"
                  (Some (AuthUtils.generateTokenPair env now (tokenData user)))
          end
      end
  end.

End WithLibraries.
End AuthRoutes.

Module ProfileRoutes.

Definition updateProfileSchema (b : UpdateProfileBody.t)
  : option UpdateProfileData.t :=
  match ZodAccount.string_min_optional 2 (UpdateProfileBody.name b),
        Zod.string_optional (UpdateProfileBody.phone b),
        Zod.string_optional (UpdateProfileBody.location b)
  with
  | Some n, Some p, Some l => Some (UpdateProfileData.mk n p l)
  | _, _, _ => None
  end.

(** GET /profile, after the gate has set [req.user]. *)
Definition get (user : JWTPayload) (accounts : list Account.t)
  : Response UserResponse :=
  match AuthRoutes.findById accounts (userId user) with
  | None => fail 404 "User not found"
  | Some a => mkResponse 200 "" (Some (respond_user a))
  end.

(** [data: validatedData]: a key left [undefined] keeps the column. *)
Definition apply_update (d : UpdateProfileData.t) (a : Account.t) : Account.t :=
  Account.mk (Account.user a)
    (match UpdateProfileData.name d with Some n => n | None => Account.name a end)
    (Account.password a)
    (match UpdateProfileData.phone d with
     | Some p => Some p | None => Account.phone a end)
    (match UpdateProfileData.location d with
     | Some l => Some l | None => Account.location a end)
    (Account.is_verified a) (Account.created_at a).

(** [prisma.user.update({ where: { id }, data })] *)
Definition updateUser (accounts : list Account.t) (id : string)
    (d : UpdateProfileData.t) : PrismaError + (Account.t * list Account.t) :=
  match AuthRoutes.findById accounts id with
  | None => inl P2025
  | Some a =>
      inr (apply_update d a,
           map (fun x => if (User.id (Account.user x) =? id)%string
                         then apply_update d x else x) accounts)
  end.

(** PATCH /profile, after the gate has set [req.user]. *)
Definition patch (user : JWTPayload) (body : UpdateProfileBody.t)
    (accounts : list Account.t) : Response UserResponse * list Account.t :=
  match updateProfileSchema body with
  | None => (fail 400 "Validation failed", accounts)
  | Some validatedData =>
      match updateUser accounts (userId user) validatedData with
      | inl _ => (fail 500 "Failed to update profile", accounts)
      | inr (a, accounts') =>
          (mkResponse 200 "Profile updated successfully"
                      (Some (respond_user a)), accounts')
      end
  end.

End ProfileRoutes.

(** [contains c s]: the character occurs in the string. *)
Fixpoint contains (c : ascii) (s : string) : bool :=
  match s with
  | EmptyString => false
  | String d rest => Ascii.eqb d c || contains c rest
  end.

(** Executable stand-ins for the libraries of the account routes: the
    hash spells out salt and password; an address is a string with an at
    sign. *)
Definition toyBcrypt : Bcrypt :=
  Build_Bcrypt (fun password _ salt => (salt ++ "$" ++ password)%string)
               (fun password hashed =>
                  match JS.split "$"%char hashed with
                  | [_; p] => (p =? password)%string
                  | _ => false
                  end).

Definition toyAccounts : AccountPlatform :=
  Build_AccountPlatform (contains "@"%char) true false 0.


(* ------------------------------------------------------------------ *)
(** * Binary64 rounding

    Facts about [Double.round64]: it is monotone, and it leaves integers
    below 2^53 alone. *)

Section Binary64Facts.

Import Double.

Lemma pow2_pos e : 0 < pow2 e.
Proof. apply Qpower_0_lt. reflexivity. Qed.

Lemma pow2_add a b : pow2 (a + b) == pow2 a * pow2 b.
Proof. apply Qpower_plus. discriminate. Qed.

Lemma pow2_succ a : pow2 (a + 1) == 2 * pow2 a.
Proof. rewrite pow2_add. change (pow2 1) with 2. ring. Qed.

Lemma pow2_le a b : (a <= b)%Z -> pow2 a <= pow2 b.
Proof. intros H. apply Qpower_le_compat_l; [exact H|discriminate]. Qed.

Lemma pow2_lt a b : (a < b)%Z -> pow2 a < pow2 b.
Proof. intros H. apply Qpower_lt_compat_l; [exact H|reflexivity]. Qed.

Lemma pow2_inject a : (0 <= a)%Z -> inject_Z (2 ^ a) == pow2 a.
Proof. intros H. unfold pow2. now rewrite Zpower_Qpower. Qed.

Lemma log2_bracket p :
  (0 < p)%Z ->
  pow2 (Z.log2 p) <= inject_Z p /\ inject_Z p < 2 * pow2 (Z.log2 p).
Proof.
  intros Hp. destruct (Z.log2_spec p Hp) as [H1 H2].
  pose proof (Z.log2_nonneg p) as Hn.
  rewrite <- pow2_succ, <- !pow2_inject by lia.
  rewrite <- Zle_Qle, <- Zlt_Qlt. replace (Z.log2 p + 1)%Z with (Z.succ (Z.log2 p)) by lia.
  split; assumption.
Qed.

(** [ilog2 x] is the binary exponent of a positive [x]. *)
Lemma ilog2_spec x :
  0 < x -> pow2 (ilog2 x) <= x /\ x < 2 * pow2 (ilog2 x).
Proof.
  intros Hx. destruct x as [p q]. unfold ilog2. cbn [Qnum Qden].
  assert (Hp : (0 < p)%Z).
  { unfold Qlt in Hx. cbn in Hx. lia. }
  destruct (log2_bracket p Hp) as [Pa Pb].
  destruct (log2_bracket (Zpos q) eq_refl) as [Qa Qb].
  set (a := Z.log2 p) in *. set (b := Z.log2 (Zpos q)) in *.
  pose proof (pow2_pos a) as HA. pose proof (pow2_pos b) as HB.
  assert (Hx' : p # q == inject_Z p / inject_Z (Zpos q)) by apply Qmake_Qdiv.
  assert (Hq : 0 < inject_Z (Zpos q)) by reflexivity.
  assert (Hsub : pow2 (a - b) * pow2 b == pow2 a).
  { rewrite <- pow2_add. now replace (a - b + b)%Z with a by lia. }
  assert (Hsub1 : 2 * pow2 (a - b - 1) == pow2 (a - b)).
  { rewrite <- pow2_succ. now replace (a - b - 1 + 1)%Z with (a - b)%Z by lia. }
  pose proof (pow2_pos (a - b)) as HL. pose proof (pow2_pos (a - b - 1)) as HL1.
  assert (Hup : p # q < 2 * pow2 (a - b)).
  { rewrite Hx'. apply Qlt_shift_div_r; [exact Hq|]. nra. }
  assert (Hlo : pow2 (a - b - 1) <= p # q).
  { rewrite Hx'. apply Qle_shift_div_l; [exact Hq|]. nra. }
  destruct (Qle_bool (pow2 (a - b)) (p # q)) eqn:Hb.
  - apply Qle_bool_iff in Hb. split; assumption.
  - assert (Hlt : p # q < pow2 (a - b)).
    { apply Qnot_le_lt. intros H. apply Qle_bool_iff in H. congruence. }
    split; [exact Hlo|]. now rewrite Hsub1.
Qed.

Lemma ilog2_unique x e :
  pow2 e <= x -> x < 2 * pow2 e -> 0 < x -> ilog2 x = e.
Proof.
  intros H1 H2 Hx. destruct (ilog2_spec x Hx) as [I1 I2].
  rewrite <- pow2_succ in H2, I2.
  assert (ilog2 x < e + 1)%Z.
  { apply (Qpower_lt_compat_l_inv 2); [|reflexivity].
    eapply Qle_lt_trans; eassumption. }
  assert (e < ilog2 x + 1)%Z.
  { apply (Qpower_lt_compat_l_inv 2); [|reflexivity].
    eapply Qle_lt_trans; eassumption. }
  lia.
Qed.

(** Nearest integer, ties to even. *)
Lemma rne_floor y : (Qfloor y <= rne y <= Qfloor y + 1)%Z.
Proof.
  unfold rne. destruct (Qcompare _ _); [destruct (Z.even _)| |]; lia.
Qed.


Lemma rne_inject k : rne (inject_Z k) = k.
Proof.
  unfold rne. rewrite Qfloor_Z.
  destruct (Qcompare_spec (inject_Z k - inject_Z k) (1 # 2)) as [E|E|E].
  - exfalso. lra.
  - reflexivity.
  - exfalso. lra.
Qed.

Lemma rne_comp x y : x == y -> rne x = rne y.
Proof.
  intros H. unfold rne.
  assert (E1 : Qfloor x = Qfloor y) by (apply Qfloor_comp; exact H).
  rewrite E1.
  assert (E2 : Qcompare (x - inject_Z (Qfloor y)) (1 # 2)
               = Qcompare (y - inject_Z (Qfloor y)) (1 # 2)).
  { apply Qcompare_comp; [|reflexivity].
    apply Qplus_comp; [exact H|reflexivity]. }
  now rewrite E2.
Qed.

Lemma rne_mono x y : x <= y -> (rne x <= rne y)%Z.
Proof.
  intros Hxy. pose proof (Qfloor_resp_le x y Hxy) as Hf.
  destruct (Z.eq_dec (Qfloor x) (Qfloor y)) as [E|E].
  - unfold rne. rewrite E.
    destruct (Qcompare_spec (x - inject_Z (Qfloor y)) (1 # 2)) as [X|X|X];
      destruct (Qcompare_spec (y - inject_Z (Qfloor y)) (1 # 2)) as [Y|Y|Y];
      try destruct (Z.even (Qfloor y)); try lia; exfalso; lra.
  - pose proof (rne_floor x). pose proof (rne_floor y). lia.
Qed.


Lemma ilog2_mono x y : 0 < x -> x <= y -> (ilog2 x <= ilog2 y)%Z.
Proof.
  intros Hx Hxy. assert (Hy : 0 < y) by lra.
  destruct (ilog2_spec x Hx) as [X1 _]. destruct (ilog2_spec y Hy) as [_ Y2].
  rewrite <- pow2_succ in Y2.
  assert (ilog2 x < ilog2 y + 1)%Z; [|lia].
  apply (Qpower_lt_compat_l_inv 2); [|reflexivity].
  apply (Qle_lt_trans _ x); [exact X1|]. apply (Qle_lt_trans _ y); assumption.
Qed.

Lemma exponent_mono x y : 0 < x -> x <= y -> (exponent x <= exponent y)%Z.
Proof.
  intros Hx Hxy. unfold exponent. pose proof (ilog2_mono x y Hx Hxy). lia.
Qed.

Lemma exponent_upper x : 0 < x -> x < pow2 (exponent x + 53).
Proof.
  intros Hx. destruct (ilog2_spec x Hx) as [_ H2]. rewrite <- pow2_succ in H2.
  apply (Qlt_le_trans _ _ _ H2). apply pow2_le. unfold exponent. lia.
Qed.

Lemma exponent_lower x :
  0 < x -> (-1074 < exponent x)%Z -> pow2 (exponent x + 52) <= x.
Proof.
  intros Hx He. destruct (ilog2_spec x Hx) as [H1 _].
  replace (exponent x + 52)%Z with (ilog2 x); [exact H1|].
  unfold exponent in *. lia.
Qed.

Lemma scaled_mono x y e : x <= y -> x / pow2 e <= y / pow2 e.
Proof.
  intros H. unfold Qdiv. apply Qmult_le_compat_r; [exact H|].
  apply Qlt_le_weak, Qinv_lt_0_compat, pow2_pos.
Qed.

Lemma round_pos_nonneg x : 0 < x -> 0 <= round_pos x.
Proof.
  intros Hx. unfold round_pos. apply Qmult_le_0_compat.
  - change 0 with (inject_Z 0). rewrite <- Zle_Qle.
    change 0%Z with (rne (inject_Z 0)). apply rne_mono.
    apply Qle_shift_div_l; [apply pow2_pos|]. change (inject_Z 0) with 0. lra.
  - apply Qlt_le_weak, pow2_pos.
Qed.

Lemma round_pos_upper x : 0 < x -> round_pos x <= pow2 (exponent x + 53).
Proof.
  intros Hx. unfold round_pos. rewrite pow2_add, (Qmult_comm (pow2 _)).
  apply Qmult_le_compat_r; [|apply Qlt_le_weak, pow2_pos].
  rewrite <- (pow2_inject 53) by lia. rewrite <- Zle_Qle.
  rewrite <- (rne_inject (2 ^ 53)). apply rne_mono.
  rewrite (pow2_inject 53) by lia.
  apply Qle_shift_div_r; [apply pow2_pos|]. rewrite <- pow2_add.
  rewrite Z.add_comm. apply Qlt_le_weak, exponent_upper, Hx.
Qed.

Lemma round_pos_lower x :
  0 < x -> (-1074 < exponent x)%Z -> pow2 (exponent x + 52) <= round_pos x.
Proof.
  intros Hx He. unfold round_pos. rewrite pow2_add, (Qmult_comm (pow2 _)).
  apply Qmult_le_compat_r; [|apply Qlt_le_weak, pow2_pos].
  rewrite <- (pow2_inject 52) by lia. rewrite <- Zle_Qle.
  rewrite <- (rne_inject (2 ^ 52)). apply rne_mono.
  rewrite (pow2_inject 52) by lia.
  apply Qle_shift_div_l; [apply pow2_pos|]. rewrite <- pow2_add.
  rewrite Z.add_comm. now apply exponent_lower.
Qed.

Lemma round_pos_mono x y : 0 < x -> x <= y -> round_pos x <= round_pos y.
Proof.
  intros Hx Hxy. assert (Hy : 0 < y) by lra.
  pose proof (exponent_mono x y Hx Hxy) as He.
  destruct (Z.eq_dec (exponent x) (exponent y)) as [E|E].
  - unfold round_pos. rewrite E.
    apply Qmult_le_compat_r; [|apply Qlt_le_weak, pow2_pos].
    rewrite <- Zle_Qle. apply rne_mono. now apply scaled_mono.
  - apply (Qle_trans _ (pow2 (exponent x + 53))); [now apply round_pos_upper|].
    apply (Qle_trans _ (pow2 (exponent y + 52))); [apply pow2_le; lia|].
    apply round_pos_lower; [exact Hy|]. unfold exponent in *. lia.
Qed.

(** Integers below 2^53 are binary64 numbers. *)
Lemma round_pos_inject z :
  (0 < z < 2 ^ 53)%Z -> round_pos (inject_Z z) == inject_Z z.
Proof.
  intros [Hz1 Hz2]. assert (Hx : 0 < inject_Z z).
  { change 0 with (inject_Z 0). rewrite <- Zlt_Qlt. exact Hz1. }
  assert (He : (-1074 <= exponent (inject_Z z) <= 0)%Z).
  { destruct (ilog2_spec _ Hx) as [H1 _].
    assert (ilog2 (inject_Z z) < 53)%Z.
    { apply (Qpower_lt_compat_l_inv 2); [|reflexivity].
      apply (Qle_lt_trans _ _ _ H1). fold (pow2 53).
      rewrite <- (pow2_inject 53) by lia. now rewrite <- Zlt_Qlt. }
    unfold exponent. lia. }
  unfold round_pos. set (e := exponent (inject_Z z)) in *.
  assert (Hinv : pow2 (- e) * pow2 e == 1).
  { rewrite <- pow2_add. now replace (- e + e)%Z with 0%Z by lia. }
  assert (Hs : inject_Z z / pow2 e == inject_Z (z * 2 ^ (- e))).
  { rewrite inject_Z_mult, pow2_inject by lia.
    unfold Qdiv, pow2. now rewrite Qpower_opp. }
  rewrite (rne_comp _ _ Hs), rne_inject.
  rewrite inject_Z_mult, pow2_inject by lia.
  rewrite <- Qmult_assoc, Hinv. ring.
Qed.

Lemma Qred_pos x : 0 < x -> 0 < Qred x.
Proof. intros H. now rewrite Qred_correct. Qed.

Lemma round64_comp x y : x == y -> round64 x = round64 y.
Proof. intros H. unfold round64. now rewrite (Qred_complete x y H). Qed.

Lemma round64_of_pos x : 0 < x -> round64 x = round_pos (Qred x).
Proof.
  intros Hx. apply Qred_pos in Hx. unfold round64.
  destruct (Qred x) as [[|p|p] q]; try reflexivity; discriminate.
Qed.

Lemma round64_of_neg x : x < 0 -> round64 x = - round_pos (- Qred x).
Proof.
  intros Hx. assert (H : Qred x < 0) by now rewrite Qred_correct.
  unfold round64.
  destruct (Qred x) as [[|p|p] q]; try reflexivity; discriminate.
Qed.

Lemma round64_of_zero x : x == 0 -> round64 x = 0.
Proof. intros H. now rewrite (round64_comp x 0 H). Qed.

(** Rounding to binary64 is monotone. *)
Lemma round64_mono x y : x <= y -> round64 x <= round64 y.
Proof.
  intros Hxy.
  destruct (Qlt_le_dec x 0) as [Hx|Hx]; destruct (Qlt_le_dec y 0) as [Hy|Hy].
  - rewrite (round64_of_neg x Hx), (round64_of_neg y Hy).
    apply Qopp_le_compat. apply round_pos_mono.
    + rewrite Qred_correct. lra.
    + rewrite !Qred_correct. lra.
  - rewrite (round64_of_neg x Hx).
    assert (H0 : 0 <= round64 y).
    { destruct (Qle_lt_or_eq _ _ Hy) as [Hp|Hz].
      - rewrite (round64_of_pos y Hp). apply round_pos_nonneg, Qred_pos, Hp.
      - rewrite (round64_of_zero y (Qeq_sym _ _ Hz)). lra. }
    assert (H1 : 0 <= round_pos (- Qred x)).
    { apply round_pos_nonneg. rewrite Qred_correct. lra. }
    lra.
  - exfalso. lra.
  - destruct (Qle_lt_or_eq _ _ Hx) as [Hp|Hz].
    + assert (Hq : 0 < y) by lra.
      rewrite (round64_of_pos x Hp), (round64_of_pos y Hq).
      apply round_pos_mono; [now apply Qred_pos|]. now rewrite !Qred_correct.
    + rewrite (round64_of_zero x (Qeq_sym _ _ Hz)).
      destruct (Qle_lt_or_eq _ _ Hy) as [Hq|Hz'].
      * rewrite (round64_of_pos y Hq). apply round_pos_nonneg, Qred_pos, Hq.
      * rewrite (round64_of_zero y (Qeq_sym _ _ Hz')). lra.
Qed.

(** Integers of magnitude below 2^53 are rounded to themselves. *)
Lemma round64_inject z :
  (0 <= z < 2 ^ 53)%Z -> round64 (inject_Z z) == inject_Z z.
Proof.
  intros [H0 H1]. destruct (Z.eq_dec z 0) as [->|Hz]; [reflexivity|].
  assert (Hx : 0 < inject_Z z).
  { change 0 with (inject_Z 0). rewrite <- Zlt_Qlt. lia. }
  rewrite (round64_of_pos _ Hx).
  assert (Hr : Qred (inject_Z z) = inject_Z z).
  { apply Qcanon.Qred_identity. cbn. apply Z.gcd_1_r. }
  rewrite Hr. apply round_pos_inject. lia.
Qed.


End Binary64Facts.

(* ------------------------------------------------------------------ *)
(** * Token service *)

Section TokenFacts.
Context {J : JsonWebToken}.

Lemma or_default_set key dflt :
  key <> "" -> JS.or_default (Some key) dflt = key.
Proof.
  intros Hk. unfold JS.or_default.
  destruct (String.eqb_spec key ""); congruence.
Qed.

(** With [JWT_SECRET_KEY] set, both constants of [auth.ts] read it. *)
Lemma secrets_coincide key :
  key <> "" ->
  AuthUtils.JWT_SECRET (mkEnv (Some key)) = key
  /\ AuthUtils.JWT_REFRESH_SECRET (mkEnv (Some key)) = key.
Proof.
  intros Hk. unfold AuthUtils.JWT_SECRET, AuthUtils.JWT_REFRESH_SECRET.
  cbn [JWT_SECRET_KEY]. now rewrite !or_default_set.
Qed.

(** Only the fall-back literals differ. *)
Lemma default_secrets_distinct :
  AuthUtils.JWT_SECRET (mkEnv None) <> AuthUtils.JWT_REFRESH_SECRET (mkEnv None).
Proof. cbv. discriminate. Qed.

(** With the variable set the two verifiers are one function. *)
Lemma verifiers_coincide key now token :
  key <> "" ->
  AuthUtils.verifyRefreshToken (mkEnv (Some key)) now token
  = AuthUtils.verifyAccessToken (mkEnv (Some key)) now token.
Proof.
  intros Hk. unfold AuthUtils.verifyRefreshToken, AuthUtils.verifyAccessToken.
  destruct (secrets_coincide key Hk) as [-> ->]. reflexivity.
Qed.

(** A library that accepts a token under its own key and refuses it under
    any other keeps the two classes apart as long as the variable is unset:
    the pair verifies to the same claims and cross-use fails. *)
Lemma defaults_keep_classes_apart user now t :
  (forall p key life, jwt_verify (jwt_sign p key now life) key t = Some p) ->
  (forall p key key' life,
     key <> key' -> jwt_verify (jwt_sign p key now life) key' t = None) ->
  let env := mkEnv None in
  let pair := AuthUtils.generateTokenPair env now user in
  AuthUtils.verifyAccessToken env t (accessToken pair)
    = AuthUtils.verifyRefreshToken env t (refreshToken pair)
  /\ AuthUtils.verifyAccessToken env t (accessToken pair)
     = Some (AuthUtils.payload_of user)
  /\ AuthUtils.verifyRefreshToken env t (accessToken pair) = None
  /\ AuthUtils.verifyAccessToken env t (refreshToken pair) = None.
Proof.
  intros Hok Hbad env pair. subst env pair.
  unfold AuthUtils.verifyAccessToken, AuthUtils.verifyRefreshToken,
    AuthUtils.generateTokenPair, AuthUtils.generateAccessToken,
    AuthUtils.generateRefreshToken.
  cbn [accessToken refreshToken]. rewrite !Hok.
  repeat split; apply Hbad; cbv; discriminate.
Qed.

End TokenFacts.

(** With the fall-back secrets the toy library keeps the classes apart. *)
Example toy_pair_roundtrip :
  let env := mkEnv None in
  let u := mkUserTokenData "u1" "a@b.c" "customer" in
  let tp := AuthUtils.generateTokenPair (J := ToyJwt.lib) env 100 u in
  AuthUtils.verifyAccessToken (J := ToyJwt.lib) env 200 (accessToken tp)
    = Some (mkPayload "u1" "a@b.c" "customer")
  /\ AuthUtils.verifyRefreshToken (J := ToyJwt.lib) env 200 (accessToken tp) = None
  /\ AuthUtils.verifyAccessToken (J := ToyJwt.lib) env 1000 (accessToken tp) = None.
Proof. vm_compute. repeat split. Qed.

(** C1 (the code departs from it).  The claim: the tokens of
    [generateTokenPair] verify to the same claims and each is refused by
    the verifier of the other class, the classes having distinct secrets.
    In the code both secrets are read from [JWT_SECRET_KEY]: whenever that
    variable is set (to a non-empty [key]) and the library accepts a token
    under the key that signed it, [verifyRefreshToken] returns the claims
    of the access token and [verifyAccessToken] those of the refresh
    token, at any instant [t] the library deems them unexpired. *)
Theorem cross_use_accepted_when_key_set
    (J : JsonWebToken) (key : string) (user : UserTokenData) (now t : Z) :
  key <> "" ->
  jwt_verify (jwt_sign (AuthUtils.payload_of user) key now (15 * 60)) key t
    = Some (AuthUtils.payload_of user) ->
  jwt_verify (jwt_sign (AuthUtils.payload_of user) key now (7 * 24 * 60 * 60)) key t
    = Some (AuthUtils.payload_of user) ->
  let env := mkEnv (Some key) in
  let pair := AuthUtils.generateTokenPair env now user in
  AuthUtils.verifyRefreshToken env t (accessToken pair)
    = Some (AuthUtils.payload_of user)
  /\ AuthUtils.verifyAccessToken env t (refreshToken pair)
    = Some (AuthUtils.payload_of user).
Proof.
  intros Hk Hacc Href env pair. subst env pair.
  unfold AuthUtils.verifyRefreshToken, AuthUtils.verifyAccessToken,
    AuthUtils.generateTokenPair, AuthUtils.generateAccessToken,
    AuthUtils.generateRefreshToken.
  cbn [accessToken refreshToken].
  destruct (secrets_coincide key Hk) as [-> ->].
  split; assumption.
Qed.

Lemma cross_use_accepted_when_key_set_witness :
  let user := mkUserTokenData "u1" "ann@example.org" "customer" in
  let env := mkEnv (Some "k3y") in
  let pair := AuthUtils.generateTokenPair (J := ToyJwt.lib) env 1000 user in
  AuthUtils.verifyRefreshToken (J := ToyJwt.lib) env 1500 (accessToken pair)
    = Some (mkPayload "u1" "ann@example.org" "customer")
  /\ AuthUtils.verifyAccessToken (J := ToyJwt.lib) env 1500 (refreshToken pair)
    = Some (mkPayload "u1" "ann@example.org" "customer").
Proof.
  apply (cross_use_accepted_when_key_set ToyJwt.lib "k3y"
           (mkUserTokenData "u1" "ann@example.org" "customer") 1000 1500).
  - discriminate.
  - vm_compute. reflexivity.
  - vm_compute. reflexivity.
Defined.

(* ------------------------------------------------------------------ *)
(** * Authorization gate *)

Section GateFacts.
Context {J : JsonWebToken} (env : ProcessEnv).

(** The gate lets a call through exactly when the bearer token is
    present, verifies, and names an account that exists and is active. *)
Lemma authenticateToken_next authorization db now p :
  Middleware.authenticateToken env authorization db now = Next p <->
  exists token u,
    Middleware.bearer authorization = Some token /\ token <> ""
    /\ AuthUtils.verifyAccessToken env now token = Some p
    /\ Middleware.findUser db (userId p) = Some u
    /\ User.is_active u = true.
Proof.
  unfold Middleware.authenticateToken.
  destruct (Middleware.bearer authorization) as [token|]; cbn [Middleware.falsy].
  - destruct (String.eqb_spec token "") as [->|Hne].
    + split; [discriminate|]. intros (t & u & Ht & Hn & _).
      injection Ht as <-. congruence.
    + destruct (AuthUtils.verifyAccessToken env now token) as [q|] eqn:Hv.
      * destruct (Middleware.findUser db (userId q)) as [u|] eqn:Hu.
        -- destruct (User.is_active u) eqn:Ha; cbn [negb].
           ++ split.
              ** intros [= <-]. exists token, u. auto.
              ** intros (t & u' & [= <-] & _ & Hq & _). congruence.
           ++ split; [discriminate|].
              intros (t & u' & [= <-] & _ & Hq & Hu' & Ha').
              assert (q = p) by congruence. subst q. congruence.
        -- split; [discriminate|].
           intros (t & u' & [= <-] & _ & Hq & Hu' & _).
           assert (q = p) by congruence. subst q. congruence.
      * split; [discriminate|].
        intros (t & u' & [= <-] & _ & Hq & _). congruence.
  - split; [discriminate|]. intros (t & u & Ht & _). discriminate.
Qed.

(** Whatever the gate answers by itself is a 401. *)
Lemma authenticateToken_halt authorization db now c m :
  Middleware.authenticateToken env authorization db now = Halt c m -> c = 401%nat.
Proof.
  unfold Middleware.authenticateToken.
  destruct (Middleware.falsy _); [now intros [= <- _]|].
  destruct (Middleware.bearer authorization); [|now intros [= <- _]].
  destruct (AuthUtils.verifyAccessToken _ _ _); [|now intros [= <- _]].
  destruct (Middleware.findUser _ _); [|now intros [= <- _]].
  destruct (negb _); [now intros [= <- _]|discriminate].
Qed.

End GateFacts.

(** How the header is read: no header, a scheme without a token, an
    empty second segment, and the usual form. *)
Example bearer_readings :
  Middleware.bearer None = None
  /\ Middleware.bearer (Some "Bearer") = None
  /\ Middleware.bearer (Some "Bearer  abc") = Some ""
  /\ Middleware.bearer (Some "Bearer abc.def.ghi") = Some "abc.def.ghi".
Proof. repeat split. Qed.

(** C6.  A call whose bearer token is missing, or does not verify
    (malformed, expired, wrong signature), or verifies but names an
    account that is absent or has [is_active = false], is answered 401 by
    [authenticateToken]; no handler placed behind the gate, with or
    without a role requirement, is run, and the store is left as it was.
    This holds at every instant and for every store, so a deactivated
    account is turned away on each call however valid its token. *)
Theorem gate_rejects_unauthenticated
    (J : JsonWebToken) (env : ProcessEnv)
    (authorization : option string) (db : Db) (now : Z) :
  (Middleware.bearer authorization = None
   \/ Middleware.bearer authorization = Some ""
   \/ (exists token,
         Middleware.bearer authorization = Some token
         /\ AuthUtils.verifyAccessToken env now token = None)
   \/ (exists token p,
         Middleware.bearer authorization = Some token
         /\ AuthUtils.verifyAccessToken env now token = Some p
         /\ forall u, Middleware.findUser db (userId p) = Some u ->
                      User.is_active u = false)) ->
  exists msg,
    Middleware.authenticateToken env authorization db now = Halt 401 msg
    /\ (forall A (handler : JWTPayload -> Response A * Db),
          Middleware.route (Middleware.authenticateToken env authorization db now)
                           db handler
          = (fail 401 msg, db))
    /\ (forall A roles (handler : JWTPayload -> Response A * Db),
          Middleware.route
            (Middleware.and_then
               (Middleware.authenticateToken env authorization db now)
               (fun u => Middleware.requireRole roles (Some u)))
            db handler
          = (fail 401 msg, db)).
Proof.
  intros Hbad.
  assert (Hhalt : exists msg,
             Middleware.authenticateToken env authorization db now = Halt 401 msg).
  { destruct (Middleware.authenticateToken env authorization db now)
      as [p|c m] eqn:Hg.
    - exfalso. apply authenticateToken_next in Hg.
      destruct Hg as (token & u & Hb & Hne & Hv & Hu & Ha).
      destruct Hbad as [H|[H|[(t & H & Hn)|(t & q & H & Hq & Hin)]]];
        rewrite Hb in H; try discriminate; injection H as ->.
      + congruence.
      + congruence.
      + assert (q = p) by congruence. subst q.
        specialize (Hin u Hu). congruence.
    - exists m. now rewrite (authenticateToken_halt env _ _ _ _ _ Hg). }
  destruct Hhalt as [msg Hg]. exists msg. rewrite Hg.
  repeat split; reflexivity.
Qed.

Lemma gate_rejects_unauthenticated_witness :
  let env := mkEnv None in
  let ann := mkUserTokenData "u1" "ann@example.org" "customer" in
  let db := mkDb [User.mk "u1" "ann@example.org" "customer" false 0] [] [] [] in
  let hdr := Some ("Bearer " ++ AuthUtils.generateAccessToken (J := ToyJwt.lib) env 1000 ann)%string in
  AuthUtils.verifyAccessToken (J := ToyJwt.lib) env 1100
      (AuthUtils.generateAccessToken (J := ToyJwt.lib) env 1000 ann)
    = Some (mkPayload "u1" "ann@example.org" "customer")
  /\ exists msg,
    Middleware.authenticateToken (J := ToyJwt.lib) env hdr db 1100 = Halt 401 msg.
Proof.
  intros env ann db hdr. split; [vm_compute; reflexivity|].
  destruct (gate_rejects_unauthenticated ToyJwt.lib env hdr db 1100)
    as (msg & Hg & _).
  - right. right. right.
    exists (AuthUtils.generateAccessToken (J := ToyJwt.lib) env 1000 ann),
           (mkPayload "u1" "ann@example.org" "customer").
    split; [vm_compute; reflexivity|].
    split; [vm_compute; reflexivity|].
    intros u Hu. vm_compute in Hu. injection Hu as <-. reflexivity.
  - exists msg. exact Hg.
Defined.

(* ------------------------------------------------------------------ *)
(** * Request lifecycle *)

Lemma RequestStatus_eqb_spec a b : reflect (a = b) (RequestStatus_eqb a b).
Proof. destruct a, b; constructor; congruence. Qed.

Lemma enum_status_name target :
  Zod.enum_status (JS.JString (RequestStatus_name target)) = Some target.
Proof. destruct target; reflexivity. Qed.

Lemma enum_status_pending body_status :
  Zod.enum_status body_status = Some pending ->
  body_status = JS.JString "pending".
Proof.
  unfold Zod.enum_status.
  destruct body_status as [| |b|q|s|]; try discriminate.
  intros H. apply find_some in H. destruct H as [_ H].
  apply String.eqb_eq in H. cbn [RequestStatus_name] in H. now subst s.
Qed.

Lemma canUpdate_iff user request target :
  Requests.canUpdate (payload_role user) (userId user) request target = true
  <-> transition_allowed user request target.
Proof.
  unfold Requests.canUpdate, transition_allowed.
  destruct (String.eqb_spec (payload_role user) "provider") as [Hp|Hp];
    destruct (String.eqb_spec (ServiceRequest.provider_id request) (userId user))
      as [Ho|Ho]; cbn [andb].
  - split.
    + intros H. left. repeat split; auto.
      destruct target; cbn in H; auto; discriminate.
    + intros [(_ & _ & [->|[->| ->]])|(Hc & _)]; try reflexivity.
      rewrite Hp in Hc. discriminate.
  - rewrite Hp. cbn. split; [discriminate|].
    intros [(_ & H & _)|(Hc & _)]; [contradiction | discriminate].
  - destruct (String.eqb_spec (payload_role user) "customer") as [Hc|Hc];
      destruct (String.eqb_spec (ServiceRequest.customer_id request) (userId user))
        as [Hu|Hu]; cbn [andb]; split;
      try discriminate;
      try (intros [(H & _)|(H1 & H2 & _)]; contradiction).
    + intros H. apply andb_true_iff in H. destruct H as [H1 H2].
      right. repeat split; auto.
      * now destruct (RequestStatus_eqb_spec target cancelled).
      * now destruct (RequestStatus_eqb_spec (ServiceRequest.status request) pending).
    + intros [(H & _)|(_ & _ & -> & ->)]; [contradiction | reflexivity].
  - destruct (String.eqb_spec (payload_role user) "customer") as [Hc|Hc];
      destruct (String.eqb_spec (ServiceRequest.customer_id request) (userId user))
        as [Hu|Hu]; cbn [andb]; split;
      try discriminate;
      try (intros [(H & _)|(H1 & H2 & _)]; contradiction).
    + intros H. apply andb_true_iff in H. destruct H as [H1 H2].
      right. repeat split; auto.
      * now destruct (RequestStatus_eqb_spec target cancelled).
      * now destruct (RequestStatus_eqb_spec (ServiceRequest.status request) pending).
    + intros [(H & _)|(_ & _ & -> & ->)]; [contradiction | reflexivity].
Qed.

Lemma canUpdate_not_pending role uid request :
  Requests.canUpdate role uid request pending = false.
Proof.
  unfold Requests.canUpdate.
  destruct (_ && _); [reflexivity|]. destruct (_ && _); reflexivity.
Qed.

Lemma findRequest_after_update id target l request :
  find (fun r => (ServiceRequest.id r =? id)%string) l = Some request ->
  find (fun r => (ServiceRequest.id r =? id)%string)
       (map (fun r => if (ServiceRequest.id r =? id)%string
                      then ServiceRequest.set_status r target else r) l)
  = Some (ServiceRequest.set_status request target).
Proof.
  induction l as [|x l IH]; cbn; [discriminate|].
  destruct (ServiceRequest.id x =? id)%string eqn:E; cbn.
  - rewrite E. now intros [= ->].
  - rewrite E. exact IH.
Qed.

(** What PATCH does once the body is valid and the request is found. *)
Lemma patch_found user id target db request :
  Requests.findRequest db id = Some request ->
  Requests.patch user id (JS.JString (RequestStatus_name target)) db
  = if Requests.canUpdate (payload_role user) (userId user) request target
    then (mkResponse 200 "Request updated successfully"
                     (Some (ServiceRequest.set_status request target)),
          with_serviceRequests db
            (map (fun r => if (ServiceRequest.id r =? id)%string
                           then ServiceRequest.set_status r target else r)
                 (serviceRequests db)))
    else (fail 403 "You do not have permission to update this request", db).
Proof.
  intros Hf. unfold Requests.patch, Requests.updateRequestStatusSchema.
  rewrite enum_status_name, Hf.
  destruct (Requests.canUpdate _ _ _ _); cbn [negb]; [|reflexivity].
  unfold Requests.updateStatus. now rewrite Hf.
Qed.

(** The rows after an update, one by one: the rows under [id] carry the
    new status and keep every other field, the other rows are kept. *)
Lemma updated_rows id target l :
  Forall2 (fun x y =>
             y = if (ServiceRequest.id x =? id)%string
                 then ServiceRequest.mk
                        (ServiceRequest.id x) (ServiceRequest.service_id x)
                        (ServiceRequest.customer_id x) (ServiceRequest.provider_id x)
                        target (ServiceRequest.message x)
                        (ServiceRequest.requested_date x)
                        (ServiceRequest.estimated_duration x)
                 else x)
          l
          (map (fun r => if (ServiceRequest.id r =? id)%string
                         then ServiceRequest.set_status r target else r) l).
Proof.
  induction l as [|x l IH]; cbn [map]; constructor; [|exact IH].
  destruct (ServiceRequest.id x =? id)%string; reflexivity.
Qed.

(** C2.  On an existing request and a well-formed target status, PATCH
    /requests/:id applies the update exactly when the caller is the
    request's provider asking for accepted, declined or completed, or the
    request's customer asking to cancel a pending request.  Applied means:
    the answer is 200 and carries the request with the target status and
    every other field as before, a lookup of [id] in the new store finds
    that row, the request table has the same rows in the same places
    except that the rows under [id] carry the target status, and the other
    tables are as before.  In every other case the answer is 403 and the
    store is unchanged. *)
Theorem patch_applies_iff_allowed
    (user : JWTPayload) (id : string) (target : RequestStatus) (db : Db)
    (request : ServiceRequest.t) :
  Requests.findRequest db id = Some request ->
  let r := Requests.patch user id (JS.JString (RequestStatus_name target)) db in
  let updated x :=
    ServiceRequest.mk
      (ServiceRequest.id x) (ServiceRequest.service_id x)
      (ServiceRequest.customer_id x) (ServiceRequest.provider_id x)
      target (ServiceRequest.message x)
      (ServiceRequest.requested_date x) (ServiceRequest.estimated_duration x) in
  (transition_allowed user request target ->
     status (fst r) = 200%nat
     /\ data (fst r) = Some (updated request)
     /\ ServiceRequest.status (updated request) = target
     /\ Requests.findRequest (snd r) id = Some (updated request)
     /\ Forall2 (fun x y => y = if (ServiceRequest.id x =? id)%string
                                then updated x else x)
                (serviceRequests db) (serviceRequests (snd r))
     /\ users (snd r) = users db
     /\ services (snd r) = services db
     /\ feedbacks (snd r) = feedbacks db)
  /\ (~ transition_allowed user request target ->
        fst r = fail 403 "You do not have permission to update this request"
        /\ snd r = db)
  /\ (status (fst r) = 200%nat <-> transition_allowed user request target).
Proof.
  intros Hf r updated. subst r. rewrite (patch_found _ _ _ _ _ Hf).
  pose proof (canUpdate_iff user request target) as Hiff.
  destruct (Requests.canUpdate _ _ _ _).
  - assert (Ha : transition_allowed user request target) by now apply Hiff.
    cbn [fst snd status data]. split; [|split].
    + intros _. split; [reflexivity|]. split; [reflexivity|].
      split; [reflexivity|]. split; [|split; [|repeat split]].
      * unfold Requests.findRequest, with_serviceRequests. cbn [serviceRequests].
        change (updated request) with (ServiceRequest.set_status request target).
        now apply findRequest_after_update.
      * cbn [serviceRequests with_serviceRequests]. apply updated_rows.
    + intros Hn. contradiction.
    + split; auto.
  - assert (Hn : ~ transition_allowed user request target).
    { intros Ha. apply Hiff in Ha. discriminate. }
    cbn [fst snd status fail]. split; [|split].
    + intros Ha. contradiction.
    + intros _. split; reflexivity.
    + split; [discriminate | intros Ha; contradiction].
Qed.

(** A customer cancels their pending request, with another request in the
    table, and cannot accept it. *)
Lemma patch_applies_iff_allowed_witness :
  let req := ServiceRequest.mk "r1" "s1" "c1" "p1" pending (Some "hello") None None in
  let other := ServiceRequest.mk "r2" "s1" "c2" "p1" pending None None None in
  let db := mkDb [] [] [req; other] [] in
  let r := Requests.patch (mkPayload "c1" "c@x.y" "customer") "r1"
             (JS.JString "cancelled") db in
  Requests.findRequest (snd r) "r1"
    = Some (ServiceRequest.mk "r1" "s1" "c1" "p1" cancelled (Some "hello") None None)
  /\ serviceRequests (snd r)
     = [ServiceRequest.mk "r1" "s1" "c1" "p1" cancelled (Some "hello") None None;
        other]
  /\ status (fst (Requests.patch (mkPayload "c1" "c@x.y" "customer") "r1"
                    (JS.JString "accepted") db)) <> 200%nat.
Proof.
  intros req other db r.
  pose proof (patch_applies_iff_allowed (mkPayload "c1" "c@x.y" "customer")
                "r1" cancelled db req eq_refl) as (Hyes & _ & _).
  pose proof (patch_applies_iff_allowed (mkPayload "c1" "c@x.y" "customer")
                "r1" accepted db req eq_refl) as (_ & _ & Hiff).
  destruct Hyes as (_ & _ & _ & Hfind & Hrows & _); [right; cbn; auto|].
  split; [exact Hfind|]. split.
  - fold r in Hrows.
    inversion Hrows as [|x y l l' Hy Hrest [Hx Hl] Hl'].
    inversion Hrest as [|x2 y2 l2 l2' Hy2 Hrest2 [Hx2 Hl2] Hl2'].
    inversion Hrest2. subst. reflexivity.
  - intros H200. apply Hiff in H200.
    destruct H200 as [(Hp & _)|(_ & _ & Hc & _)]; discriminate.
Defined.

(* ------------------------------------------------------------------ *)
(** ** What each write does to the request table *)

Lemma existsb_false_all {A} (f : A -> bool) l :
  existsb f l = false -> forall x, In x l -> f x = false.
Proof.
  intros H x Hx. destruct (f x) eqn:E; [|reflexivity].
  assert (existsb f l = true) by (apply existsb_exists; eauto). congruence.
Qed.

Section RequestTable.
Context {P : Platform}.

(** POST /requests leaves the store alone or appends one pending row under
    a key no other row has. *)
Lemma request_post_inv user body new_id db :
  snd (Requests.post user body new_id db) = db
  \/ exists row,
       snd (Requests.post user body new_id db)
         = with_serviceRequests db (serviceRequests db ++ [row])
       /\ ServiceRequest.id row = new_id
       /\ ServiceRequest.status row = pending
       /\ forall q, In q (serviceRequests db) -> ServiceRequest.id q <> new_id.
Proof.
  unfold Requests.post.
  destruct (Requests.createRequestSchema body) as [v|]; [|now left].
  destruct (Requests.findActiveService db _) as [s|]; [|now left].
  destruct (Requests.findOpenRequest db _ _); [now left|].
  unfold Requests.createServiceRequest.
  destruct (CreateRequestData.requested_date v) as [d|];
    [destruct (d =? "")%string; [|destruct (Date_parse d)]|];
    try (now left);
  (destruct (existsb _ (serviceRequests db)) eqn:E; [now left|]; right;
   eexists; cbn [snd]; split; [reflexivity|]; cbn; repeat split; auto;
   intros q Hq Heq;
   pose proof (existsb_false_all _ _ E q Hq) as Hne; cbn in Hne;
   apply String.eqb_neq in Hne; contradiction).
Qed.

(** PATCH /requests/:id leaves the store alone or rewrites the status of
    the rows under [id] to a target the permission check let through. *)
Lemma request_patch_inv user id body_status db :
  snd (Requests.patch user id body_status db) = db
  \/ exists target request,
       Requests.updateRequestStatusSchema body_status = Some target
       /\ Requests.findRequest db id = Some request
       /\ Requests.canUpdate (payload_role user) (userId user) request target = true
       /\ snd (Requests.patch user id body_status db)
          = with_serviceRequests db
              (map (fun x => if (ServiceRequest.id x =? id)%string
                             then ServiceRequest.set_status x target else x)
                   (serviceRequests db)).
Proof.
  unfold Requests.patch.
  destruct (Requests.updateRequestStatusSchema body_status) as [target|];
    [|now left].
  destruct (Requests.findRequest db id) as [request|] eqn:Hf; [|now left].
  destruct (Requests.canUpdate _ _ _ _) eqn:Hc; cbn [negb]; [|now left].
  unfold Requests.updateStatus. rewrite Hf. right.
  exists target, request. auto.
Qed.

(** POST /feedback never touches the request table. *)
Lemma feedback_post_requests user body new_id now db :
  serviceRequests (snd (FeedbackRoutes.post user body new_id now db))
  = serviceRequests db.
Proof.
  unfold FeedbackRoutes.post.
  destruct (FeedbackRoutes.submitFeedbackSchema body) as [v|]; [|reflexivity].
  destruct (FeedbackRoutes.findCompletedRequest db _ _) as [sr|]; [|reflexivity].
  destruct (FeedbackRoutes.findFeedback db _); [reflexivity|].
  unfold FeedbackRoutes.createFeedback.
  destruct (_ && _); [reflexivity|].
  destruct (existsb _ (feedbacks db)); [reflexivity|].
  destruct (findMany_result _); [|reflexivity].
  unfold FeedbackRoutes.updateUserRating. cbn [users with_feedbacks].
  destruct (existsb _ (users db)); reflexivity.
Qed.

Lemma find_app_first {A} (f : A -> bool) l l' x :
  find f l = Some x -> find f (l ++ l') = Some x.
Proof.
  induction l as [|a l IH]; cbn; [discriminate|].
  destruct (f a); auto.
Qed.

Lemma findRequest_map_status i id target l :
  find (fun r => (ServiceRequest.id r =? i)%string)
       (map (fun x => if (ServiceRequest.id x =? id)%string
                      then ServiceRequest.set_status x target else x) l)
  = option_map (fun x => if (ServiceRequest.id x =? id)%string
                         then ServiceRequest.set_status x target else x)
               (find (fun r => (ServiceRequest.id r =? i)%string) l).
Proof.
  induction l as [|a l IH]; cbn; [reflexivity|].
  destruct (ServiceRequest.id a =? id)%string eqn:E1; cbn;
    destruct (ServiceRequest.id a =? i)%string eqn:E2; cbn;
    rewrite ?E1; auto.
Qed.

(** A request that exists and is not pending stays so under any write. *)
Lemma step_keeps_settled i db db' :
  step db db' ->
  (exists r, Requests.findRequest db i = Some r
             /\ ServiceRequest.status r <> pending) ->
  exists r', Requests.findRequest db' i = Some r'
             /\ ServiceRequest.status r' <> pending.
Proof.
  intros Hstep (r & Hf & Hst).
  destruct Hstep as [user body new_id db|user id body_status db
                    |user body new_id now db|us ss db].
  - destruct (request_post_inv user body new_id db) as [->|(row & -> & _)].
    + eauto.
    + exists r. split; [|assumption].
      unfold Requests.findRequest. cbn [serviceRequests with_serviceRequests].
      now apply find_app_first.
  - destruct (request_patch_inv user id body_status db)
      as [->|(target & request & Hp & _ & Hc & ->)].
    + eauto.
    + assert (Htp : target <> pending).
      { intros ->. rewrite canUpdate_not_pending in Hc. discriminate. }
      unfold Requests.findRequest in *.
      cbn [serviceRequests with_serviceRequests].
      rewrite findRequest_map_status, Hf. cbn [option_map].
      eexists. split; [reflexivity|].
      destruct (ServiceRequest.id r =? id)%string; assumption.
  - exists r. split; [|assumption].
    unfold Requests.findRequest in *. now rewrite feedback_post_requests.
  - exists r. auto.
Qed.

Lemma reachable_keeps_settled i db db' :
  reachable db db' ->
  (exists r, Requests.findRequest db i = Some r
             /\ ServiceRequest.status r <> pending) ->
  exists r', Requests.findRequest db' i = Some r'
             /\ ServiceRequest.status r' <> pending.
Proof.
  induction 1 as [|db1 db2 Hreach IH Hstep]; intros Hex.
  - exact Hex.
  - apply (step_keeps_settled i db1 db2 Hstep). now apply IH.
Qed.

End RequestTable.

(** C9.  A PATCH whose target is pending is refused for every caller: 403
    when the request exists, and the store is never changed.  More
    generally no PATCH, whatever its body, produces a pending row that was
    not already there; and along any sequence of writes of the API a
    request that has left the pending state never shows it again. *)
Theorem patch_never_sets_pending
    (P : Platform) (user : JWTPayload) (id : string) (db : Db) :
  (forall request, Requests.findRequest db id = Some request ->
     fst (Requests.patch user id (JS.JString "pending") db)
     = fail 403 "You do not have permission to update this request")
  /\ snd (Requests.patch user id (JS.JString "pending") db) = db
  /\ (forall body_status r',
        In r' (serviceRequests (snd (Requests.patch user id body_status db))) ->
        ServiceRequest.status r' = pending -> In r' (serviceRequests db))
  /\ (forall db' r,
        Requests.findRequest db id = Some r ->
        ServiceRequest.status r <> pending ->
        reachable db db' ->
        exists r', Requests.findRequest db' id = Some r'
                   /\ ServiceRequest.status r' <> pending).
Proof.
  split; [|split; [|split]].
  - intros request Hf.
    change "pending" with (RequestStatus_name pending).
    rewrite (patch_found _ _ _ _ _ Hf), canUpdate_not_pending. reflexivity.
  - destruct (request_patch_inv user id (JS.JString "pending") db)
      as [H|(target & request & Hp & _ & Hc & _)]; [exact H|].
    cbv in Hp. injection Hp as <-.
    rewrite canUpdate_not_pending in Hc. discriminate.
  - intros body_status r' Hin Hst.
    destruct (request_patch_inv user id body_status db)
      as [H|(target & request & _ & _ & Hc & H)]; rewrite H in Hin;
      [exact Hin|].
    cbn [serviceRequests with_serviceRequests] in Hin.
    apply in_map_iff in Hin. destruct Hin as (x & Hx & Hin).
    destruct (ServiceRequest.id x =? id)%string.
    + subst r'. cbn in Hst. subst target.
      rewrite canUpdate_not_pending in Hc. discriminate.
    + now subst x.
  - intros db' r Hf Hst Hreach.
    apply (reachable_keeps_settled id db db' Hreach). eauto.
Qed.

Lemma patch_never_sets_pending_witness :
  let req := ServiceRequest.mk "r1" "s1" "c1" "p1" accepted None None None in
  let db := mkDb [] [] [req] [] in
  let prov := mkPayload "p1" "p@x.y" "provider" in
  let db1 := snd (Requests.patch prov "r1" (JS.JString "pending") db) in
  let db2 := snd (Requests.patch prov "r1" (JS.JString "completed") db1) in
  exists r', Requests.findRequest db2 "r1" = Some r'
             /\ ServiceRequest.status r' <> pending.
Proof.
  intros req db prov db1 db2.
  destruct (patch_never_sets_pending floatPlatform prov "r1" db)
    as (_ & _ & _ & Hnever).
  apply (Hnever db2 req).
  - reflexivity.
  - discriminate.
  - apply (reach_step (P := floatPlatform) db db1 db2).
    + apply (reach_step (P := floatPlatform) db db db1).
      * apply reach_here.
      * exact (step_update_status prov "r1" (JS.JString "pending") db).
    + exact (step_update_status prov "r1" (JS.JString "completed") db1).
Defined.

(* ------------------------------------------------------------------ *)
(** ** Creating a request *)

Lemma find_none_iff {A} (f : A -> bool) l :
  find f l = None <-> forall x, In x l -> f x = false.
Proof.
  split; [apply find_none|].
  induction l as [|a l IH]; cbn; [reflexivity|]. intros H.
  rewrite (H a (or_introl eq_refl)). apply IH. intros x Hx. apply H. now right.
Qed.

Lemma is_open_iff s : Requests.is_open s = true <-> s = pending \/ s = accepted.
Proof.
  destruct s; cbn; split; intros H; auto; try discriminate;
    destruct H; discriminate.
Qed.

Lemma findActiveService_none db sid :
  (forall s, In s (services db) -> Service.id s = sid ->
             Service.is_active s = false) ->
  Requests.findActiveService db sid = None.
Proof.
  intros H. apply find_none_iff. intros s Hs. cbn beta.
  destruct (String.eqb_spec (Service.id s) sid) as [E|E]; cbn; [|reflexivity].
  now apply H.
Qed.

Lemma findActiveService_some db sid :
  (exists s, In s (services db) /\ Service.id s = sid
             /\ Service.is_active s = true) ->
  exists s, Requests.findActiveService db sid = Some s
            /\ In s (services db) /\ Service.id s = sid
            /\ Service.is_active s = true.
Proof.
  intros (s0 & Hin & Hid & Hact).
  destruct (Requests.findActiveService db sid) as [s|] eqn:Hf.
  - exists s. apply find_some in Hf. destruct Hf as [Hs Hb].
    apply andb_true_iff in Hb. destruct Hb as [Hb1 Hb2].
    apply String.eqb_eq in Hb1. auto.
  - exfalso. pose proof (find_none _ _ Hf s0 Hin) as Hb. cbn in Hb.
    rewrite Hact, <- Hid, String.eqb_refl in Hb. discriminate.
Qed.

Lemma findOpenRequest_some db sid cid :
  (exists q, In q (serviceRequests db)
             /\ ServiceRequest.service_id q = sid
             /\ ServiceRequest.customer_id q = cid
             /\ (ServiceRequest.status q = pending
                 \/ ServiceRequest.status q = accepted)) ->
  exists q, Requests.findOpenRequest db sid cid = Some q.
Proof.
  intros (q0 & Hin & Hs & Hc & Hst).
  destruct (Requests.findOpenRequest db sid cid) as [q|] eqn:Hf; [eauto|].
  exfalso. pose proof (find_none _ _ Hf q0 Hin) as Hb. cbn beta in Hb.
  apply is_open_iff in Hst.
  rewrite Hst, Hs, Hc, !String.eqb_refl in Hb. discriminate.
Qed.

Lemma findOpenRequest_none db sid cid :
  (forall q, In q (serviceRequests db) ->
             ServiceRequest.service_id q = sid ->
             ServiceRequest.customer_id q = cid ->
             ServiceRequest.status q <> pending
             /\ ServiceRequest.status q <> accepted) ->
  Requests.findOpenRequest db sid cid = None.
Proof.
  intros H. apply find_none_iff. intros q Hq. cbn beta.
  destruct (String.eqb_spec (ServiceRequest.service_id q) sid) as [E1|E1];
    [|reflexivity].
  destruct (String.eqb_spec (ServiceRequest.customer_id q) cid) as [E2|E2];
    [|reflexivity].
  cbn [andb]. destruct (Requests.is_open (ServiceRequest.status q)) eqn:Ho;
    [|reflexivity].
  apply is_open_iff in Ho. destruct (H q Hq E1 E2) as [H1 H2].
  destruct Ho; contradiction.
Qed.

(** C3 (as the code has it).  For a body the schema accepts, POST
    /requests answers 404 when no active service has the given id;
    otherwise 409, creating nothing, when the caller already has a pending
    or accepted request for that service; otherwise, the generated key
    being new: if [requested_date] is absent, empty or a date, the answer
    is 201 and one row has been appended to the request table, in state
    pending, whose provider is the owner of the service, the other tables
    being as before; if [requested_date] is a non-empty string that is not
    a date, the answer is 500 and nothing is created.  Requests of the
    pair that are cancelled, declined or completed do not stand in the
    way. *)
Theorem create_request_outcomes
    (P : Platform) (user : JWTPayload) (body : CreateRequestBody.t)
    (v : CreateRequestData.t) (new_id : string) (db : Db) :
  Requests.createRequestSchema body = Some v ->
  let sid := CreateRequestData.service_id v in
  let cid := userId user in
  let r := Requests.post user body new_id db in
  ((forall s, In s (services db) -> Service.id s = sid ->
              Service.is_active s = false) ->
     fst r = fail 404 "Service not found" /\ snd r = db)
  /\ ((exists s, In s (services db) /\ Service.id s = sid
                 /\ Service.is_active s = true) ->
      ((exists q, In q (serviceRequests db)
                  /\ ServiceRequest.service_id q = sid
                  /\ ServiceRequest.customer_id q = cid
                  /\ (ServiceRequest.status q = pending
                      \/ ServiceRequest.status q = accepted)) ->
         status (fst r) = 409%nat /\ snd r = db)
      /\ ((forall q, In q (serviceRequests db) ->
                     ServiceRequest.service_id q = sid ->
                     ServiceRequest.customer_id q = cid ->
                     ServiceRequest.status q <> pending
                     /\ ServiceRequest.status q <> accepted) ->
          (forall q, In q (serviceRequests db) ->
                     ServiceRequest.id q <> new_id) ->
          ((forall d, CreateRequestData.requested_date v = Some d ->
                      d <> "" -> Date_parse d <> None) ->
           exists s row,
             In s (services db) /\ Service.id s = sid
             /\ Service.is_active s = true
             /\ fst r = mkResponse 201 "Request created successfully" (Some row)
             /\ serviceRequests (snd r) = serviceRequests db ++ [row]
             /\ users (snd r) = users db
             /\ services (snd r) = services db
             /\ feedbacks (snd r) = feedbacks db
             /\ ServiceRequest.id row = new_id
             /\ ServiceRequest.service_id row = sid
             /\ ServiceRequest.customer_id row = cid
             /\ ServiceRequest.provider_id row = Service.provider_id s
             /\ ServiceRequest.status row = pending
             /\ ServiceRequest.message row = CreateRequestData.message v
             /\ ServiceRequest.requested_date row
                = match CreateRequestData.requested_date v with
                  | Some d => if (d =? "")%string then None else Date_parse d
                  | None => None
                  end
             /\ ServiceRequest.estimated_duration row
                = CreateRequestData.estimated_duration v)
          /\ (forall d, CreateRequestData.requested_date v = Some d ->
                        d <> "" -> Date_parse d = None ->
                        fst r = fail 500 "Failed to create request"
                        /\ snd r = db))).
Proof.
  intros Hv sid cid r. subst r. unfold Requests.post. rewrite Hv.
  fold sid cid. split.
  - intros Hnone. now rewrite (findActiveService_none db sid Hnone).
  - intros Hsvc.
    destruct (findActiveService_some db sid Hsvc) as (s & Hf & Hin & Hid & Hact).
    rewrite Hf. split.
    + intros Hdup. destruct (findOpenRequest_some db sid cid Hdup) as [q ->].
      split; reflexivity.
    + intros Hnodup Hfresh.
      rewrite (findOpenRequest_none db sid cid Hnodup).
      assert (Hex : existsb (fun q => (ServiceRequest.id q =? new_id)%string)
                            (serviceRequests db) = false).
      { destruct (existsb _ _) eqn:E; [|reflexivity].
        apply existsb_exists in E. destruct E as (q & Hq & Hb).
        apply String.eqb_eq in Hb. now destruct (Hfresh q Hq). }
      unfold Requests.createServiceRequest. split.
      * intros Hdate. exists s.
        destruct (CreateRequestData.requested_date v) as [d|] eqn:Hd.
        -- destruct (String.eqb_spec d "") as [E|E].
           ++ rewrite Hex. eexists. cbn. repeat split; auto.
           ++ destruct (Date_parse d) as [z|] eqn:Hz;
                [|now destruct (Hdate d eq_refl E)].
              rewrite Hex. eexists. cbn. repeat split; auto.
        -- rewrite Hex. eexists. cbn. repeat split; auto.
      * intros d Hd Hne Hparse. rewrite Hd.
        destruct (String.eqb_spec d "") as [E|E]; [contradiction|].
        rewrite Hparse. split; reflexivity.
Qed.

(** A request after the previous one of the same pair was cancelled, with
    a date: created, pending, with the owner of the service as provider. *)
Lemma create_request_outcomes_witness :
  let ann := mkPayload "c1" "ann@example.org" "customer" in
  let body := CreateRequestBody.mk (JS.JString "s1") JS.JUndefined
                (JS.JString "2025-01-31") JS.JUndefined in
  let old := ServiceRequest.mk "r1" "s1" "c1" "p1" cancelled None None None in
  let db := mkDb [] [Service.mk "s1" "p1" true] [old] [] in
  let r := Requests.post (P := datePlatform) ann body "r2" db in
  exists row,
    fst r = mkResponse 201 "Request created successfully" (Some row)
    /\ serviceRequests (snd r) = [old; row]
    /\ ServiceRequest.status row = pending
    /\ ServiceRequest.provider_id row = "p1".
Proof.
  intros ann body old db r.
  destruct (create_request_outcomes datePlatform ann body
              (CreateRequestData.mk "s1" None (Some "2025-01-31") None) "r2" db eq_refl)
    as (_ & Hsome).
  destruct Hsome as (_ & Hcreate).
  - exists (Service.mk "s1" "p1" true). cbn. auto.
  - destruct Hcreate as [Hcreate _].
    + intros q [<-|[]] _ _. cbn. split; discriminate.
    + intros q [<-|[]]. cbn. discriminate.
    + destruct Hcreate
        as (s & row & Hs & _ & _ & Hfst & Hsnd & _ & _ & _ & _ & _ & _ & Hp & Hst & _).
      * intros d [= <-] _. vm_compute. discriminate.
      * exists row. destruct Hs as [<-|[]]. cbn in Hp. fold r in Hfst, Hsnd.
        split; [exact Hfst|]. split; [exact Hsnd|]. split; assumption.
Defined.

(** A body the schema accepts whose [requested_date] is not a date: the
    service is active and the customer has no request, yet the answer is
    500 and no request is created. *)
Lemma unparseable_date_creates_nothing :
  let ann := mkPayload "c1" "ann@example.org" "customer" in
  let body := CreateRequestBody.mk (JS.JString "s1") JS.JUndefined
                (JS.JString "not-a-date") JS.JUndefined in
  let db := mkDb [] [Service.mk "s1" "p1" true] [] [] in
  let r := Requests.post (P := datePlatform) ann body "r1" db in
  Requests.createRequestSchema body
    = Some (CreateRequestData.mk "s1" None (Some "not-a-date") None)
  /\ Requests.findActiveService db "s1" = Some (Service.mk "s1" "p1" true)
  /\ Requests.findOpenRequest db "s1" "c1" = None
  /\ fst r = fail 500 "Failed to create request"
  /\ serviceRequests (snd r) = [].
Proof. vm_compute. repeat split. Qed.

(* ------------------------------------------------------------------ *)
(** * Feedback and rating *)

Section FeedbackFacts.
Context {P : Platform}.

(** POST /feedback either leaves the store alone (and does not answer
    201), or it found an eligible request without feedback and appended
    one row.  Then either the answer is 500 with the row kept (the
    provider's feedback does not fit an array, or the provider row is
    missing), or the rating of the provider is rewritten from the
    provider's rows in the new table and the answer is 201. *)
Lemma feedback_post_inv user body new_id now db :
  let r := FeedbackRoutes.post user body new_id now db in
  (snd r = db /\ status (fst r) <> 201%nat)
  \/ exists v sr row db1,
       FeedbackRoutes.submitFeedbackSchema body = Some v
       /\ FeedbackRoutes.findCompletedRequest db
            (SubmitFeedbackData.service_request_id v) (userId user) = Some sr
       /\ FeedbackRoutes.findFeedback db
            (SubmitFeedbackData.service_request_id v) = None
       /\ row = Feedback.mk new_id (SubmitFeedbackData.service_request_id v)
                  (userId user) (ServiceRequest.provider_id sr)
                  (SubmitFeedbackData.rating v) (SubmitFeedbackData.comment v)
                  feedback_is_public_default now
       /\ db1 = with_feedbacks db (feedbacks db ++ [row])
       /\ (r = (fail 500 "Failed to submit feedback", db1)
           \/ exists l,
                l = FeedbackRoutes.findProviderFeedback db1
                      (ServiceRequest.provider_id sr)
                /\ (Z.of_nat (length l) < 2 ^ 32)%Z
                /\ r = (mkResponse 201 "Feedback submitted successfully" (Some row),
                        with_users db1
                          (map (fun u =>
                                  if (User.id u =? ServiceRequest.provider_id sr)%string
                                  then User.set_rating u
                                         (FeedbackRoutes.round1
                                            (Double.div
                                               (FeedbackRoutes.sum_ratings l)
                                               (inject_Z (Z.of_nat (length l)))))
                                  else u)
                               (users db)))
                /\ existsb (fun u => (User.id u =? ServiceRequest.provider_id sr)%string)
                           (users db) = true).
Proof.
  intros r. subst r. unfold FeedbackRoutes.post.
  destruct (FeedbackRoutes.submitFeedbackSchema body) as [v|];
    [|left; split; [reflexivity|discriminate]].
  destruct (FeedbackRoutes.findCompletedRequest db _ _) as [sr|] eqn:Hsr;
    [|left; split; [reflexivity|discriminate]].
  destruct (FeedbackRoutes.findFeedback db _) eqn:Hfb;
    [left; split; [reflexivity|discriminate]|].
  unfold FeedbackRoutes.createFeedback.
  destruct (_ && _); [left; split; [reflexivity|discriminate]|].
  destruct (existsb _ (feedbacks db)); [left; split; [reflexivity|discriminate]|].
  right. do 4 eexists.
  split; [reflexivity|]. split; [exact Hsr|]. split; [exact Hfb|].
  split; [reflexivity|]. split; [reflexivity|].
  unfold findMany_result.
  match goal with
  | |- context [(?a <? ?b)%Z] => destruct (Z.ltb_spec a b) as [Hlen|Hlen]
  end; [|now left].
  unfold FeedbackRoutes.updateUserRating. cbn [users with_feedbacks].
  destruct (existsb _ (users db)) eqn:Hex; [right|now left].
  eexists. split; [reflexivity|]. split; [exact Hlen|]. split; reflexivity.
Qed.

Lemma findFeedback_none_notin db srid :
  FeedbackRoutes.findFeedback db srid = None ->
  ~ In srid (map Feedback.service_request_id (feedbacks db)).
Proof.
  intros Hf Hin. apply in_map_iff in Hin. destruct Hin as (f & Hs & Hin).
  pose proof (find_none _ _ Hf f Hin) as Hb. cbn in Hb.
  rewrite Hs, String.eqb_refl in Hb. discriminate.
Qed.

Lemma NoDup_snoc {A} (l : list A) x : NoDup l -> ~ In x l -> NoDup (l ++ [x]).
Proof.
  intros Hl Hx. apply NoDup_rev in Hl. rewrite <- (rev_involutive (l ++ [x])).
  apply NoDup_rev. rewrite rev_app_distr. cbn. constructor; [|assumption].
  now rewrite <- in_rev.
Qed.

(** The feedback table after one write: unchanged, or one row more. *)
Lemma step_feedbacks db db' :
  step db db' ->
  feedbacks db' = feedbacks db
  \/ exists row,
       feedbacks db' = feedbacks db ++ [row]
       /\ ~ In (Feedback.service_request_id row)
               (map Feedback.service_request_id (feedbacks db))
       /\ rating_in_range (Feedback.rating row).
Proof.
  intros Hstep.
  destruct Hstep as [user body new_id db|user id body_status db
                    |user body new_id now db|us ss db].
  - left. destruct (request_post_inv user body new_id db) as [->|(row & -> & _)];
      reflexivity.
  - left. destruct (request_patch_inv user id body_status db)
      as [->|(t & q & _ & _ & _ & ->)]; reflexivity.
  - destruct (feedback_post_inv user body new_id now db)
      as [[-> _]|(v & sr & row & db1 & Hv & Hsr & Hfb & Hrow & Hdb1 & Hr)];
      [now left|].
    right. exists row.
    assert (Hfs : feedbacks (snd (FeedbackRoutes.post user body new_id now db))
                  = feedbacks db ++ [row]).
    { destruct Hr as [->|(l & _ & _ & -> & _)]; subst db1; reflexivity. }
    split; [exact Hfs|]. subst row. cbn [Feedback.service_request_id Feedback.rating].
    split; [now apply findFeedback_none_notin|].
    unfold FeedbackRoutes.submitFeedbackSchema in Hv.
    destruct (Zod.string_min _ _); [|discriminate].
    destruct (Zod.number_min_max 1 5 _) as [q|] eqn:Hq; [|discriminate].
    destruct (Zod.string_optional _); [|discriminate].
    injection Hv as <-. cbn [SubmitFeedbackData.rating].
    unfold Zod.number_min_max in Hq.
    destruct (SubmitFeedbackBody.rating body) as [| |b|q'|s'|]; try discriminate.
    destruct (Qle_bool 1 q' && Qle_bool q' 5) eqn:Hb; [|discriminate].
    injection Hq as <-. apply andb_true_iff in Hb. destruct Hb as [H1 H5].
    split; now apply Qle_bool_iff.
  - now left.
Qed.

Lemma reachable_one_feedback_per_request db db' :
  reachable db db' ->
  NoDup (map Feedback.service_request_id (feedbacks db)) ->
  NoDup (map Feedback.service_request_id (feedbacks db')).
Proof.
  induction 1 as [|db1 db2 Hreach IH Hstep]; intros Hnd; [assumption|].
  specialize (IH Hnd).
  destruct (step_feedbacks db1 db2 Hstep) as [->|(row & -> & Hnew & _)];
    [assumption|].
  rewrite map_app. cbn [map]. now apply NoDup_snoc.
Qed.

Lemma reachable_ratings_in_range db db' :
  reachable db db' ->
  Forall (fun f => rating_in_range (Feedback.rating f)) (feedbacks db) ->
  Forall (fun f => rating_in_range (Feedback.rating f)) (feedbacks db').
Proof.
  induction 1 as [|db1 db2 Hreach IH Hstep]; intros Hall; [assumption|].
  specialize (IH Hall).
  destruct (step_feedbacks db1 db2 Hstep) as [->|(row & -> & _ & Hrange)];
    [assumption|].
  apply Forall_app. split; [assumption|]. constructor; [assumption|constructor].
Qed.

End FeedbackFacts.

Lemma findCompletedRequest_none db srid cid :
  (forall q, In q (serviceRequests db) ->
             ServiceRequest.id q = srid ->
             ServiceRequest.customer_id q = cid ->
             ServiceRequest.status q <> completed) ->
  FeedbackRoutes.findCompletedRequest db srid cid = None.
Proof.
  intros H. apply find_none_iff. intros q Hq. cbn beta.
  destruct (String.eqb_spec (ServiceRequest.id q) srid) as [E1|E1];
    [|reflexivity].
  destruct (String.eqb_spec (ServiceRequest.customer_id q) cid) as [E2|E2];
    [|reflexivity].
  cbn [andb].
  destruct (RequestStatus_eqb_spec (ServiceRequest.status q) completed) as [E3|E3];
    [|reflexivity].
  now destruct (H q Hq E1 E2).
Qed.

Lemma findCompletedRequest_some db srid cid sr :
  FeedbackRoutes.findCompletedRequest db srid cid = Some sr ->
  In sr (serviceRequests db) /\ ServiceRequest.id sr = srid
  /\ ServiceRequest.customer_id sr = cid
  /\ ServiceRequest.status sr = completed.
Proof.
  intros Hf. apply find_some in Hf. destruct Hf as [Hin Hb].
  apply andb_true_iff in Hb. destruct Hb as [Hb H3].
  apply andb_true_iff in Hb. destruct Hb as [H1 H2].
  apply String.eqb_eq in H1, H2.
  destruct (RequestStatus_eqb_spec (ServiceRequest.status sr) completed);
    [auto|discriminate].
Qed.

Lemma findCompletedRequest_exists db srid cid :
  (exists q, In q (serviceRequests db) /\ ServiceRequest.id q = srid
             /\ ServiceRequest.customer_id q = cid
             /\ ServiceRequest.status q = completed) ->
  exists sr, FeedbackRoutes.findCompletedRequest db srid cid = Some sr.
Proof.
  intros (q & Hin & H1 & H2 & H3).
  destruct (FeedbackRoutes.findCompletedRequest db srid cid) eqn:Hf; [eauto|].
  pose proof (find_none _ _ Hf q Hin) as Hb. cbn beta in Hb.
  rewrite H1, H2, H3, !String.eqb_refl in Hb. discriminate.
Qed.

Lemma findFeedback_exists db srid :
  (exists f, In f (feedbacks db) /\ Feedback.service_request_id f = srid) ->
  exists f, FeedbackRoutes.findFeedback db srid = Some f.
Proof.
  intros (f & Hin & Hs).
  destruct (FeedbackRoutes.findFeedback db srid) eqn:Hf; [eauto|].
  pose proof (find_none _ _ Hf f Hin) as Hb. cbn beta in Hb.
  rewrite Hs, String.eqb_refl in Hb. discriminate.
Qed.

(** C4.  For a body the schema accepts, POST /feedback answers one and
    the same 404 whenever no request has the given id, belongs to the
    caller and is completed, whichever of the three fails; it answers 409
    when such a request exists and already has a feedback row; in both
    cases nothing is written.  The feedback table changes only when both
    checks passed, and then by exactly one row for that request.  Hence a
    table with at most one row per request keeps that property, under
    this call and along any sequence of writes of the API. *)
Theorem submit_feedback_outcomes
    (P : Platform) (user : JWTPayload) (body : SubmitFeedbackBody.t)
    (v : SubmitFeedbackData.t) (new_id : string) (now : Z) (db : Db) :
  FeedbackRoutes.submitFeedbackSchema body = Some v ->
  let srid := SubmitFeedbackData.service_request_id v in
  let eligible q :=
    In q (serviceRequests db) /\ ServiceRequest.id q = srid
    /\ ServiceRequest.customer_id q = userId user
    /\ ServiceRequest.status q = completed in
  let r := FeedbackRoutes.post user body new_id now db in
  ((forall q, ~ eligible q) ->
     fst r = fail 404 "Service request not found or not eligible for feedback"
     /\ snd r = db)
  /\ ((exists q, eligible q) ->
      (exists f, In f (feedbacks db) /\ Feedback.service_request_id f = srid) ->
      fst r = fail 409 "Feedback already submitted for this service request"
      /\ snd r = db)
  /\ (feedbacks (snd r) <> feedbacks db ->
      (exists q, eligible q)
      /\ (forall f, In f (feedbacks db) -> Feedback.service_request_id f <> srid)
      /\ exists row,
           feedbacks (snd r) = feedbacks db ++ [row]
           /\ Feedback.service_request_id row = srid
           /\ Feedback.customer_id row = userId user)
  /\ (NoDup (map Feedback.service_request_id (feedbacks db)) ->
      NoDup (map Feedback.service_request_id (feedbacks (snd r)))
      /\ forall db', reachable (snd r) db' ->
                     NoDup (map Feedback.service_request_id (feedbacks db'))).
Proof.
  intros Hv srid eligible r. split; [|split; [|split]].
  - intros Hnone. subst r. unfold FeedbackRoutes.post. rewrite Hv. fold srid.
    rewrite findCompletedRequest_none; [split; reflexivity|].
    intros q Hq H1 H2 H3. apply (Hnone q). unfold eligible. auto.
  - intros Hel Hdup. subst r. unfold FeedbackRoutes.post. rewrite Hv. fold srid.
    destruct (findCompletedRequest_exists db srid (userId user) Hel) as [sr ->].
    destruct (findFeedback_exists db srid Hdup) as [f ->].
    split; reflexivity.
  - intros Hchg.
    destruct (feedback_post_inv user body new_id now db)
      as [[Hsame _]|(v' & sr & row & db1 & Hv' & Hsr & Hfb & Hrow & Hdb1 & Hr)].
    + exfalso. apply Hchg. subst r. now rewrite Hsame.
    + assert (v' = v) by congruence. subst v'. fold srid in Hsr, Hfb, Hrow.
      split; [|split].
      * exists sr. unfold eligible.
        now apply findCompletedRequest_some.
      * intros f Hf Heq. pose proof (find_none _ _ Hfb f Hf) as Hb.
        cbn beta in Hb. rewrite Heq, String.eqb_refl in Hb. discriminate.
      * exists row. subst r.
        destruct Hr as [->|(l & _ & _ & -> & _)]; subst db1 row; cbn; auto.
  - intros Hnd.
    assert (Hr : reachable db (snd r))
      by (apply (reach_step db db); [apply reach_here|apply step_submit_feedback]).
    split.
    + now apply (reachable_one_feedback_per_request db).
    + intros db' Hreach. apply (reachable_one_feedback_per_request (snd r));
        [assumption|]. now apply (reachable_one_feedback_per_request db).
Qed.

Lemma submit_feedback_outcomes_witness :
  let ann := mkPayload "c1" "ann@example.org" "customer" in
  let body := SubmitFeedbackBody.mk (JS.JString "r1") (JS.JNumber 4) JS.JUndefined in
  let req := ServiceRequest.mk "r1" "s1" "c1" "p1" completed None None None in
  let fb := Feedback.mk "f1" "r1" "c1" "p1" 4 None true 10 in
  let db := mkDb [User.mk "p1" "p@x.y" "provider" true 4] [] [req] [fb] in
  FeedbackRoutes.post (P := floatPlatform) ann body "f2" 20 db
  = (fail 409 "Feedback already submitted for this service request", db).
Proof.
  intros ann body req fb db.
  destruct (submit_feedback_outcomes floatPlatform ann body
              (SubmitFeedbackData.mk "r1" 4 None) "f2" 20 db eq_refl)
    as (_ & Hdup & _).
  rewrite (surjective_pairing (FeedbackRoutes.post ann body "f2" 20 db)).
  destruct Hdup as [-> ->]; [| |reflexivity].
  - exists req. cbn. auto.
  - exists fb. cbn. auto.
Defined.

(* ------------------------------------------------------------------ *)
(** ** The aggregate rating *)

(** The handler's [reduce] is the binary64 running sum of the ratings,
    in the order of the rows. *)
Lemma sum_ratings_float_sum l :
  FeedbackRoutes.sum_ratings l = float_sum (map Feedback.rating l).
Proof.
  unfold FeedbackRoutes.sum_ratings, float_sum. generalize 0.
  induction l as [|f l IH]; intros acc; cbn; [reflexivity|].
  apply IH.
Qed.




Lemma whole_rating_floor q z : q == inject_Z z -> Qfloor q = z.
Proof. intros H. rewrite H. apply Qfloor_Z. Qed.

Lemma integer_in_range_whole q :
  rating_in_range q -> FeedbackRoutes.is_integer q = true -> whole_rating q.
Proof.
  intros [H1 H5] Hi. apply Qeq_bool_eq in Hi. exists (Qfloor q).
  split; [|exact Hi]. rewrite Hi in H1, H5.
  change 1 with (inject_Z 1) in H1. change 5 with (inject_Z 5) in H5.
  rewrite <- Zle_Qle in H1, H5. lia.
Qed.

(** The running sum of whole ratings between 1 and 5 is exact, as long as
    it stays below 2^53. *)
Lemma float_sum_whole l (a : Z) (acc : Q) :
  Forall whole_rating l ->
  (0 <= a)%Z -> (a + 5 * Z.of_nat (length l) < 2 ^ 53)%Z ->
  acc == inject_Z a ->
  fold_left (fun sum x => Double.round64 (sum + x)) l acc
  == inject_Z (a + fold_right Z.add 0%Z (map Qfloor l)).
Proof.
  intros Hall. revert a acc.
  induction Hall as [|x l (z & Hz & Hx) Hall IH]; intros a acc Ha Hlen Hacc.
  - cbn. now rewrite Z.add_0_r.
  - cbn [fold_left map fold_right]. cbn [length] in Hlen.
    rewrite Nat2Z.inj_succ in Hlen.
    rewrite (whole_rating_floor x z Hx).
    assert (Hsum : acc + x == inject_Z (a + z)).
    { rewrite inject_Z_plus, <- Hx, Hacc. reflexivity. }
    rewrite Z.add_assoc. apply IH; [lia|lia|].
    rewrite (round64_comp _ _ Hsum). apply round64_inject. lia.
Qed.









(* ------------------------------------------------------------------ *)
(** ** Validation of the rating *)

(** C8 (as the code has it).  A submission whose rating is not a number,
    or is a number outside the closed interval from 1 to 5, is answered
    400 and nothing is written.  Every row the handler appends carries a
    rating in that interval, so a feedback table whose ratings all lie in
    it keeps that property along any sequence of writes of the API.  The
    schema does not ask for an integer. *)
Theorem rating_outside_range_rejected
    (P : Platform) (user : JWTPayload) (body : SubmitFeedbackBody.t)
    (new_id : string) (now : Z) (db : Db) :
  let r := FeedbackRoutes.post user body new_id now db in
  ((forall q, SubmitFeedbackBody.rating body = JS.JNumber q ->
              ~ rating_in_range q) ->
     fst r = fail 400 "Validation failed" /\ snd r = db)
  /\ (forall f, In f (feedbacks (snd r)) ->
                In f (feedbacks db) \/ rating_in_range (Feedback.rating f))
  /\ (forall db',
        Forall (fun f => rating_in_range (Feedback.rating f)) (feedbacks db) ->
        reachable db db' ->
        Forall (fun f => rating_in_range (Feedback.rating f)) (feedbacks db')).
Proof.
  intros r. split; [|split].
  - intros Hbad. subst r. unfold FeedbackRoutes.post.
    assert (Hv : FeedbackRoutes.submitFeedbackSchema body = None).
    { unfold FeedbackRoutes.submitFeedbackSchema.
      destruct (Zod.string_min _ _); [|reflexivity].
      assert (Hq : Zod.number_min_max 1 5 (SubmitFeedbackBody.rating body) = None).
      { unfold Zod.number_min_max.
        destruct (SubmitFeedbackBody.rating body) as [| |b|q|t|]; try reflexivity.
        destruct (Qle_bool 1 q && Qle_bool q 5) eqn:Hb; [|reflexivity].
        exfalso. apply (Hbad q eq_refl).
        apply andb_true_iff in Hb. destruct Hb as [H1 H5].
        split; now apply Qle_bool_iff. }
      now rewrite Hq. }
    rewrite Hv. split; reflexivity.
  - intros f Hf.
    destruct (step_feedbacks db (snd r)
                (step_submit_feedback user body new_id now db))
      as [Hsame|(row & Hnew & _ & Hrange)]; rewrite ?Hsame, ?Hnew in Hf.
    + now left.
    + apply in_app_or in Hf. destruct Hf as [Hf|[<-|[]]]; auto.
  - intros db' Hall Hreach. now apply (reachable_ratings_in_range db).
Qed.

Lemma rating_outside_range_rejected_witness :
  let ann := mkPayload "c1" "ann@example.org" "customer" in
  let body := SubmitFeedbackBody.mk (JS.JString "r1") (JS.JNumber 6) JS.JUndefined in
  let req := ServiceRequest.mk "r1" "s1" "c1" "p1" completed None None None in
  let db := mkDb [User.mk "p1" "p@x.y" "provider" true 0] [] [req] [] in
  FeedbackRoutes.post (P := intPlatform) ann body "f1" 20 db
  = (fail 400 "Validation failed", db).
Proof.
  intros ann body req db.
  destruct (rating_outside_range_rejected intPlatform ann body "f1" 20 db)
    as (Hbad & _).
  rewrite (surjective_pairing (FeedbackRoutes.post ann body "f1" 20 db)).
  destruct Hbad as [-> ->]; [|reflexivity].
  intros q Hq [_ H5]. cbn in Hq. injection Hq as <-.
  apply Qle_bool_iff in H5. vm_compute in H5. discriminate.
Defined.

(** C8, the claim as written fails: a rating of 4.5 on an eligible
    request passes the schema.  With a float column the answer is 201 and
    the fractional rating is stored; with an integer column the insert is
    refused by Prisma and the answer is 500.  In neither case is it 400. *)
Lemma fractional_rating_not_rejected_with_400 :
  let ann := mkPayload "c1" "ann@example.org" "customer" in
  let body := SubmitFeedbackBody.mk (JS.JString "r1") (JS.JNumber (9 # 2))
                JS.JUndefined in
  let req := ServiceRequest.mk "r1" "s1" "c1" "p1" completed None None None in
  let db := mkDb [User.mk "p1" "p@x.y" "provider" true 0] [] [req] [] in
  FeedbackRoutes.is_integer (9 # 2) = false
  /\ status (fst (FeedbackRoutes.post (P := floatPlatform) ann body "f1" 20 db))
     = 201%nat
  /\ feedbacks (snd (FeedbackRoutes.post (P := floatPlatform) ann body "f1" 20 db))
     = [Feedback.mk "f1" "r1" "c1" "p1" (9 # 2) None true 20]
  /\ status (fst (FeedbackRoutes.post (P := intPlatform) ann body "f1" 20 db))
     = 500%nat.
Proof. vm_compute. repeat split. Qed.

(* ------------------------------------------------------------------ *)
(** * Reading a provider's feedback *)

Lemma insert_desc_perm f l :
  Permutation (FeedbackRoutes.insert_desc f l) (f :: l).
Proof.
  induction l as [|g l IH]; cbn; [reflexivity|].
  destruct (Feedback.created_at g <=? Feedback.created_at f)%Z; [reflexivity|].
  rewrite IH. apply perm_swap.
Qed.

Lemma orderBy_perm l :
  Permutation (FeedbackRoutes.orderBy_created_at_desc l) l.
Proof.
  induction l as [|f l IH]; cbn; [reflexivity|].
  rewrite insert_desc_perm. now constructor.
Qed.




Lemma findProvider_exists db id :
  (exists u, In u (users db) /\ User.id u = id /\ User.role u = "provider") ->
  exists u, FeedbackRoutes.findProvider db id = Some u.
Proof.
  intros (u & Hin & Hid & Hrole).
  destruct (FeedbackRoutes.findProvider db id) eqn:Hf; [eauto|].
  pose proof (find_none _ _ Hf u Hin) as Hb. cbn beta in Hb.
  rewrite Hid, Hrole, String.eqb_refl in Hb. discriminate.
Qed.








(* ------------------------------------------------------------------ *)
(** * The routes, gate included *)

Section RouteFacts.
Context {J : JsonWebToken} {P : Platform} (env : ProcessEnv).

(** Behind its gate every writing route either leaves the store alone or
    performs one [step]; the invariants above therefore hold for the API
    as it is mounted. *)
Lemma routes_step authorization now db :
  (forall body new_id,
     snd (Routes.POST_requests env authorization now body new_id db) = db
     \/ step db (snd (Routes.POST_requests env authorization now body new_id db)))
  /\ (forall id body_status,
        snd (Routes.PATCH_requests env authorization now id body_status db) = db
        \/ step db (snd (Routes.PATCH_requests env authorization now id body_status db)))
  /\ (forall body new_id,
        snd (Routes.POST_feedback env authorization now body new_id db) = db
        \/ step db (snd (Routes.POST_feedback env authorization now body new_id db))).
Proof.
  unfold Routes.POST_requests, Routes.PATCH_requests, Routes.POST_feedback,
    Routes.customerGate, Middleware.route.
  repeat split; intros;
    destruct (Middleware.authenticateToken env authorization db now) as [u|c m];
    cbn [Middleware.and_then]; try (now left);
    try (right; constructor);
    destruct (Middleware.requireRole ["customer"] (Some u)); cbn [snd];
    (now left) || (right; constructor).
Qed.

(** A caller whose role is not customer is stopped with 403 before the
    feedback handler. *)
Lemma POST_feedback_requires_customer authorization now body new_id db u :
  Middleware.authenticateToken env authorization db now = Next u ->
  payload_role u <> "customer" ->
  Routes.POST_feedback env authorization now body new_id db
  = (fail 403 "Insufficient permissions", db).
Proof.
  intros Hg Hrole. unfold Routes.POST_feedback, Routes.customerGate.
  rewrite Hg. cbn [Middleware.and_then Middleware.requireRole JS.includes existsb].
  destruct (String.eqb_spec (payload_role u) "customer"); [contradiction|].
  reflexivity.
Qed.

End RouteFacts.

(** The scenario of the specification, run through the mounted routes with
    bearer tokens: customer c1 requests service s1 of provider p1 (201);
    p1 accepts (200) and completes (200); c1 rates 4 (201) and the stored
    rating of p1 becomes 4; c1 rates again (409). *)
Example lifecycle_scenario :
  let env := mkEnv None in
  let hdr u := Some ("Bearer " ++ AuthUtils.generateAccessToken (J := ToyJwt.lib)
                                   env 1000 u)%string in
  let c1 := hdr (mkUserTokenData "c1" "ann@example.org" "customer") in
  let p1 := hdr (mkUserTokenData "p1" "pat@example.org" "provider") in
  let db0 := mkDb [User.mk "c1" "ann@example.org" "customer" true 0;
                   User.mk "p1" "pat@example.org" "provider" true 0]
                  [Service.mk "s1" "p1" true] [] [] in
  let POST_requests :=
    Routes.POST_requests (J := ToyJwt.lib) (P := floatPlatform) env in
  let PATCH_requests :=
    Routes.PATCH_requests (J := ToyJwt.lib) env in
  let POST_feedback :=
    Routes.POST_feedback (J := ToyJwt.lib) (P := floatPlatform) env in
  let s1 := POST_requests c1 1100%Z
              (CreateRequestBody.mk (JS.JString "s1") JS.JUndefined
                 JS.JUndefined JS.JUndefined) "r1" db0 in
  let s2 := PATCH_requests p1 1200%Z "r1" (JS.JString "accepted") (snd s1) in
  let s3 := PATCH_requests p1 1300%Z "r1" (JS.JString "completed") (snd s2) in
  let rate := SubmitFeedbackBody.mk (JS.JString "r1") (JS.JNumber 4) JS.JUndefined in
  let s4 := POST_feedback c1 1400%Z rate "f1" (snd s3) in
  let s5 := POST_feedback c1 1500%Z rate "f2" (snd s4) in
  [status (fst s1); status (fst s2); status (fst s3)] = [201; 200; 200]%nat
  /\ [status (fst s4); status (fst s5)] = [201; 409]%nat
  /\ option_map ServiceRequest.status (data (fst s1)) = Some pending
  /\ (forall u, In u (users (snd s4)) -> User.id u = "p1" -> User.rating u == 4)
  /\ snd s5 = snd s4.
Proof.
  vm_compute. repeat split.
  intros u [<-|[<-|[]]]; [discriminate|reflexivity].
Qed.

(* ------------------------------------------------------------------ *)
(** * The boundary error handler *)

Ltac split_six := split; [|split; [|split; [|split; [|split]]]].

(** X1.  Whatever is thrown, [errorHandler] answers with [success] false.
    For a value that is not an [AppError] the status is one of 400, 401,
    404, 409 and 500 and the message one of eight fixed texts; a known
    Prisma error is 409 exactly for code P2002, 404 exactly for P2025 and
    400 otherwise.  An [AppError] is answered with its own status and
    message.  Unless zod or Prisma details exist, the [error] field is the
    message of the thrown value, also for an unrecognised error answered
    500.  The stack is sent only when NODE_ENV is development. *)
Theorem errorHandler_envelope
    (NODE_ENV : option string) (e : ErrorHandler.JsError) :
  let r := ErrorHandler.errorHandler NODE_ENV e in
  ErrorHandler.body_success (snd r) = false
  /\ ((forall sc op, ErrorHandler.error_class e <> ErrorHandler.AppError sc op) ->
      In (fst r) [400; 401; 404; 409; 500]%nat
      /\ In (ErrorHandler.body_message (snd r))
            ["Validation failed"; "A record with this information already exists";
             "Record not found"; "Database operation failed";
             "Invalid data provided"; "Invalid token"; "Token expired";
             "Internal server error"])
  /\ (forall code meta,
        ErrorHandler.error_class e
        = ErrorHandler.PrismaClientKnownRequestError code meta ->
        (fst r = 409%nat <-> code = "P2002")
        /\ (fst r = 404%nat <-> code = "P2025")
        /\ (code <> "P2002" -> code <> "P2025" -> fst r = 400%nat))
  /\ (forall sc op,
        ErrorHandler.error_class e = ErrorHandler.AppError sc op ->
        fst r = sc
        /\ ErrorHandler.body_message (snd r) = ErrorHandler.error_message e)
  /\ ((forall l, ErrorHandler.error_class e <> ErrorHandler.ZodError l) ->
      (forall code meta,
         ErrorHandler.error_class e
         <> ErrorHandler.PrismaClientKnownRequestError code meta) ->
      ErrorHandler.body_error (snd r) = inr (ErrorHandler.error_message e))
  /\ (NODE_ENV <> Some "development" ->
      ErrorHandler.body_stack (snd r) = None).
Proof.
  intros r. subst r. unfold ErrorHandler.errorHandler.
  assert (Hdev : NODE_ENV <> Some "development" ->
                 ErrorHandler.development NODE_ENV = false).
  { intros Hn. unfold ErrorHandler.development.
    destruct NODE_ENV as [v|]; [|reflexivity].
    destruct (String.eqb_spec v "development"); congruence. }
  destruct (ErrorHandler.error_class e) as [l|code meta| |sc op|] eqn:Hc.
  - cbn. split_six.
    + reflexivity.
    + intros _. split; cbn; auto 10.
    + discriminate.
    + discriminate.
    + intros Hz. now destruct (Hz l).
    + intros Hn. now rewrite (Hdev Hn).
  - destruct (String.eqb_spec code "P2002") as [E1|E1];
      [|destruct (String.eqb_spec code "P2025") as [E2|E2]]; cbn; split_six;
      try reflexivity; try discriminate;
      try (intros _; split; cbn; auto 10);
      try (intros _ Hp; now destruct (Hp code meta));
      try (intros Hn; now rewrite (Hdev Hn));
      intros c m [= <- <-]; subst;
      (split; [|split]); try (split; intros; congruence);
      intros; congruence.
  - cbn. split_six.
    + reflexivity.
    + intros _. split; cbn; auto 10.
    + discriminate.
    + discriminate.
    + reflexivity.
    + intros Hn. now rewrite (Hdev Hn).
  - cbn. split_six.
    + reflexivity.
    + intros Hn. now destruct (Hn sc op).
    + discriminate.
    + intros sc' op' [= <- <-]. split; reflexivity.
    + reflexivity.
    + intros Hn. now rewrite (Hdev Hn).
  - destruct (ErrorHandler.error_name e =? "JsonWebTokenError")%string;
      [|destruct (ErrorHandler.error_name e =? "TokenExpiredError")%string];
      cbn; split_six;
      try reflexivity; try discriminate;
      try (intros _; split; cbn; auto 10);
      intros Hn; now rewrite (Hdev Hn).
Qed.

Lemma errorHandler_envelope_witness :
  fst (ErrorHandler.errorHandler (Some "production")
         (ErrorHandler.mkError
            (ErrorHandler.PrismaClientKnownRequestError "P2002" None)
            "PrismaClientKnownRequestError" "Unique constraint failed"
            (Some "at create"))) = 409%nat.
Proof.
  destruct (errorHandler_envelope (Some "production")
              (ErrorHandler.mkError
                 (ErrorHandler.PrismaClientKnownRequestError "P2002" None)
                 "PrismaClientKnownRequestError" "Unique constraint failed"
                 (Some "at create")))
    as (_ & _ & Hp & _).
  destruct (Hp "P2002" None eq_refl) as (H409 & _).
  now apply H409.
Defined.

(** A request that matches no route reaches [errorHandler] through
    [notFoundHandler] and is answered 404 with the message and the error
    field both naming the requested URL. *)
Theorem unmatched_route_answers_404
    (NODE_ENV : option string) (originalUrl : string) (stack : option string) :
  let r := ErrorHandler.errorHandler NODE_ENV
             (ErrorHandler.notFoundHandler originalUrl stack) in
  fst r = 404%nat
  /\ ErrorHandler.body_success (snd r) = false
  /\ ErrorHandler.body_message (snd r)
     = ("Route " ++ originalUrl ++ " not found")%string
  /\ ErrorHandler.body_error (snd r)
     = inr ("Route " ++ originalUrl ++ " not found")%string.
Proof. repeat split. Qed.

(* ------------------------------------------------------------------ *)
(** * The gate seen from the routes *)

Lemma includes_In roles x : JS.includes roles x = true <-> In x roles.
Proof.
  unfold JS.includes. rewrite existsb_exists. split.
  - intros (y & Hy & Hb). apply String.eqb_eq in Hb. now subst y.
  - intros Hx. exists x. split; [assumption|apply String.eqb_refl].
Qed.

Lemma split_without_separator sep s :
  contains sep s = false -> JS.split sep s = [s].
Proof.
  induction s as [|c s IH]; cbn; [reflexivity|].
  intros H. apply orb_false_iff in H. destruct H as [Hc Hs].
  rewrite Hc, (IH Hs). reflexivity.
Qed.

Lemma bearer_of_header token :
  contains " "%char token = false ->
  Middleware.bearer (Some ("Bearer " ++ token)%string) = Some token.
Proof.
  intros Hs. unfold Middleware.bearer. cbn.
  now rewrite (split_without_separator _ _ Hs).
Qed.

(** X2.  A route mounted behind [authenticateToken] and
    [requireRole(roles)] runs its handler exactly when the token passes
    the first gate and the role it carries is one of [roles].  It is
    stopped with 401 exactly when the first gate stops it, and with 403
    only for a caller the first gate let through; no other status is
    produced.  Without [req.user] the role check answers 401. *)
Theorem role_guard_outcomes
    (J : JsonWebToken) (env : ProcessEnv) (roles : list string)
    (authorization : option string) (db : Db) (now : Z) :
  let first := Middleware.authenticateToken env authorization db now in
  let g := Middleware.and_then first
             (fun u => Middleware.requireRole roles (Some u)) in
  (forall u, g = Next u <-> first = Next u /\ In (payload_role u) roles)
  /\ (forall c m, g = Halt c m ->
        (c = 401%nat /\ first = Halt 401 m)
        \/ (c = 403%nat /\ exists u, first = Next u
                                     /\ ~ In (payload_role u) roles))
  /\ Middleware.requireRole roles None = Halt 401 "Authentication required".
Proof.
  intros first g. subst g.
  destruct first as [v|c0 m0] eqn:Hfirst; cbn [Middleware.and_then];
    (split; [|split; [|reflexivity]]).
  - intros u. unfold Middleware.requireRole.
    destruct (JS.includes roles (payload_role v)) eqn:Hi; cbn [negb].
    + apply includes_In in Hi. split.
      * intros [= <-]. auto.
      * intros [[= <-] _]. reflexivity.
    + split; [discriminate|]. intros [[= <-] Hin].
      apply includes_In in Hin. congruence.
  - intros c m. unfold Middleware.requireRole.
    destruct (JS.includes roles (payload_role v)) eqn:Hi; cbn [negb];
      [discriminate|].
    intros [= <- <-]. right. split; [reflexivity|]. exists v.
    split; [reflexivity|]. intros Hin. apply includes_In in Hin. congruence.
  - intros u. split; [discriminate|]. intros [H _]. discriminate.
  - intros c m [= <- <-]. left.
    pose proof (authenticateToken_halt env _ _ _ _ _ Hfirst) as ->.
    auto.
Qed.

Lemma role_guard_outcomes_witness :
  let env := mkEnv None in
  let ann := mkUserTokenData "u1" "ann@example.org" "customer" in
  let db := mkDb [User.mk "u1" "ann@example.org" "customer" true 0] [] [] [] in
  let hdr := Some ("Bearer " ++ AuthUtils.generateAccessToken (J := ToyJwt.lib) env 1000 ann)%string in
  exists m,
    Middleware.and_then
      (Middleware.authenticateToken (J := ToyJwt.lib) env hdr db 1100)
      (fun u => Middleware.requireRole ["provider"] (Some u)) = Halt 403 m.
Proof.
  intros env ann db hdr.
  destruct (role_guard_outcomes ToyJwt.lib env ["provider"] hdr db 1100)
    as (_ & Hhalt & _).
  destruct (Middleware.and_then _ _) as [u|c m] eqn:Hg.
  - vm_compute in Hg. discriminate.
  - destruct (Hhalt c m eq_refl) as [[_ H401]|[-> _]].
    + vm_compute in H401. discriminate.
    + now exists m.
Defined.

(** X3.  Issue and enter: if the library accepts the access token of
    [generateAccessToken] at instant [t] under the secret it was signed
    with, and the token is a non-empty string without a blank (as a JWT
    is), then sent as [Bearer <token>] it passes [authenticateToken] for
    as long as the account exists and is active, and the handler behind
    the gate receives the claims of that user. *)
Theorem issued_token_passes_gate
    (J : JsonWebToken) (env : ProcessEnv) (user : UserTokenData)
    (now t : Z) (db : Db) (u : User.t) :
  let token := AuthUtils.generateAccessToken env now user in
  jwt_verify token (AuthUtils.JWT_SECRET env) t
    = Some (AuthUtils.payload_of user) ->
  token <> "" ->
  contains " "%char token = false ->
  Middleware.findUser db (utd_id user) = Some u ->
  User.is_active u = true ->
  Middleware.authenticateToken env (Some ("Bearer " ++ token)%string) db t
    = Next (AuthUtils.payload_of user)
  /\ forall A (handler : JWTPayload -> Response A * Db),
       Middleware.route
         (Middleware.authenticateToken env (Some ("Bearer " ++ token)%string) db t)
         db handler
       = handler (AuthUtils.payload_of user).
Proof.
  intros token Hv Hne Hsp Hu Ha.
  assert (Hg : Middleware.authenticateToken env
                 (Some ("Bearer " ++ token)%string) db t
               = Next (AuthUtils.payload_of user)).
  { apply authenticateToken_next. exists token, u.
    split; [now apply bearer_of_header|]. repeat split; assumption. }
  split; [exact Hg|]. intros A handler. now rewrite Hg.
Qed.

Lemma issued_token_passes_gate_witness :
  let env := mkEnv None in
  let ann := mkUserTokenData "u1" "ann@example.org" "customer" in
  let db := mkDb [User.mk "u1" "ann@example.org" "customer" true 0] [] [] [] in
  Middleware.authenticateToken (J := ToyJwt.lib) env
    (Some ("Bearer " ++ AuthUtils.generateAccessToken (J := ToyJwt.lib) env 1000 ann)%string)
    db 1899
  = Next (mkPayload "u1" "ann@example.org" "customer").
Proof.
  intros env ann db.
  apply (issued_token_passes_gate ToyJwt.lib env ann 1000 1899 db
           (User.mk "u1" "ann@example.org" "customer" true 0)).
  - vm_compute. reflexivity.
  - vm_compute. discriminate.
  - vm_compute. reflexivity.
  - reflexivity.
  - reflexivity.
Defined.

(* ------------------------------------------------------------------ *)
(** * Removing a service *)

Lemma findOwnedService_some db id pid s :
  Services.findOwnedService db id pid = Some s ->
  In s (services db) /\ Service.id s = id /\ Service.provider_id s = pid
  /\ Service.is_active s = true.
Proof.
  intros Hf. apply find_some in Hf. destruct Hf as [Hin Hb].
  apply andb_true_iff in Hb. destruct Hb as [Hb H3].
  apply andb_true_iff in Hb. destruct Hb as [H1 H2].
  apply String.eqb_eq in H1, H2. auto.
Qed.

Lemma findOwnedService_exists db id pid :
  (exists s, In s (services db) /\ Service.id s = id
             /\ Service.provider_id s = pid /\ Service.is_active s = true) ->
  exists s, Services.findOwnedService db id pid = Some s.
Proof.
  intros (s & Hin & H1 & H2 & H3).
  destruct (Services.findOwnedService db id pid) eqn:Hf; [eauto|].
  pose proof (find_none _ _ Hf s Hin) as Hb. cbn beta in Hb.
  rewrite H1, H2, H3, !String.eqb_refl in Hb. discriminate.
Qed.

(** What a successful DELETE leaves behind. *)
Lemma delete_found user id db s :
  Services.findOwnedService db id (userId user) = Some s ->
  Services.delete user id db
  = (mkResponse 200 "Service deleted successfully" None,
     with_services db
       (map (fun x => if (Service.id x =? id)%string
                      then Service.mk (Service.id x) (Service.provider_id x) false
                      else x)
            (services db))).
Proof.
  intros Hf. unfold Services.delete, Services.deactivate. rewrite Hf.
  destruct (findOwnedService_some _ _ _ _ Hf) as (Hin & Hid & _).
  assert (Hex : existsb (fun x => (Service.id x =? id)%string) (services db) = true).
  { apply existsb_exists. exists s. split; [assumption|].
    now apply String.eqb_eq. }
  now rewrite Hex.
Qed.

Lemma delete_200_inactive user id db :
  status (fst (Services.delete user id db)) = 200%nat ->
  forall x, In x (services (snd (Services.delete user id db))) ->
            Service.id x = id -> Service.is_active x = false.
Proof.
  intros H200.
  destruct (Services.findOwnedService db id (userId user)) as [s|] eqn:Hf.
  - rewrite (delete_found _ _ _ _ Hf). cbn [snd services with_services].
    intros x Hx Hid. apply in_map_iff in Hx. destruct Hx as (y & Hy & _).
    destruct (String.eqb_spec (Service.id y) id) as [E|E]; subst x;
      [reflexivity|contradiction].
  - unfold Services.delete in H200. rewrite Hf in H200. discriminate.
Qed.

(** X4.  DELETE /services/:id is an owner-only soft delete.  If the
    caller owns an active service under that id the answer is 200, every
    row under the id is marked inactive, and nothing else changes: no row
    is removed, ids and owners stay, the other tables are untouched.  In
    every other case (no such id, another owner, already inactive) the
    answer is the same 404 and the store is unchanged. *)
Theorem delete_service_owner_only
    (user : JWTPayload) (id : string) (db : Db) :
  let r := Services.delete user id db in
  let owned s :=
    In s (services db) /\ Service.id s = id
    /\ Service.provider_id s = userId user /\ Service.is_active s = true in
  ((exists s, owned s) ->
     status (fst r) = 200%nat
     /\ users (snd r) = users db
     /\ serviceRequests (snd r) = serviceRequests db
     /\ feedbacks (snd r) = feedbacks db
     /\ map Service.id (services (snd r)) = map Service.id (services db)
     /\ map Service.provider_id (services (snd r))
        = map Service.provider_id (services db)
     /\ (forall x, In x (services (snd r)) -> Service.id x = id ->
                   Service.is_active x = false)
     /\ (forall x, In x (services db) -> Service.id x <> id ->
                   In x (services (snd r))))
  /\ ((forall s, ~ owned s) ->
      fst r = fail 404 "Service not found or access denied" /\ snd r = db).
Proof.
  intros r owned. subst r. split.
  - intros Hex. destruct (findOwnedService_exists db id (userId user) Hex) as [s Hf].
    rewrite (delete_found _ _ _ _ Hf). cbn [fst snd status with_services users
      serviceRequests feedbacks services].
    repeat split.
    + rewrite map_map. apply map_ext. intros x.
      now destruct (Service.id x =? id)%string.
    + rewrite map_map. apply map_ext. intros x.
      now destruct (Service.id x =? id)%string.
    + intros x Hx Hid. apply in_map_iff in Hx. destruct Hx as (y & Hy & _).
      destruct (String.eqb_spec (Service.id y) id) as [E|E]; subst x;
        [reflexivity|contradiction].
    + intros x Hx Hid. apply in_map_iff. exists x. split; [|assumption].
      destruct (String.eqb_spec (Service.id x) id); [contradiction|reflexivity].
  - intros Hnone. unfold Services.delete.
    destruct (Services.findOwnedService db id (userId user)) as [s|] eqn:Hf.
    + exfalso. apply (Hnone s). unfold owned.
      now apply findOwnedService_some.
    + split; reflexivity.
Qed.

Lemma delete_service_owner_only_witness :
  let pat := mkPayload "p1" "pat@example.org" "provider" in
  let db := mkDb [] [Service.mk "s1" "p1" true; Service.mk "s2" "p2" true] [] [] in
  status (fst (Services.delete pat "s1" db)) = 200%nat
  /\ Services.delete pat "s2" db
     = (fail 404 "Service not found or access denied", db).
Proof.
  intros pat db.
  destruct (delete_service_owner_only pat "s1" db) as (Hyes & _).
  destruct (delete_service_owner_only pat "s2" db) as (_ & Hno).
  split.
  - apply Hyes. exists (Service.mk "s1" "p1" true). cbn. auto.
  - rewrite (surjective_pairing (Services.delete pat "s2" db)).
    destruct Hno as [-> ->]; [|reflexivity].
    intros s ([<-|[<-|[]]] & Hid & Hp & _); cbn in *; discriminate.
Defined.

(** X5.  Once DELETE /services/:id has answered 200 the service is gone
    for every reader of active services: GET /services/:id answers 404, a
    second DELETE by anyone answers 404, and POST /requests naming that
    service answers 404 without creating a request.  The requests already
    made for it are kept. *)
Theorem deleted_service_is_unavailable
    (P : Platform) (user : JWTPayload) (id : string) (db : Db) :
  status (fst (Services.delete user id db)) = 200%nat ->
  let db' := snd (Services.delete user id db) in
  Services.get id db' = fail 404 "Service not found"
  /\ (forall other, Services.delete other id db'
                    = (fail 404 "Service not found or access denied", db'))
  /\ (forall customer body v new_id,
        Requests.createRequestSchema body = Some v ->
        CreateRequestData.service_id v = id ->
        Requests.post customer body new_id db'
        = (fail 404 "Service not found", db'))
  /\ serviceRequests db' = serviceRequests db.
Proof.
  intros H200 db'.
  pose proof (delete_200_inactive user id db H200) as Hinactive.
  fold db' in Hinactive.
  assert (Hnone : Requests.findActiveService db' id = None).
  { apply findActiveService_none. exact Hinactive. }
  split; [|split; [|split]].
  - unfold Services.get. now rewrite Hnone.
  - intros other. unfold Services.delete.
    destruct (Services.findOwnedService db' id (userId other)) as [s|] eqn:Hf;
      [|reflexivity].
    apply findOwnedService_some in Hf. destruct Hf as (Hin & Hid & _ & Hact).
    rewrite (Hinactive s Hin Hid) in Hact. discriminate.
  - intros customer body v new_id Hv Hid. unfold Requests.post.
    now rewrite Hv, Hid, Hnone.
  - subst db'. unfold Services.delete in *.
    destruct (Services.findOwnedService db id (userId user)); [|reflexivity].
    unfold Services.deactivate.
    destruct (existsb _ (services db)); reflexivity.
Qed.

Lemma deleted_service_is_unavailable_witness :
  let pat := mkPayload "p1" "pat@example.org" "provider" in
  let ann := mkPayload "c1" "ann@example.org" "customer" in
  let db := mkDb [] [Service.mk "s1" "p1" true] [] [] in
  let db' := snd (Services.delete pat "s1" db) in
  let body := CreateRequestBody.mk (JS.JString "s1") JS.JUndefined
                JS.JUndefined JS.JUndefined in
  Requests.post (P := floatPlatform) ann body "r1" db'
  = (fail 404 "Service not found", db').
Proof.
  intros pat ann db db' body.
  destruct (deleted_service_is_unavailable floatPlatform pat "s1" db eq_refl)
    as (_ & _ & Hpost & _).
  apply (Hpost ann body (CreateRequestData.mk "s1" None None None) "r1");
    reflexivity.
Defined.

(* ------------------------------------------------------------------ *)
(** * Accounts *)

Section AccountFacts.
Context {J : JsonWebToken} {B : Bcrypt} {A : AccountPlatform} (env : ProcessEnv).

(** The gate's lookup on the projection is the lookup on the accounts. *)
Lemma findUser_users_of db accounts id :
  users db = users_of accounts ->
  Middleware.findUser db id
  = option_map Account.user (AuthRoutes.findById accounts id).
Proof.
  intros Hu. unfold Middleware.findUser, AuthRoutes.findById, users_of in *.
  rewrite Hu. clear Hu.
  induction accounts as [|a l IH]; cbn; [reflexivity|].
  destruct (User.id (Account.user a) =? id)%string; [reflexivity|exact IH].
Qed.

Lemma find_app_last {T} (f : T -> bool) l x :
  find f l = None -> f x = true -> find f (l ++ [x]) = Some x.
Proof.
  induction l as [|a l IH]; cbn; intros Hn Hx.
  - now rewrite Hx.
  - destruct (f a); [discriminate|]. now apply IH.
Qed.

(** POST /auth/register leaves the accounts alone (and does not answer
    201) or appends the one row built from the validated body. *)
Lemma register_inv body new_id salt now accounts :
  let r := AuthRoutes.register env body new_id salt now accounts in
  (snd r = accounts /\ status (fst r) <> 201%nat)
  \/ exists v row,
       AuthRoutes.registerSchema body = Some v
       /\ AuthRoutes.findByEmail accounts (RegisterData.email v) = None
       /\ existsb (fun a => (User.id (Account.user a) =? new_id)%string
                            || (User.email (Account.user a) =? RegisterData.email v)%string)
                  accounts = false
       /\ row = Account.mk
                  (User.mk new_id (RegisterData.email v) (RegisterData.role v)
                           user_is_active_default user_rating_default)
                  (RegisterData.name v)
                  (AuthRoutes.hashPassword (RegisterData.password v) salt)
                  (RegisterData.phone v) (RegisterData.location v)
                  user_is_verified_default now
       /\ r = (mkResponse 201 "User registered successfully"
                 (Some (AuthUtils.generateTokenPair env now (AuthRoutes.tokenData row),
                        respond_user row)),
               accounts ++ [row]).
Proof.
  intros r. subst r. unfold AuthRoutes.register.
  destruct (AuthRoutes.registerSchema body) as [v|];
    [|left; split; [reflexivity|discriminate]].
  destruct (AuthRoutes.findByEmail accounts _) eqn:Hf;
    [left; split; [reflexivity|discriminate]|].
  unfold AuthRoutes.createUser.
  destruct (existsb _ accounts) eqn:Hex;
    [left; split; [reflexivity|discriminate]|].
  right. do 2 eexists. repeat split; try reflexivity; assumption.
Qed.

Lemma registerSchema_fields body v :
  AuthRoutes.registerSchema body = Some v ->
  RegisterBody.email body = JS.JString (RegisterData.email v)
  /\ zod_email (RegisterData.email v) = true
  /\ RegisterBody.password body = JS.JString (RegisterData.password v)
  /\ (6 <= String.length (RegisterData.password v))%nat
  /\ (RegisterData.role v = "customer" \/ RegisterData.role v = "provider").
Proof.
  unfold AuthRoutes.registerSchema. intros H.
  destruct (Zod.string_min 2 _); [|discriminate].
  destruct (ZodAccount.email _) as [e|] eqn:He; [|discriminate].
  destruct (Zod.string_min 6 _) as [p|] eqn:Hp; [|discriminate].
  destruct (ZodAccount.enum_role _) as [ro|] eqn:Hr; [|discriminate].
  destruct (Zod.string_optional (RegisterBody.phone body)); [|discriminate].
  destruct (Zod.string_optional (RegisterBody.location body)); [|discriminate].
  injection H as <-. cbn.
  unfold ZodAccount.email in He. unfold Zod.string_min in Hp.
  unfold ZodAccount.enum_role in Hr.
  destruct (RegisterBody.email body) as [| |b1|q1|s1|]; try discriminate.
  destruct (zod_email s1) eqn:Hz; [|discriminate]. injection He as <-.
  destruct (RegisterBody.password body) as [| |b2|q2|s2|]; try discriminate.
  destruct (6 <=? String.length s2)%nat eqn:Hl; [|discriminate].
  injection Hp as <-. apply Nat.leb_le in Hl.
  destruct (RegisterBody.role body) as [| |b3|q3|s3|]; try discriminate.
  destruct (JS.includes ["customer"; "provider"] s3) eqn:Hi; [|discriminate].
  injection Hr as <-. apply includes_In in Hi.
  repeat split; auto. destruct Hi as [<-|[<-|[]]]; auto.
Qed.

End AccountFacts.

(** X6.  For a body the schema accepts, POST /auth/register answers 409
    and writes nothing when an account already has the e-mail address;
    otherwise (the generated id being new) it answers 201, having appended
    one account with that address, a role that is customer or provider,
    as password the bcrypt hash (cost 12) of the one given, and the
    tokens it returns are those of [generateTokenPair] for the new row.
    Addresses that were pairwise distinct before the call are so after
    it, whatever the body. *)
Theorem register_outcomes
    (J : JsonWebToken) (B : Bcrypt) (A : AccountPlatform) (env : ProcessEnv)
    (body : RegisterBody.t) (v : RegisterData.t) (new_id salt : string)
    (now : Z) (accounts : list Account.t) :
  AuthRoutes.registerSchema body = Some v ->
  let r := AuthRoutes.register env body new_id salt now accounts in
  ((exists a, In a accounts
              /\ User.email (Account.user a) = RegisterData.email v) ->
     fst r = fail 409 "User with this email already exists"
     /\ snd r = accounts)
  /\ ((forall a, In a accounts ->
                 User.email (Account.user a) <> RegisterData.email v) ->
      (forall a, In a accounts -> User.id (Account.user a) <> new_id) ->
      exists row,
        fst r = mkResponse 201 "User registered successfully"
                  (Some (AuthUtils.generateTokenPair env now
                           (AuthRoutes.tokenData row),
                         respond_user row))
        /\ snd r = accounts ++ [row]
        /\ User.id (Account.user row) = new_id
        /\ User.email (Account.user row) = RegisterData.email v
        /\ (User.role (Account.user row) = "customer"
            \/ User.role (Account.user row) = "provider")
        /\ Account.password row
           = bcrypt_hash (RegisterData.password v) 12 salt)
  /\ (NoDup (map User.email (users_of accounts)) ->
      NoDup (map User.email (users_of (snd r)))).
Proof.
  intros Hv r. split; [|split].
  - intros (a & Hin & He). subst r. unfold AuthRoutes.register. rewrite Hv.
    destruct (AuthRoutes.findByEmail accounts (RegisterData.email v)) eqn:Hf;
      [split; reflexivity|].
    pose proof (find_none _ _ Hf a Hin) as Hb. cbn beta in Hb.
    rewrite He, String.eqb_refl in Hb. discriminate.
  - intros Hnew Hid. subst r. unfold AuthRoutes.register. rewrite Hv.
    assert (Hf : AuthRoutes.findByEmail accounts (RegisterData.email v) = None).
    { apply find_none_iff. intros a Ha. apply String.eqb_neq. now apply Hnew. }
    rewrite Hf. unfold AuthRoutes.createUser.
    assert (Hex : existsb
                    (fun a => (User.id (Account.user a) =? new_id)%string
                              || (User.email (Account.user a) =? RegisterData.email v)%string)
                    accounts = false).
    { destruct (existsb _ accounts) eqn:E; [|reflexivity].
      apply existsb_exists in E. destruct E as (a & Ha & Hb).
      apply orb_true_iff in Hb. destruct Hb as [Hb|Hb];
        apply String.eqb_eq in Hb; [now destruct (Hid a Ha)|now destruct (Hnew a Ha)]. }
    rewrite Hex. eexists. cbn [fst snd]. split; [reflexivity|].
    split; [reflexivity|]. cbn.
    destruct (registerSchema_fields body v Hv) as (_ & _ & _ & _ & Hrole).
    repeat split; auto.
  - intros Hnd.
    destruct (register_inv env body new_id salt now accounts)
      as [[Hsame _]|(v' & row & _ & Hf & _ & Hrow & Hr)]; fold r in Hsame || fold r in Hr.
    + now rewrite Hsame.
    + rewrite Hr. cbn [snd]. unfold users_of. rewrite !map_app. cbn [map].
      apply NoDup_snoc; [exact Hnd|].
      intros Hin. rewrite map_map in Hin. apply in_map_iff in Hin.
      destruct Hin as (a & He & Ha).
      pose proof (find_none _ _ Hf a Ha) as Hb. cbn beta in Hb.
      subst row. cbn in He. rewrite He, String.eqb_refl in Hb. discriminate.
Qed.

Lemma register_outcomes_witness :
  let body := RegisterBody.mk (JS.JString "Ann") (JS.JString "ann@example.org")
                (JS.JString "s3cret!") (JS.JString "customer")
                JS.JUndefined JS.JUndefined in
  let old := Account.mk (User.mk "u0" "ann@example.org" "provider" true 0)
               "Ann P." "salt$other" None None false 5 in
  AuthRoutes.register (J := ToyJwt.lib) (B := toyBcrypt) (A := toyAccounts)
    (mkEnv None) body "u1" "salt" 10 [old]
  = (fail 409 "User with this email already exists", [old]).
Proof.
  intros body old.
  destruct (register_outcomes ToyJwt.lib toyBcrypt toyAccounts (mkEnv None) body
              (RegisterData.mk "Ann" "ann@example.org" "s3cret!" "customer" None None)
              "u1" "salt" 10 [old] eq_refl) as (Hdup & _).
  rewrite (surjective_pairing (AuthRoutes.register _ body "u1" "salt" 10 [old])).
  destruct Hdup as [-> ->]; [|reflexivity].
  exists old. cbn. auto.
Defined.

Section LoginFacts.
Context {J : JsonWebToken} {B : Bcrypt} {A : AccountPlatform} (env : ProcessEnv).

Lemma login_ok email password e p now accounts a :
  AuthRoutes.loginSchema email password = Some (e, p) ->
  AuthRoutes.findByEmail accounts e = Some a ->
  bcrypt_compare p (Account.password a) = true ->
  User.is_active (Account.user a) = true ->
  AuthRoutes.login env email password now accounts
  = mkResponse 200 "Login successful"
      (Some (AuthUtils.generateTokenPair env now (AuthRoutes.tokenData a),
             respond_user a)).
Proof.
  intros Hs Hf Hc Ha. unfold AuthRoutes.login, AuthRoutes.verifyPassword.
  now rewrite Hs, Hf, Hc, Ha.
Qed.

End LoginFacts.

(** X7.  For credentials the schema accepts, POST /auth/login gives one
    and the same 401 for an unknown address and for a wrong password; it
    answers "Account is deactivated" exactly when the password is right
    and the account inactive, and 200 exactly when the password is right
    and the account active, the tokens then being those of
    [generateTokenPair] for the stored row. *)
Theorem login_outcomes
    (J : JsonWebToken) (B : Bcrypt) (A : AccountPlatform) (env : ProcessEnv)
    (email password : JS.json) (e p : string) (now : Z)
    (accounts : list Account.t) :
  AuthRoutes.loginSchema email password = Some (e, p) ->
  let r := AuthRoutes.login env email password now accounts in
  let found a :=
    AuthRoutes.findByEmail accounts e = Some a
    /\ bcrypt_compare p (Account.password a) = true in
  ((AuthRoutes.findByEmail accounts e = None
    \/ exists a, AuthRoutes.findByEmail accounts e = Some a
                 /\ bcrypt_compare p (Account.password a) = false) ->
     r = fail 401 "Invalid email or password")
  /\ (r = fail 401 "Account is deactivated" <->
      exists a, found a /\ User.is_active (Account.user a) = false)
  /\ (status r = 200%nat <->
      exists a, found a /\ User.is_active (Account.user a) = true)
  /\ (forall a, found a -> User.is_active (Account.user a) = true ->
        r = mkResponse 200 "Login successful"
              (Some (AuthUtils.generateTokenPair env now (AuthRoutes.tokenData a),
                     respond_user a))).
Proof.
  intros Hs r found. subst r found. unfold AuthRoutes.login. rewrite Hs.
  unfold AuthRoutes.verifyPassword.
  destruct (AuthRoutes.findByEmail accounts e) as [a|] eqn:Hf.
  - destruct (bcrypt_compare p (Account.password a)) eqn:Hc; cbn [negb].
    + destruct (User.is_active (Account.user a)) eqn:Ha; cbn [negb].
      * split; [|split; [|split]].
        -- intros [Hx|(a' & [= <-] & Hx)]; congruence.
        -- split; [discriminate|].
           intros (a' & ([= <-] & _) & Hx). congruence.
        -- split; [|reflexivity]. intros _. exists a. auto.
        -- intros a' ([= <-] & _) _. reflexivity.
      * split; [|split; [|split]].
        -- intros [Hx|(a' & [= <-] & Hx)]; congruence.
        -- split; [|reflexivity]. intros _. exists a. auto.
        -- split; [discriminate|].
           intros (a' & ([= <-] & _) & Hx). congruence.
        -- intros a' ([= <-] & _) Hx. congruence.
    + split; [|split; [|split]].
      * reflexivity.
      * split; [discriminate|]. intros (a' & ([= <-] & Hx) & _). congruence.
      * split; [discriminate|]. intros (a' & ([= <-] & Hx) & _). congruence.
      * intros a' ([= <-] & Hx) _. congruence.
  - split; [|split; [|split]].
    + reflexivity.
    + split; [discriminate|]. intros (a' & (Hx & _) & _). discriminate.
    + split; [discriminate|]. intros (a' & (Hx & _) & _). discriminate.
    + intros a' (Hx & _) _. discriminate.
Qed.

Lemma login_outcomes_witness :
  let ann := Account.mk (User.mk "u1" "ann@example.org" "customer" false 0)
               "Ann" "salt$s3cret!" None None false 5 in
  AuthRoutes.login (J := ToyJwt.lib) (B := toyBcrypt) (A := toyAccounts)
    (mkEnv None) (JS.JString "bob@example.org") (JS.JString "s3cret!") 10 [ann]
  = AuthRoutes.login (J := ToyJwt.lib) (B := toyBcrypt) (A := toyAccounts)
      (mkEnv None) (JS.JString "ann@example.org") (JS.JString "guess") 10 [ann].
Proof.
  intros ann.
  destruct (login_outcomes ToyJwt.lib toyBcrypt toyAccounts (mkEnv None)
              (JS.JString "bob@example.org") (JS.JString "s3cret!")
              "bob@example.org" "s3cret!" 10 [ann] eq_refl) as (H1 & _).
  destruct (login_outcomes ToyJwt.lib toyBcrypt toyAccounts (mkEnv None)
              (JS.JString "ann@example.org") (JS.JString "guess")
              "ann@example.org" "guess" 10 [ann] eq_refl) as (H2 & _).
  rewrite H1, H2; [reflexivity| |].
  - right. exists ann. split; reflexivity.
  - left. reflexivity.
Defined.

(** X8.  Register, then log in: after a 201 from POST /auth/register, if
    bcrypt recognises the password against the hash just stored and new
    accounts are active by default, POST /auth/login with the same address
    and password answers 200 for the account just created. *)
Theorem register_then_login
    (J : JsonWebToken) (B : Bcrypt) (A : AccountPlatform) (env : ProcessEnv)
    (body : RegisterBody.t) (v : RegisterData.t) (new_id salt : string)
    (now later : Z) (accounts : list Account.t) :
  AuthRoutes.registerSchema body = Some v ->
  status (fst (AuthRoutes.register env body new_id salt now accounts)) = 201%nat ->
  bcrypt_compare (RegisterData.password v)
                 (bcrypt_hash (RegisterData.password v) 12 salt) = true ->
  user_is_active_default = true ->
  exists row,
    In row (snd (AuthRoutes.register env body new_id salt now accounts))
    /\ User.id (Account.user row) = new_id
    /\ AuthRoutes.login env (RegisterBody.email body) (RegisterBody.password body)
         later (snd (AuthRoutes.register env body new_id salt now accounts))
       = mkResponse 200 "Login successful"
           (Some (AuthUtils.generateTokenPair env later (AuthRoutes.tokenData row),
                  respond_user row)).
Proof.
  intros Hv H201 Hbc Hact.
  destruct (register_inv env body new_id salt now accounts)
    as [[_ Hno]|(v' & row & Hv' & Hf & _ & Hrow & Hr)]; [contradiction|].
  assert (v' = v) by congruence. subst v'.
  rewrite Hr. cbn [snd]. exists row.
  split; [apply in_or_app; right; now left|].
  split; [subst row; reflexivity|].
  destruct (registerSchema_fields body v Hv) as (He & Hz & Hp & Hlen & _).
  apply (login_ok env _ _ (RegisterData.email v) (RegisterData.password v)).
  - unfold AuthRoutes.loginSchema. rewrite He, Hp.
    unfold ZodAccount.email, Zod.string_min. rewrite Hz.
    assert (Hl : (1 <=? String.length (RegisterData.password v))%nat = true)
      by (apply Nat.leb_le; lia).
    now rewrite Hl.
  - apply find_app_last; [exact Hf|]. subst row. cbn. apply String.eqb_refl.
  - subst row. exact Hbc.
  - subst row. exact Hact.
Qed.

Lemma register_then_login_witness :
  let body := RegisterBody.mk (JS.JString "Ann") (JS.JString "ann@example.org")
                (JS.JString "s3cret!") (JS.JString "customer")
                JS.JUndefined JS.JUndefined in
  let accounts' :=
    snd (AuthRoutes.register (J := ToyJwt.lib) (B := toyBcrypt) (A := toyAccounts)
           (mkEnv None) body "u1" "salt" 10 []) in
  status (AuthRoutes.login (J := ToyJwt.lib) (B := toyBcrypt) (A := toyAccounts)
            (mkEnv None) (JS.JString "ann@example.org") (JS.JString "s3cret!")
            20 accounts') = 200%nat.
Proof.
  intros body accounts'.
  destruct (register_then_login ToyJwt.lib toyBcrypt toyAccounts (mkEnv None) body
              (RegisterData.mk "Ann" "ann@example.org" "s3cret!" "customer" None None)
              "u1" "salt" 10 20 [] eq_refl eq_refl eq_refl eq_refl)
    as (row & _ & _ & Hlogin).
  change (JS.JString "ann@example.org") with (RegisterBody.email body).
  change (JS.JString "s3cret!") with (RegisterBody.password body).
  subst accounts'. now rewrite Hlogin.
Defined.

(** X9.  Register, then call: after a 201 from POST /auth/register, if
    the library accepts the returned access token at instant [t] under the
    access secret, the token is a non-empty string without a blank, and
    new accounts are active by default, then the token sent as
    [Bearer <token>] passes [authenticateToken] on the new users table
    with the claims (new id, address, role) of the account created. *)
Theorem registered_token_passes_gate
    (J : JsonWebToken) (B : Bcrypt) (A : AccountPlatform) (env : ProcessEnv)
    (body : RegisterBody.t) (new_id salt : string) (now t : Z)
    (accounts : list Account.t) (pair : TokenPair) (view : UserResponse)
    (db : Db) :
  let r := AuthRoutes.register env body new_id salt now accounts in
  status (fst r) = 201%nat ->
  data (fst r) = Some (pair, view) ->
  users db = users_of (snd r) ->
  jwt_verify (accessToken pair) (AuthUtils.JWT_SECRET env) t
    = Some (mkPayload new_id (ur_email view) (ur_role view)) ->
  accessToken pair <> "" ->
  contains " "%char (accessToken pair) = false ->
  user_is_active_default = true ->
  Middleware.authenticateToken env
    (Some ("Bearer " ++ accessToken pair)%string) db t
  = Next (mkPayload new_id (ur_email view) (ur_role view)).
Proof.
  intros r H201 Hdata Husers Hlib Hne Hsp Hact.
  destruct (register_inv env body new_id salt now accounts)
    as [[_ Hno]|(v & row & Hv & Hf & Hex & Hrow & Hr)]; [contradiction|].
  fold r in Hr. rewrite Hr in Hdata, Husers. cbn [fst snd data] in Hdata, Husers.
  injection Hdata as <- <-.
  apply authenticateToken_next.
  exists (accessToken (AuthUtils.generateTokenPair env now (AuthRoutes.tokenData row))),
         (Account.user row).
  split; [now apply bearer_of_header|]. split; [assumption|].
  split; [exact Hlib|]. cbn [userId]. split.
  - rewrite (findUser_users_of db (accounts ++ [row]) new_id Husers).
    unfold AuthRoutes.findById. rewrite (find_app_last _ accounts row).
    + reflexivity.
    + apply find_none_iff. intros a Ha.
      pose proof (existsb_false_all _ _ Hex a Ha) as Hb. cbn beta in Hb.
      now apply orb_false_iff in Hb.
    + subst row. cbn. apply String.eqb_refl.
  - subst row. exact Hact.
Qed.

Lemma registered_token_passes_gate_witness :
  let body := RegisterBody.mk (JS.JString "Ann") (JS.JString "ann@example.org")
                (JS.JString "s3cret!") (JS.JString "customer")
                JS.JUndefined JS.JUndefined in
  let r := AuthRoutes.register (J := ToyJwt.lib) (B := toyBcrypt) (A := toyAccounts)
             (mkEnv None) body "u1" "salt" 10 [] in
  exists pair view,
    data (fst r) = Some (pair, view)
    /\ Middleware.authenticateToken (J := ToyJwt.lib) (mkEnv None)
         (Some ("Bearer " ++ accessToken pair)%string)
         (mkDb (users_of (snd r)) [] [] []) 500
       = Next (mkPayload "u1" "ann@example.org" "customer").
Proof.
  intros body r.
  exists (AuthUtils.generateTokenPair (J := ToyJwt.lib) (mkEnv None) 10
            (mkUserTokenData "u1" "ann@example.org" "customer")),
         (mkUserResponse "u1" "Ann" "ann@example.org" "customer" None None 0 false 10).
  split; [reflexivity|].
  apply (registered_token_passes_gate ToyJwt.lib toyBcrypt toyAccounts (mkEnv None)
           body "u1" "salt" 10 500 []
           (AuthUtils.generateTokenPair (J := ToyJwt.lib) (mkEnv None) 10
              (mkUserTokenData "u1" "ann@example.org" "customer"))
           (mkUserResponse "u1" "Ann" "ann@example.org" "customer" None None 0 false 10)
           (mkDb (users_of (snd r)) [] [] [])).
  - reflexivity.
  - reflexivity.
  - reflexivity.
  - vm_compute. reflexivity.
  - vm_compute. discriminate.
  - vm_compute. reflexivity.
  - reflexivity.
Defined.

(** X10.  POST /auth/refresh only ever answers 200, 400 or 401 and reads
    the accounts without writing them.  It answers 200 exactly when the
    body holds a non-empty string that [verifyRefreshToken] accepts and
    whose [userId] names an account that exists and is active; the new
    pair is then issued from the stored row, so it carries the address
    and role the account has now, not those written in the old token. *)
Theorem refresh_outcomes
    (J : JsonWebToken) (env : ProcessEnv)
    (refresh_token : JS.json) (now : Z) (accounts : list Account.t) :
  let r := AuthRoutes.refresh env refresh_token now accounts in
  let accepted token p a :=
    refresh_token = JS.JString token /\ token <> ""
    /\ AuthUtils.verifyRefreshToken env now token = Some p
    /\ AuthRoutes.findById accounts (userId p) = Some a
    /\ User.is_active (Account.user a) = true in
  In (status r) [200; 400; 401]%nat
  /\ (status r = 200%nat <-> exists token p a, accepted token p a)
  /\ (forall token p a, accepted token p a ->
        r = mkResponse 200 "Token refreshed successfully"
              (Some (AuthUtils.generateTokenPair env now
                       (mkUserTokenData (userId p)
                          (User.email (Account.user a))
                          (User.role (Account.user a)))))).
Proof.
  intros r accepted. subst r accepted. unfold AuthRoutes.refresh,
    AuthRoutes.refreshTokenSchema, Zod.string_min.
  destruct refresh_token as [| |b|q|s|];
    try (split; [cbn; auto|split; [split; [discriminate|]|]];
         [intros (t & p & a & Hx & _)|intros t p a (Hx & _)]; discriminate).
  destruct (1 <=? String.length s)%nat eqn:Hl.
  - assert (Hne : s <> "").
    { intros ->. discriminate. }
    destruct (AuthUtils.verifyRefreshToken env now s) as [p|] eqn:Hv.
    + destruct (AuthRoutes.findById accounts (userId p)) as [a|] eqn:Hf.
      * assert (Hid : User.id (Account.user a) = userId p).
        { apply find_some in Hf. destruct Hf as [_ Hb].
          now apply String.eqb_eq in Hb. }
        destruct (User.is_active (Account.user a)) eqn:Ha; cbn [negb].
        -- split; [cbn; auto|split; [split|]].
           ++ intros _. exists s, p, a. auto.
           ++ reflexivity.
           ++ intros t p' a' ([= <-] & _ & Hp & Ha' & _).
              assert (p' = p) by congruence. subst p'.
              assert (a' = a) by congruence. subst a'.
              unfold AuthRoutes.tokenData. now rewrite Hid.
        -- split; [cbn; auto|split; [split; [discriminate|]|]].
           ++ intros (t & p' & a' & [= <-] & _ & Hp & Ha' & Hact).
              assert (p' = p) by congruence. subst p'. congruence.
           ++ intros t p' a' ([= <-] & _ & Hp & Ha' & Hact).
              assert (p' = p) by congruence. subst p'. congruence.
      * split; [cbn; auto|split; [split; [discriminate|]|]].
        -- intros (t & p' & a' & [= <-] & _ & Hp & Ha' & _).
           assert (p' = p) by congruence. subst p'. congruence.
        -- intros t p' a' ([= <-] & _ & Hp & Ha' & _).
           assert (p' = p) by congruence. subst p'. congruence.
    + split; [cbn; auto|split; [split; [discriminate|]|]].
      * intros (t & p' & a' & [= <-] & _ & Hp & _). congruence.
      * intros t p' a' ([= <-] & _ & Hp & _). congruence.
  - assert (Hs : s = "").
    { destruct s; [reflexivity|discriminate]. }
    split; [cbn; auto|split; [split; [discriminate|]|]].
    + intros (t & p' & a' & [= <-] & Hn & _). contradiction.
    + intros t p' a' ([= <-] & Hn & _). contradiction.
Qed.

Lemma refresh_outcomes_witness :
  let env := mkEnv None in
  let old := mkUserTokenData "u1" "ann@old.example" "customer" in
  let ann := Account.mk (User.mk "u1" "ann@example.org" "provider" true 0)
               "Ann" "salt$s3cret!" None None false 5 in
  AuthRoutes.refresh (J := ToyJwt.lib) env
    (JS.JString (AuthUtils.generateRefreshToken (J := ToyJwt.lib) env 10 old))
    500 [ann]
  = mkResponse 200 "Token refreshed successfully"
      (Some (AuthUtils.generateTokenPair (J := ToyJwt.lib) env 500
               (mkUserTokenData "u1" "ann@example.org" "provider"))).
Proof.
  intros env old ann.
  destruct (refresh_outcomes ToyJwt.lib env
              (JS.JString (AuthUtils.generateRefreshToken (J := ToyJwt.lib) env 10 old))
              500 [ann]) as (_ & _ & Hok).
  apply (Hok (AuthUtils.generateRefreshToken (J := ToyJwt.lib) env 10 old)
             (mkPayload "u1" "ann@old.example" "customer") ann).
  split; [reflexivity|]. split; [vm_compute; discriminate|].
  split; [vm_compute; reflexivity|]. split; reflexivity.
Defined.

Section RefreshFacts.
Context {J : JsonWebToken} (env : ProcessEnv).

Lemma refresh_ok token now accounts p a :
  token <> "" ->
  AuthUtils.verifyRefreshToken env now token = Some p ->
  AuthRoutes.findById accounts (userId p) = Some a ->
  User.is_active (Account.user a) = true ->
  AuthRoutes.refresh env (JS.JString token) now accounts
  = mkResponse 200 "Token refreshed successfully"
      (Some (AuthUtils.generateTokenPair env now (AuthRoutes.tokenData a))).
Proof.
  intros Hne Hv Hf Ha. unfold AuthRoutes.refresh, AuthRoutes.refreshTokenSchema,
    Zod.string_min.
  destruct token as [|c token]; [contradiction|]. cbn [String.length Nat.leb].
  now rewrite Hv, Hf, Ha.
Qed.

End RefreshFacts.

(** X11.  With [JWT_SECRET_KEY] set, whatever bearer token
    [authenticateToken] lets through is also taken by POST /auth/refresh
    as a refresh token: the answer is 200 with a fresh pair for the
    account, so a 15-minute access token can be exchanged for a new pair
    indefinitely. *)
Theorem access_token_refreshes_when_key_set
    (J : JsonWebToken) (key token : string) (authorization : option string)
    (db : Db) (accounts : list Account.t) (now : Z) (p : JWTPayload) :
  key <> "" ->
  users db = users_of accounts ->
  Middleware.bearer authorization = Some token ->
  Middleware.authenticateToken (mkEnv (Some key)) authorization db now = Next p ->
  exists a,
    AuthRoutes.findById accounts (userId p) = Some a
    /\ AuthRoutes.refresh (mkEnv (Some key)) (JS.JString token) now accounts
       = mkResponse 200 "Token refreshed successfully"
           (Some (AuthUtils.generateTokenPair (mkEnv (Some key)) now
                    (AuthRoutes.tokenData a))).
Proof.
  intros Hk Husers Hb Hg. apply authenticateToken_next in Hg.
  destruct Hg as (token' & u & Hb' & Hne & Hv & Hu & Ha).
  assert (token' = token) by congruence. subst token'.
  rewrite (findUser_users_of db accounts _ Husers) in Hu.
  destruct (AuthRoutes.findById accounts (userId p)) as [a|] eqn:Hf;
    [|discriminate].
  cbn in Hu. injection Hu as <-. exists a. split; [reflexivity|].
  apply (refresh_ok _ token now accounts p a); try assumption.
  now rewrite verifiers_coincide.
Qed.

Lemma access_token_refreshes_when_key_set_witness :
  let env := mkEnv (Some "k3y") in
  let ann := Account.mk (User.mk "u1" "ann@example.org" "customer" true 0)
               "Ann" "salt$s3cret!" None None false 5 in
  let token := AuthUtils.generateAccessToken (J := ToyJwt.lib) env 10
                 (mkUserTokenData "u1" "ann@example.org" "customer") in
  status (AuthRoutes.refresh (J := ToyJwt.lib) env (JS.JString token) 500 [ann])
  = 200%nat.
Proof.
  intros env ann token.
  destruct (access_token_refreshes_when_key_set ToyJwt.lib "k3y" token
              (Some ("Bearer " ++ token)%string)
              (mkDb (users_of [ann]) [] [] []) [ann] 500
              (mkPayload "u1" "ann@example.org" "customer"))
    as (a & _ & Hr).
  - discriminate.
  - reflexivity.
  - vm_compute. reflexivity.
  - vm_compute. reflexivity.
  - unfold env. now rewrite Hr.
Defined.

(* ------------------------------------------------------------------ *)
(** * Profile *)

(** X12.  Behind [authenticateToken], on the users table the gate has
    just read, GET /profile always answers 200 with the caller's own row
    (its 404 branch cannot be reached), and PATCH /profile answers 200 or
    400, never 500. *)
Theorem profile_behind_gate
    (J : JsonWebToken) (env : ProcessEnv) (authorization : option string)
    (db : Db) (accounts : list Account.t) (now : Z) (u : JWTPayload) :
  users db = users_of accounts ->
  Middleware.authenticateToken env authorization db now = Next u ->
  (exists a, AuthRoutes.findById accounts (userId u) = Some a
             /\ User.id (Account.user a) = userId u
             /\ ProfileRoutes.get u accounts
                = mkResponse 200 "" (Some (respond_user a)))
  /\ (forall body,
        In (status (fst (ProfileRoutes.patch u body accounts))) [200; 400]%nat).
Proof.
  intros Husers Hg. apply authenticateToken_next in Hg.
  destruct Hg as (token & usr & _ & _ & _ & Hu & _).
  rewrite (findUser_users_of db accounts _ Husers) in Hu.
  destruct (AuthRoutes.findById accounts (userId u)) as [a|] eqn:Hf;
    [|discriminate].
  split.
  - exists a. split; [reflexivity|]. split.
    + apply find_some in Hf. destruct Hf as [_ Hb]. now apply String.eqb_eq in Hb.
    + unfold ProfileRoutes.get. now rewrite Hf.
  - intros body. unfold ProfileRoutes.patch.
    destruct (ProfileRoutes.updateProfileSchema body); [|cbn; auto].
    unfold ProfileRoutes.updateUser. rewrite Hf. cbn. auto.
Qed.

Lemma profile_behind_gate_witness :
  let env := mkEnv None in
  let ann := Account.mk (User.mk "u1" "ann@example.org" "customer" true 0)
               "Ann" "salt$s3cret!" None None false 5 in
  let hdr := Some ("Bearer " ++ AuthUtils.generateAccessToken (J := ToyJwt.lib) env 10
                                  (mkUserTokenData "u1" "ann@example.org" "customer"))%string in
  ProfileRoutes.get (mkPayload "u1" "ann@example.org" "customer") [ann]
  = mkResponse 200 "" (Some (respond_user ann)).
Proof.
  intros env ann hdr.
  destruct (profile_behind_gate ToyJwt.lib env hdr
              (mkDb (users_of [ann]) [] [] []) [ann] 500
              (mkPayload "u1" "ann@example.org" "customer"))
    as ((a & Hf & _ & Hget) & _).
  - reflexivity.
  - vm_compute. reflexivity.
  - cbn in Hf. injection Hf as <-. exact Hget.
Defined.

(** X13.  PATCH /profile can change the name, phone and location of the
    caller's own row and nothing else: the projection the gate and the
    other handlers read (id, address, role, active flag, rating) is the
    same before and after, as are all passwords, and every account under
    another id is left as it was.  Hence no token is accepted or refused
    differently after a profile update. *)
Theorem profile_patch_scope
    (J : JsonWebToken) (env : ProcessEnv)
    (u : JWTPayload) (body : UpdateProfileBody.t) (accounts : list Account.t) :
  let accounts' := snd (ProfileRoutes.patch u body accounts) in
  users_of accounts' = users_of accounts
  /\ map Account.password accounts' = map Account.password accounts
  /\ (forall a, In a accounts -> User.id (Account.user a) <> userId u ->
                In a accounts')
  /\ (forall authorization db db' now,
        users db = users_of accounts -> users db' = users_of accounts' ->
        Middleware.authenticateToken env authorization db' now
        = Middleware.authenticateToken env authorization db now).
Proof.
  intros accounts'.
  assert (Hshape : accounts' = accounts
                   \/ exists d, accounts'
                                = map (fun x => if (User.id (Account.user x) =? userId u)%string
                                                then ProfileRoutes.apply_update d x else x)
                                      accounts).
  { subst accounts'. unfold ProfileRoutes.patch.
    destruct (ProfileRoutes.updateProfileSchema body) as [d|]; [|now left].
    unfold ProfileRoutes.updateUser.
    destruct (AuthRoutes.findById accounts (userId u)); [|now left].
    right. now exists d. }
  assert (Husers : users_of accounts' = users_of accounts).
  { destruct Hshape as [->|[d ->]]; [reflexivity|].
    unfold users_of. rewrite map_map. apply map_ext. intros x.
    now destruct (User.id (Account.user x) =? userId u)%string. }
  split; [exact Husers|]. split; [|split].
  - destruct Hshape as [->|[d ->]]; [reflexivity|].
    rewrite map_map. apply map_ext. intros x.
    now destruct (User.id (Account.user x) =? userId u)%string.
  - intros a Ha Hid. destruct Hshape as [->|[d ->]]; [assumption|].
    apply in_map_iff. exists a. split; [|assumption].
    destruct (String.eqb_spec (User.id (Account.user a)) (userId u));
      [contradiction|reflexivity].
  - intros authorization db db' now Hdb Hdb'.
    unfold Middleware.authenticateToken, Middleware.findUser.
    now rewrite Hdb, Hdb', Husers.
Qed.

Lemma profile_patch_scope_witness :
  let ann := Account.mk (User.mk "u1" "ann@example.org" "customer" true 0)
               "Ann" "salt$s3cret!" None None false 5 in
  let bob := Account.mk (User.mk "u2" "bob@example.org" "provider" true 0)
               "Bob" "salt$hunter22" None None false 6 in
  let body := UpdateProfileBody.mk (JS.JString "Ann B.") JS.JUndefined
                (JS.JString "Leeds") in
  In bob (snd (ProfileRoutes.patch (mkPayload "u1" "ann@example.org" "customer")
                 body [ann; bob])).
Proof.
  intros ann bob body.
  destruct (profile_patch_scope ToyJwt.lib (mkEnv None)
              (mkPayload "u1" "ann@example.org" "customer") body [ann; bob])
    as (_ & _ & Hothers & _).
  apply Hothers.
  - right. now left.
  - cbn. discriminate.
Defined.

(* ------------------------------------------------------------------ *)
(** * Invariants of the request and feedback tables *)

(** Rounding to binary64 keeps a number between two whole numbers below
    2^53. *)
Lemma round64_between (a b : Z) (x : Q) :
  (0 <= a < 2 ^ 53)%Z -> (0 <= b < 2 ^ 53)%Z ->
  inject_Z a <= x -> x <= inject_Z b ->
  inject_Z a <= Double.round64 x /\ Double.round64 x <= inject_Z b.
Proof.
  intros Ha Hb H1 H2. split.
  - rewrite <- (round64_inject a Ha). now apply round64_mono.
  - rewrite <- (round64_inject b Hb). now apply round64_mono.
Qed.

(** The running sum of [n] ratings between 1 and 5 lies between [n] and
    [5 n], as long as [5 n] is below 2^53. *)
Lemma float_sum_in_range l (a : Z) (acc : Q) :
  Forall rating_in_range l ->
  (0 <= a)%Z -> (5 * (a + Z.of_nat (length l)) < 2 ^ 53)%Z ->
  inject_Z a <= acc -> acc <= inject_Z (5 * a) ->
  let s := fold_left (fun sum x => Double.round64 (sum + x)) l acc in
  inject_Z (a + Z.of_nat (length l)) <= s
  /\ s <= inject_Z (5 * (a + Z.of_nat (length l))).
Proof.
  intros Hall. revert a acc.
  induction Hall as [|x l [Hx1 Hx5] Hall IH]; intros a acc Ha Hlen H1 H2; cbn zeta.
  - cbn [length fold_left]. replace (a + Z.of_nat 0)%Z with a by lia. now split.
  - cbn [fold_left]. cbn [length] in Hlen |- *.
    rewrite Nat2Z.inj_succ in Hlen |- *.
    replace (a + Z.succ (Z.of_nat (length l)))%Z
      with ((a + 1) + Z.of_nat (length l))%Z in Hlen |- * by lia.
    assert (Hb : inject_Z (a + 1) <= Double.round64 (acc + x)
                 /\ Double.round64 (acc + x) <= inject_Z (5 * (a + 1))).
    { apply round64_between; [lia|lia| |].
      - rewrite inject_Z_plus. change (inject_Z 1) with 1. lra.
      - replace (5 * (a + 1))%Z with (5 * a + 5)%Z by lia.
        rewrite inject_Z_plus. change (inject_Z 5) with 5. lra. }
    destruct Hb as [Hb1 Hb2].
    apply (IH (a + 1)%Z); [lia|exact Hlen|exact Hb1|exact Hb2].
Qed.

(** [Math.round(x * 10) / 10] of a number between 1 and 5 lies between 1
    and 5. *)
Lemma round1_in_range x :
  rating_in_range x -> rating_in_range (FeedbackRoutes.round1 x).
Proof.
  intros [H1 H5]. unfold FeedbackRoutes.round1, JS.Math_round, Double.mul, Double.div.
  destruct (round64_between 10 50 (x * 10)) as [T1 T2];
    [lia|lia|change (inject_Z 10) with 10; lra|change (inject_Z 50) with 50; lra|].
  set (t := Double.round64 (x * 10)) in *.
  change (inject_Z 10) with 10 in T1. change (inject_Z 50) with 50 in T2.
  assert (Hlo : (10 <= Qfloor (t + (1 # 2)))%Z).
  { apply (Z.le_trans _ (Qfloor (inject_Z 10))).
    - rewrite Qfloor_Z. lia.
    - apply Qfloor_resp_le. change (inject_Z 10) with 10. lra. }
  assert (Hhi : (Qfloor (t + (1 # 2)) <= 50)%Z).
  { apply (Z.le_trans _ (Qfloor (101 # 2))).
    - apply Qfloor_resp_le. lra.
    - vm_compute. discriminate. }
  rewrite Zle_Qle in Hlo, Hhi.
  set (k := inject_Z (Qfloor (t + (1 # 2)))) in *.
  change (inject_Z 10) with 10 in Hlo. change (inject_Z 50) with 50 in Hhi.
  destruct (round64_between 1 5 (k / 10)) as [R1 R2]; [lia|lia| | |].
  - change (inject_Z 1) with 1. apply Qle_shift_div_l; [reflexivity|lra].
  - change (inject_Z 5) with 5. apply Qle_shift_div_r; [reflexivity|lra].
  - split; assumption.
Qed.

(** The average the handler forms from at least one and fewer than 2^32
    ratings between 1 and 5 lies between 1 and 5. *)
Lemma average_in_range l :
  l <> [] -> (Z.of_nat (length l) < 2 ^ 32)%Z ->
  Forall rating_in_range (map Feedback.rating l) ->
  rating_in_range
    (Double.div (FeedbackRoutes.sum_ratings l) (inject_Z (Z.of_nat (length l)))).
Proof.
  intros Hne Hlen Hall.
  pose proof (float_sum_in_range (map Feedback.rating l) 0 0 Hall) as Hs.
  rewrite length_map in Hs. cbv zeta in Hs.
  destruct Hs as [S1 S2]; [lia|lia|apply Qle_refl|apply Qle_refl|].
  rewrite sum_ratings_float_sum. unfold float_sum, Double.div.
  set (s := fold_left _ _ _) in *.
  assert (Hn : (0 < Z.of_nat (length l))%Z) by (destruct l; [contradiction|cbn; lia]).
  set (n := Z.of_nat (length l)) in *.
  replace (0 + n)%Z with n in S1, S2 by lia.
  assert (Hpos : 0 < inject_Z n)
    by (change 0 with (inject_Z 0); now rewrite <- Zlt_Qlt).
  rewrite inject_Z_mult in S2. change (inject_Z 5) with 5 in S2.
  destruct (round64_between 1 5 (s / inject_Z n)) as [R1 R2]; [lia|lia| | |].
  - change (inject_Z 1) with 1. apply Qle_shift_div_l; [exact Hpos|lra].
  - change (inject_Z 5) with 5. apply Qle_shift_div_r; [exact Hpos|lra].
  - split; assumption.
Qed.

(** X14.  If every rating in the feedback table lies between 1 and 5,
    then after a POST /feedback answered 201 the rating stored on the
    provider lies between 1 and 5 as well. *)
Theorem stored_rating_in_range
    (P : Platform) (user : JWTPayload) (body : SubmitFeedbackBody.t)
    (new_id : string) (now : Z) (db : Db) :
  let r := FeedbackRoutes.post user body new_id now db in
  Forall (fun f => rating_in_range (Feedback.rating f)) (feedbacks db) ->
  status (fst r) = 201%nat ->
  exists row,
    data (fst r) = Some row
    /\ forall u, In u (users (snd r)) ->
                 User.id u = Feedback.provider_id row ->
                 rating_in_range (User.rating u).
Proof.
  intros r Hall H201.
  assert (Hall' : Forall (fun f => rating_in_range (Feedback.rating f))
                         (feedbacks (snd r))).
  { apply (reachable_ratings_in_range db); [|assumption].
    apply (reach_step db db); [apply reach_here|apply step_submit_feedback]. }
  destruct (feedback_post_inv user body new_id now db)
    as [[_ Hno]|(v & sr & row & db1 & Hv & Hsr & Hfb & Hrow & Hdb1 & Hr)];
    [now destruct Hno|].
  fold r in Hr. destruct Hr as [Hr|(l & Hl & Hlen & Hr & Hex)].
  { rewrite Hr in H201. discriminate. }
  rewrite Hr in Hall' |- *. cbn [fst snd data users feedbacks with_users] in *.
  exists row. split; [reflexivity|].
  assert (Hpid : Feedback.provider_id row = ServiceRequest.provider_id sr)
    by (subst row; reflexivity).
  intros u Hu Hid. apply in_map_iff in Hu. destruct Hu as (u0 & Hu0 & _).
  destruct (String.eqb_spec (User.id u0) (ServiceRequest.provider_id sr)) as [E|E].
  - subst u. cbn [User.rating User.set_rating].
    assert (Hin : In row l).
    { rewrite Hl. unfold FeedbackRoutes.findProviderFeedback. apply filter_In. split.
      - subst db1. cbn. apply in_or_app. right. now left.
      - rewrite Hpid. apply String.eqb_refl. }
    assert (Hrange : Forall rating_in_range (map Feedback.rating l)).
    { apply Forall_map. rewrite Hl. unfold FeedbackRoutes.findProviderFeedback.
      apply Forall_forall. intros f Hf. apply filter_In in Hf.
      destruct Hf as [Hf _]. rewrite Forall_forall in Hall'. now apply Hall'. }
    apply round1_in_range, average_in_range; [|exact Hlen|exact Hrange].
    destruct l; [contradiction|discriminate].
  - subst u. rewrite Hid, Hpid in E. contradiction.
Qed.

Lemma stored_rating_in_range_witness :
  let bob := mkPayload "c2" "bob@example.org" "customer" in
  let body := SubmitFeedbackBody.mk (JS.JString "r2") (JS.JNumber 4) JS.JUndefined in
  let req := ServiceRequest.mk "r2" "s1" "c2" "p1" completed None None None in
  let old := Feedback.mk "f1" "r1" "c1" "p1" 5 None false 10 in
  let db := mkDb [User.mk "p1" "p@x.y" "provider" true 5] [] [req] [old] in
  let r := FeedbackRoutes.post (P := floatPlatform) bob body "f2" 20 db in
  exists row,
    data (fst r) = Some row
    /\ forall u, In u (users (snd r)) ->
                 User.id u = Feedback.provider_id row ->
                 rating_in_range (User.rating u).
Proof.
  intros bob body req old db r.
  apply (stored_rating_in_range floatPlatform bob body "f2" 20 db).
  - repeat constructor; cbn; discriminate.
  - vm_compute. reflexivity.
Defined.

Section TableInvariants.
Context {P : Platform}.

Lemma set_status_same r : ServiceRequest.set_status r (ServiceRequest.status r) = r.
Proof. now destruct r. Qed.

(** One write keeps every request row, up to its status. *)
Lemma step_keeps_requests db db' r :
  step db db' -> In r (serviceRequests db) ->
  exists s, In (ServiceRequest.set_status r s) (serviceRequests db').
Proof.
  intros Hstep Hin.
  destruct Hstep as [user body new_id db|user id body_status db
                    |user body new_id now db|us ss db].
  - exists (ServiceRequest.status r). rewrite set_status_same.
    destruct (request_post_inv user body new_id db) as [->|(row & -> & _)];
      [assumption|].
    cbn. apply in_or_app. now left.
  - destruct (request_patch_inv user id body_status db)
      as [->|(target & q & _ & _ & _ & ->)].
    + exists (ServiceRequest.status r). now rewrite set_status_same.
    + cbn [serviceRequests with_serviceRequests].
      destruct (ServiceRequest.id r =? id)%string eqn:E.
      * exists target. apply in_map_iff. exists r. now rewrite E.
      * exists (ServiceRequest.status r). rewrite set_status_same.
        apply in_map_iff. exists r. now rewrite E.
  - exists (ServiceRequest.status r). rewrite set_status_same.
    now rewrite feedback_post_requests.
  - exists (ServiceRequest.status r). now rewrite set_status_same.
Qed.

Lemma reachable_keeps_requests db db' r :
  reachable db db' -> In r (serviceRequests db) ->
  exists s, In (ServiceRequest.set_status r s) (serviceRequests db').
Proof.
  induction 1 as [|db1 db2 Hreach IH Hstep]; intros Hin.
  - exists (ServiceRequest.status r). now rewrite set_status_same.
  - destruct (IH Hin) as [s Hs].
    destruct (step_keeps_requests db1 db2 _ Hstep Hs) as [s' Hs'].
    exists s'. exact Hs'.
Qed.

End TableInvariants.

(** X15.  No write of the API deletes a request or alters anything in it
    but its status: along any sequence of writes every request row is
    still in the table with the same id, service, customer, provider,
    message, date and duration. *)
Theorem requests_persist
    (P : Platform) (db db' : Db) (r : ServiceRequest.t) :
  reachable db db' ->
  In r (serviceRequests db) ->
  exists r',
    In r' (serviceRequests db')
    /\ ServiceRequest.id r' = ServiceRequest.id r
    /\ ServiceRequest.service_id r' = ServiceRequest.service_id r
    /\ ServiceRequest.customer_id r' = ServiceRequest.customer_id r
    /\ ServiceRequest.provider_id r' = ServiceRequest.provider_id r
    /\ ServiceRequest.message r' = ServiceRequest.message r
    /\ ServiceRequest.requested_date r' = ServiceRequest.requested_date r
    /\ ServiceRequest.estimated_duration r' = ServiceRequest.estimated_duration r.
Proof.
  intros Hreach Hin.
  destruct (reachable_keeps_requests db db' r Hreach Hin) as [s Hs].
  exists (ServiceRequest.set_status r s). split; [exact Hs|].
  repeat split.
Qed.

Lemma requests_persist_witness :
  let req := ServiceRequest.mk "r1" "s1" "c1" "p1" pending (Some "hello") None None in
  let db := mkDb [] [] [req] [] in
  let prov := mkPayload "p1" "p@x.y" "provider" in
  let db' := snd (Requests.patch prov "r1" (JS.JString "declined") db) in
  exists r', In r' (serviceRequests db')
             /\ ServiceRequest.id r' = "r1"
             /\ ServiceRequest.customer_id r' = "c1"
             /\ ServiceRequest.message r' = Some "hello".
Proof.
  intros req db prov db'.
  destruct (requests_persist floatPlatform db db' req)
    as (r' & Hin & Hid & _ & Hc & _ & Hm & _).
  - apply (reach_step (P := floatPlatform) db db db'); [apply reach_here|].
    exact (step_update_status prov "r1" (JS.JString "declined") db).
  - now left.
  - exists r'. auto.
Defined.

(** X16.  Feedback stays attached: if every feedback row names a request
    in the table with the same customer and provider, this still holds
    after any sequence of writes of the API. *)
Theorem feedback_references_request
    (P : Platform) (db db' : Db) :
  reachable db db' ->
  (forall f, In f (feedbacks db) ->
     exists r, In r (serviceRequests db)
               /\ ServiceRequest.id r = Feedback.service_request_id f
               /\ ServiceRequest.customer_id r = Feedback.customer_id f
               /\ ServiceRequest.provider_id r = Feedback.provider_id f) ->
  forall f, In f (feedbacks db') ->
    exists r, In r (serviceRequests db')
              /\ ServiceRequest.id r = Feedback.service_request_id f
              /\ ServiceRequest.customer_id r = Feedback.customer_id f
              /\ ServiceRequest.provider_id r = Feedback.provider_id f.
Proof.
  induction 1 as [|db1 db2 Hreach IH Hstep]; intros Hinv; [exact Hinv|].
  specialize (IH Hinv). intros f Hf.
  assert (Hold : In f (feedbacks db1) ->
                 exists r, In r (serviceRequests db2)
                           /\ ServiceRequest.id r = Feedback.service_request_id f
                           /\ ServiceRequest.customer_id r = Feedback.customer_id f
                           /\ ServiceRequest.provider_id r = Feedback.provider_id f).
  { intros Hf1. destruct (IH f Hf1) as (r & Hr & H1 & H2 & H3).
    destruct (step_keeps_requests db1 db2 r Hstep Hr) as [s Hs].
    exists (ServiceRequest.set_status r s). auto. }
  destruct Hstep as [user body new_id db1|user id body_status db1
                    |user body new_id now db1|us ss db1].
  - apply Hold.
    destruct (request_post_inv user body new_id db1) as [E|(row & E & _)];
      rewrite E in Hf; exact Hf.
  - apply Hold.
    destruct (request_patch_inv user id body_status db1)
      as [E|(t & q & _ & _ & _ & E)]; rewrite E in Hf; exact Hf.
  - destruct (feedback_post_inv user body new_id now db1)
      as [[E _]|(v & sr & row & dbm & Hv & Hsr & Hfb & Hrow & Hdbm & Hr)].
    + apply Hold. rewrite E in Hf. exact Hf.
    + assert (Hfs : feedbacks (snd (FeedbackRoutes.post user body new_id now db1))
                    = feedbacks db1 ++ [row]).
      { destruct Hr as [->|(l & _ & _ & -> & _)]; subst dbm; reflexivity. }
      rewrite Hfs in Hf. apply in_app_or in Hf. destruct Hf as [Hf|[<-|[]]];
        [now apply Hold|].
      apply findCompletedRequest_some in Hsr.
      destruct Hsr as (Hin & Hid & Hc & _).
      exists sr. rewrite feedback_post_requests. subst row. cbn. auto.
  - apply Hold. exact Hf.
Qed.

Lemma feedback_references_request_witness :
  let ann := mkPayload "c1" "ann@example.org" "customer" in
  let body := SubmitFeedbackBody.mk (JS.JString "r1") (JS.JNumber 4) JS.JUndefined in
  let req := ServiceRequest.mk "r1" "s1" "c1" "p1" completed None None None in
  let db := mkDb [User.mk "p1" "p@x.y" "provider" true 0] [] [req] [] in
  let db' := snd (FeedbackRoutes.post (P := floatPlatform) ann body "f1" 20 db) in
  let f := Feedback.mk "f1" "r1" "c1" "p1" 4 None true 20 in
  In f (feedbacks db')
  /\ exists r, In r (serviceRequests db')
               /\ ServiceRequest.id r = "r1"
               /\ ServiceRequest.customer_id r = "c1"
               /\ ServiceRequest.provider_id r = "p1".
Proof.
  intros ann body req db db' f.
  assert (Hin : In f (feedbacks db')) by (now left).
  split; [exact Hin|].
  apply (feedback_references_request floatPlatform db db'
           (reach_step (P := floatPlatform) db db db' (reach_here db)
              (step_submit_feedback ann body "f1" 20%Z db))
           (fun g (Hg : In g (feedbacks db)) => match Hg with end)
           f Hin).
Defined.

Section ReopenFacts.
Context {P : Platform}.

(** What a 201 from POST /requests has done. *)
Lemma request_post_201 user body new_id db :
  status (fst (Requests.post user body new_id db)) = 201%nat ->
  exists v row,
    Requests.createRequestSchema body = Some v
    /\ snd (Requests.post user body new_id db)
       = with_serviceRequests db (serviceRequests db ++ [row])
    /\ ServiceRequest.id row = new_id
    /\ ServiceRequest.service_id row = CreateRequestData.service_id v
    /\ ServiceRequest.customer_id row = userId user
    /\ ServiceRequest.status row = pending
    /\ (forall q, In q (serviceRequests db) -> ServiceRequest.id q <> new_id).
Proof.
  unfold Requests.post.
  destruct (Requests.createRequestSchema body) as [v|]; [|discriminate].
  destruct (Requests.findActiveService db _) as [s|]; [|discriminate].
  destruct (Requests.findOpenRequest db _ _); [discriminate|].
  unfold Requests.createServiceRequest.
  destruct (CreateRequestData.requested_date v) as [d|];
    [destruct (d =? "")%string; [|destruct (Date_parse d)]|];
    try discriminate;
  (destruct (existsb _ (serviceRequests db)) eqn:E; [discriminate|];
   intros _; exists v; eexists; cbn [snd]; split; [reflexivity|];
   split; [reflexivity|]; cbn; repeat split;
   intros q Hq Heq;
   pose proof (existsb_false_all _ _ E q Hq) as Hne; cbn in Hne;
   apply String.eqb_neq in Hne; contradiction).
Qed.

End ReopenFacts.

(** X17.  The duplicate check of POST /requests is made at creation
    only.  When a customer has created a new request for a service (201)
    while an earlier request of theirs for the same service was closed,
    the provider can still move the earlier one to accepted: the PATCH
    answers 200 and the table then holds two open requests of that
    customer for that service, one accepted and one pending. *)
Theorem reopened_request_joins_open_one
    (P : Platform) (customer provider : JWTPayload)
    (body : CreateRequestBody.t) (v : CreateRequestData.t) (new_id : string)
    (db : Db) (old : ServiceRequest.t) :
  Requests.findRequest db (ServiceRequest.id old) = Some old ->
  ServiceRequest.service_id old = CreateRequestData.service_id v ->
  ServiceRequest.customer_id old = userId customer ->
  ServiceRequest.provider_id old = userId provider ->
  payload_role provider = "provider" ->
  Requests.createRequestSchema body = Some v ->
  status (fst (Requests.post customer body new_id db)) = 201%nat ->
  let db1 := snd (Requests.post customer body new_id db) in
  let r2 := Requests.patch provider (ServiceRequest.id old)
              (JS.JString "accepted") db1 in
  status (fst r2) = 200%nat
  /\ exists a b,
       In a (serviceRequests (snd r2)) /\ In b (serviceRequests (snd r2))
       /\ ServiceRequest.id a <> ServiceRequest.id b
       /\ ServiceRequest.service_id a = ServiceRequest.service_id b
       /\ ServiceRequest.customer_id a = ServiceRequest.customer_id b
       /\ ServiceRequest.status a = accepted
       /\ ServiceRequest.status b = pending.
Proof.
  intros Hold Hsid Hcid Hpid Hrole Hv H201 db1 r2.
  destruct (request_post_201 customer body new_id db H201)
    as (v' & row & Hv' & Hdb1 & Hid & Hrs & Hrc & Hrst & Hfresh).
  assert (v' = v) by congruence. subst v'.
  assert (Hin : In old (serviceRequests db)).
  { unfold Requests.findRequest in Hold. now apply find_some in Hold. }
  assert (Hf1 : Requests.findRequest db1 (ServiceRequest.id old) = Some old).
  { subst db1. rewrite Hdb1. unfold Requests.findRequest in *.
    cbn [serviceRequests with_serviceRequests]. now apply find_app_first. }
  assert (Hcan : Requests.canUpdate (payload_role provider) (userId provider)
                   old accepted = true).
  { unfold Requests.canUpdate. rewrite Hrole, Hpid, !String.eqb_refl. reflexivity. }
  subst r2. change "accepted" with (RequestStatus_name accepted).
  rewrite (patch_found _ _ _ _ _ Hf1), Hcan. cbn [fst snd status].
  split; [reflexivity|].
  exists (ServiceRequest.set_status old accepted), row.
  cbn [serviceRequests with_serviceRequests].
  assert (Hne : ServiceRequest.id old <> ServiceRequest.id row).
  { rewrite Hid. now apply Hfresh. }
  split; [|split; [|repeat split]].
  - apply in_map_iff. exists old. rewrite String.eqb_refl. split; [reflexivity|].
    subst db1. rewrite Hdb1. cbn. apply in_or_app. now left.
  - apply in_map_iff. exists row. split.
    + destruct (String.eqb_spec (ServiceRequest.id row) (ServiceRequest.id old));
        [congruence|reflexivity].
    + subst db1. rewrite Hdb1. cbn. apply in_or_app. right. now left.
  - exact Hne.
  - cbn. congruence.
  - cbn. congruence.
  - exact Hrst.
Qed.

Lemma reopened_request_joins_open_one_witness :
  let ann := mkPayload "c1" "ann@example.org" "customer" in
  let pat := mkPayload "p1" "pat@example.org" "provider" in
  let body := CreateRequestBody.mk (JS.JString "s1") JS.JUndefined
                JS.JUndefined JS.JUndefined in
  let old := ServiceRequest.mk "r1" "s1" "c1" "p1" cancelled None None None in
  let db := mkDb [] [Service.mk "s1" "p1" true] [old] [] in
  let db1 := snd (Requests.post (P := floatPlatform) ann body "r2" db) in
  status (fst (Requests.patch pat "r1" (JS.JString "accepted") db1)) = 200%nat
  /\ map ServiceRequest.status
         (serviceRequests (snd (Requests.patch pat "r1" (JS.JString "accepted") db1)))
     = [accepted; pending].
Proof.
  intros ann pat body old db db1.
  destruct (reopened_request_joins_open_one floatPlatform ann pat body
              (CreateRequestData.mk "s1" None None None) "r2" db old
              eq_refl eq_refl eq_refl eq_refl eq_refl eq_refl eq_refl)
    as (H200 & _).
  split; [exact H200|reflexivity].
Defined.

(* ------------------------------------------------------------------ *)
(** * Submitting, then listing *)

Lemma findMany_result_some {A} (l : list A) :
  (Z.of_nat (length l) < 2 ^ 32)%Z -> findMany_result l = Some l.
Proof.
  intros H. unfold findMany_result.
  destruct (Z.ltb_spec (Z.of_nat (length l)) (2 ^ 32)); [reflexivity|lia].
Qed.

(** With an Int rating column the row a POST /feedback returns carries a
    whole number. *)
Lemma feedback_post_integer
    {P : Platform} user body new_id now db row :
  feedback_rating_is_Int = true ->
  data (fst (FeedbackRoutes.post user body new_id now db)) = Some row ->
  FeedbackRoutes.is_integer (Feedback.rating row) = true.
Proof.
  intros Hint. unfold FeedbackRoutes.post.
  destruct (FeedbackRoutes.submitFeedbackSchema body) as [v|]; [|discriminate].
  destruct (FeedbackRoutes.findCompletedRequest db _ _) as [sr|]; [|discriminate].
  destruct (FeedbackRoutes.findFeedback db _); [discriminate|].
  unfold FeedbackRoutes.createFeedback. rewrite Hint.
  destruct (FeedbackRoutes.is_integer (SubmitFeedbackData.rating v)) eqn:Hi;
    [|discriminate].
  cbn [andb negb].
  destruct (existsb _ (feedbacks db)); [discriminate|].
  destruct (findMany_result _); [|discriminate].
  unfold FeedbackRoutes.updateUserRating.
  destruct (existsb _ _); [|discriminate].
  cbn [fst data]. intros [= <-]. exact Hi.
Qed.

Lemma whole_sum_perm (l l' : list Q) :
  Permutation l l' ->
  fold_right Z.add 0%Z (map Qfloor l) = fold_right Z.add 0%Z (map Qfloor l').
Proof.
  induction 1 as [|x l l' _ IH|x y l|l l' l'' _ IH1 _ IH2]; cbn; lia.
Qed.

(** Hence rows with whole ratings between 1 and 5, fewer than 2^32 of
    them, have the same running sum in any order. *)
Lemma sum_ratings_perm l l' :
  Permutation l l' ->
  (Z.of_nat (length l) < 2 ^ 32)%Z ->
  Forall (fun f => rating_in_range (Feedback.rating f)
                   /\ FeedbackRoutes.is_integer (Feedback.rating f) = true) l ->
  FeedbackRoutes.sum_ratings l == FeedbackRoutes.sum_ratings l'.
Proof.
  intros Hp Hlen Hall.
  assert (Hall' : Forall (fun f => rating_in_range (Feedback.rating f)
                   /\ FeedbackRoutes.is_integer (Feedback.rating f) = true) l').
  { rewrite Forall_forall in Hall |- *. intros f Hf. apply Hall.
    now apply (Permutation_in _ (Permutation_sym Hp)). }
  pose proof (Permutation_length Hp) as Hl.
  assert (Hw : forall k : list Feedback.t,
             Forall (fun f => rating_in_range (Feedback.rating f)
                              /\ FeedbackRoutes.is_integer (Feedback.rating f) = true) k ->
             Forall whole_rating (map Feedback.rating k)).
  { intros k Hk. apply Forall_map. rewrite Forall_forall in Hk |- *.
    intros f Hf. destruct (Hk f Hf) as [Hr Hi]. now apply integer_in_range_whole. }
  rewrite !sum_ratings_float_sum. unfold float_sum.
  rewrite (float_sum_whole (map Feedback.rating l) 0 0);
    [|now apply Hw|lia|rewrite length_map; lia|reflexivity].
  rewrite (float_sum_whole (map Feedback.rating l') 0 0);
    [|now apply Hw|lia|rewrite length_map; lia|reflexivity].
  now rewrite (whole_sum_perm _ _ (Permutation_map Feedback.rating Hp)).
Qed.

(** X18.  Submit, then list, with an Int rating column: after a POST
    /feedback answered 201, if every rating in the table was a whole
    number between 1 and 5, feedback is public by default, every earlier
    feedback row of that provider is public and the provider's user row
    has role provider, then GET /feedback/provider/:id answers 200,
    counts all feedback rows of the provider, and its [average_rating]
    equals the rating the submission has just stored on the provider. *)
Theorem listing_matches_stored_rating
    (P : Platform) (user : JWTPayload) (body : SubmitFeedbackBody.t)
    (new_id : string) (now : Z) (db : Db) (row : Feedback.t) :
  let r := FeedbackRoutes.post user body new_id now db in
  let pid := Feedback.provider_id row in
  status (fst r) = 201%nat ->
  data (fst r) = Some row ->
  feedback_rating_is_Int = true ->
  Forall (fun f => rating_in_range (Feedback.rating f)
                   /\ FeedbackRoutes.is_integer (Feedback.rating f) = true)
         (feedbacks db) ->
  feedback_is_public_default = true ->
  (forall f, In f (feedbacks db) -> Feedback.provider_id f = pid ->
             Feedback.is_public f = true) ->
  (exists u, In u (users db) /\ User.id u = pid /\ User.role u = "provider") ->
  exists pf,
    FeedbackRoutes.getProvider pid (snd r) = mkResponse 200 "" (Some pf)
    /\ total_reviews pf
       = length (filter (fun f => (Feedback.provider_id f =? pid)%string)
                        (feedbacks (snd r)))
    /\ forall u, In u (users (snd r)) -> User.id u = pid ->
                 average_rating pf == User.rating u.
Proof.
  intros r pid H201 Hdata Hint Hwhole Hpub Hallpub (u0 & Hu0 & Hid0 & Hrole0).
  pose proof (feedback_post_integer user body new_id now db row Hint Hdata) as Hrowi.
  assert (Hrange : Forall (fun f => rating_in_range (Feedback.rating f))
                          (feedbacks (snd r))).
  { apply (reachable_ratings_in_range db).
    - apply (reach_step db db); [apply reach_here|apply step_submit_feedback].
    - apply Forall_forall. intros f Hf. rewrite Forall_forall in Hwhole.
      now apply Hwhole. }
  destruct (feedback_post_inv user body new_id now db)
    as [[_ Hno]|(v & sr & row' & db1 & Hv & Hsr & Hfb & Hrow & Hdb1 & Hr)];
    [now destruct Hno|].
  fold r in Hr. destruct Hr as [Hr|(l & Hl & Hlen & Hr & Hex)].
  { rewrite Hr in H201. discriminate. }
  rewrite Hr in Hdata. cbn [fst data] in Hdata. injection Hdata as ->.
  assert (Hpid : pid = ServiceRequest.provider_id sr) by (unfold pid; subst row; reflexivity).
  set (L := filter (fun f => (Feedback.provider_id f =? pid)%string) (feedbacks db1)).
  assert (HlL : l = L).
  { rewrite Hl. unfold L, FeedbackRoutes.findProviderFeedback. now rewrite Hpid. }
  assert (Hfilter : filter (fun f => (Feedback.provider_id f =? pid)%string
                                     && Feedback.is_public f) (feedbacks db1) = L).
  { unfold L. apply filter_ext_in. intros f Hf.
    destruct (String.eqb_spec (Feedback.provider_id f) pid) as [E|E];
      [|reflexivity].
    cbn [andb]. subst db1. cbn in Hf. apply in_app_or in Hf.
    destruct Hf as [Hf|[<-|[]]]; [now apply Hallpub|].
    subst row. exact Hpub. }
  assert (HrowL : In row L).
  { unfold L. apply filter_In. split.
    - subst db1. cbn. apply in_or_app. right. now left.
    - apply String.eqb_refl. }
  assert (HwholeL : Forall (fun f => rating_in_range (Feedback.rating f)
                     /\ FeedbackRoutes.is_integer (Feedback.rating f) = true) L).
  { apply Forall_forall. intros f Hf. unfold L in Hf. apply filter_In in Hf.
    destruct Hf as [Hf _].
    assert (Hf' : In f (feedbacks (snd r))) by (rewrite Hr; exact Hf).
    rewrite Forall_forall in Hrange. split; [now apply Hrange|].
    subst db1. cbn in Hf. apply in_app_or in Hf.
    destruct Hf as [Hf|[<-|[]]]; [|exact Hrowi].
    rewrite Forall_forall in Hwhole. now apply Hwhole. }
  set (stored := FeedbackRoutes.round1
                   (Double.div (FeedbackRoutes.sum_ratings L)
                               (inject_Z (Z.of_nat (length L))))).
  assert (Hsnd : snd r = with_users db1
                   (map (fun u => if (User.id u =? pid)%string
                                  then User.set_rating u stored else u) (users db))).
  { rewrite Hr. cbn [snd]. unfold stored. rewrite HlL. now rewrite Hpid. }
  rewrite Hsnd.
  destruct (findProvider_exists
              (with_users db1
                 (map (fun u => if (User.id u =? pid)%string
                                then User.set_rating u stored else u) (users db)))
              pid) as [p Hp].
  { exists (User.set_rating u0 stored). cbn [users with_users]. split; [|split].
    - apply in_map_iff. exists u0. rewrite Hid0, String.eqb_refl. auto.
    - exact Hid0.
    - exact Hrole0. }
  unfold FeedbackRoutes.getProvider. rewrite Hp.
  unfold FeedbackRoutes.findPublicFeedback. cbn [feedbacks with_users].
  rewrite Hfilter.
  pose proof (orderBy_perm L) as Hperm.
  pose proof (Permutation_length Hperm) as Hlen'.
  rewrite findMany_result_some by (rewrite Hlen', <- HlL; exact Hlen).
  assert (Hpos : (0 <? length (FeedbackRoutes.orderBy_created_at_desc L))%nat = true).
  { rewrite Hlen'. destruct L; [contradiction|reflexivity]. }
  rewrite Hpos. eexists. split; [reflexivity|].
  cbn [total_reviews average_rating users with_users]. split.
  - rewrite Hlen'. reflexivity.
  - intros u Hu Hid. apply in_map_iff in Hu. destruct Hu as (x & Hx & _).
    destruct (String.eqb_spec (User.id x) pid) as [E|E].
    + subst u. cbn [User.rating User.set_rating]. unfold stored.
      rewrite Hlen'. unfold Double.div.
      rewrite (round64_comp
                 (FeedbackRoutes.sum_ratings (FeedbackRoutes.orderBy_created_at_desc L)
                  / inject_Z (Z.of_nat (length L)))
                 (FeedbackRoutes.sum_ratings L / inject_Z (Z.of_nat (length L))));
        [reflexivity|].
      rewrite (sum_ratings_perm L (FeedbackRoutes.orderBy_created_at_desc L));
        [reflexivity|now apply Permutation_sym|rewrite <- HlL; exact Hlen|exact HwholeL].
    + subst u. contradiction.
Qed.

(** A provider with ratings 1, 2 and 2, and a new 2: the table order sums
    1 + 2 + 2 + 2, the listing 2 + 2 + 2 + 1, and both round 1.75 to 1.8. *)
Lemma listing_matches_stored_rating_witness :
  let bob := mkPayload "c4" "bob@example.org" "customer" in
  let body := SubmitFeedbackBody.mk (JS.JString "r4") (JS.JNumber 2) JS.JUndefined in
  let req := ServiceRequest.mk "r4" "s1" "c4" "p1" completed None None None in
  let db := mkDb [User.mk "p1" "p@x.y" "provider" true 5] [] [req]
              [Feedback.mk "f1" "r1" "c1" "p1" 1 None true 10;
               Feedback.mk "f2" "r2" "c2" "p1" 2 None true 11;
               Feedback.mk "f3" "r3" "c3" "p1" 2 None true 12] in
  let r := FeedbackRoutes.post (P := intPlatform) bob body "f4" 20 db in
  exists pf,
    FeedbackRoutes.getProvider "p1" (snd r) = mkResponse 200 "" (Some pf)
    /\ total_reviews pf = 4%nat
    /\ forall u, In u (users (snd r)) -> User.id u = "p1" ->
                 average_rating pf == User.rating u.
Proof.
  intros bob body req db r.
  destruct (listing_matches_stored_rating intPlatform bob body "f4" 20 db
              (Feedback.mk "f4" "r4" "c4" "p1" 2 None true 20))
    as (pf & Hget & Htotal & Havg).
  - vm_compute. reflexivity.
  - vm_compute. reflexivity.
  - reflexivity.
  - repeat constructor; cbn; discriminate.
  - reflexivity.
  - intros f [<-|[<-|[<-|[]]]] _; reflexivity.
  - exists (User.mk "p1" "p@x.y" "provider" true 5). cbn. auto.
  - exists pf. split; [exact Hget|]. split; [rewrite Htotal; reflexivity|exact Havg].
Defined.

(** With fractional ratings the two need not agree.  The table holds 1, 1
    and 2.1 (as a binary64 number) and 2.1 is submitted: the submission
    sums 1 + 1 + 2.1 + 2.1 in table order and stores 1.5, the listing sums
    2.1 + 2.1 + 1 + 1, newest first, and sends 1.6 (as a binary64
    number). *)
Example listing_differs_with_fractional_ratings :
  let d := Double.round64 (21 # 10) in
  let dan := mkPayload "c4" "dan@example.org" "customer" in
  let body := SubmitFeedbackBody.mk (JS.JString "r4") (JS.JNumber d) JS.JUndefined in
  let req := ServiceRequest.mk "r4" "s1" "c4" "p1" completed None None None in
  let db := mkDb [User.mk "p1" "p@x.y" "provider" true 0] [] [req]
              [Feedback.mk "f1" "r1" "c1" "p1" 1 None true 10;
               Feedback.mk "f2" "r2" "c2" "p1" 1 None true 11;
               Feedback.mk "f3" "r3" "c3" "p1" d None true 12] in
  let r := FeedbackRoutes.post (P := floatPlatform) dan body "f4" 20 db in
  status (fst r) = 201%nat
  /\ map User.rating (users (snd r)) = [Double.round64 (15 # 10)]
  /\ exists pf,
       FeedbackRoutes.getProvider "p1" (snd r) = mkResponse 200 "" (Some pf)
       /\ map Feedback.rating (feedback pf) = [d; d; 1; 1]
       /\ average_rating pf = Double.round64 (16 # 10).
Proof.
  cbv zeta. split; [vm_compute; reflexivity|].
  split; [vm_compute; reflexivity|].
  eexists. split; [vm_compute; reflexivity|].
  split; vm_compute; reflexivity.
Qed.

(* ------------------------------------------------------------------ *)
(** * Role separation at the mounted routes *)

(** X19.  For a caller the first gate lets through: POST /requests and
    POST /feedback run their handler exactly for the role customer and
    answer 403 to every other role without touching the store, while
    PATCH /requests/:id has no role requirement and always reaches its
    handler (which does its own ownership check). *)
Theorem customer_only_routes
    (J : JsonWebToken) (P : Platform) (env : ProcessEnv)
    (authorization : option string) (now : Z) (db : Db) (u : JWTPayload) :
  Middleware.authenticateToken env authorization db now = Next u ->
  (payload_role u = "customer" ->
     (forall body new_id,
        Routes.POST_requests env authorization now body new_id db
        = Requests.post u body new_id db)
     /\ (forall body new_id,
           Routes.POST_feedback env authorization now body new_id db
           = FeedbackRoutes.post u body new_id now db))
  /\ (payload_role u <> "customer" ->
      (forall body new_id,
         Routes.POST_requests env authorization now body new_id db
         = (fail 403 "Insufficient permissions", db))
      /\ (forall body new_id,
            Routes.POST_feedback env authorization now body new_id db
            = (fail 403 "Insufficient permissions", db)))
  /\ (forall id body_status,
        Routes.PATCH_requests env authorization now id body_status db
        = Requests.patch u id body_status db).
Proof.
  intros Hg.
  unfold Routes.POST_requests, Routes.POST_feedback, Routes.PATCH_requests,
    Routes.customerGate. rewrite Hg.
  cbn [Middleware.and_then Middleware.requireRole JS.includes existsb Middleware.route].
  split; [|split].
  - intros ->. cbn. split; reflexivity.
  - intros Hr. destruct (String.eqb_spec (payload_role u) "customer");
      [contradiction|]. cbn. split; reflexivity.
  - reflexivity.
Qed.

Lemma customer_only_routes_witness :
  let env := mkEnv None in
  let pat := mkUserTokenData "p1" "pat@example.org" "provider" in
  let db := mkDb [User.mk "p1" "pat@example.org" "provider" true 0] [] [] [] in
  let hdr := Some ("Bearer " ++ AuthUtils.generateAccessToken (J := ToyJwt.lib) env 1000 pat)%string in
  let body := SubmitFeedbackBody.mk (JS.JString "r1") (JS.JNumber 5) JS.JUndefined in
  Routes.POST_feedback (J := ToyJwt.lib) (P := floatPlatform) env hdr 1100 body "f1" db
  = (fail 403 "Insufficient permissions", db).
Proof.
  intros env pat db hdr body.
  destruct (customer_only_routes ToyJwt.lib floatPlatform env hdr 1100 db
              (mkPayload "p1" "pat@example.org" "provider"))
    as (_ & Hno & _).
  - vm_compute. reflexivity.
  - destruct Hno as [_ Hfb]; [discriminate|]. apply Hfb.
Defined.

(* ------------------------------------------------------------------ *)
(** * Feedback is final *)

Section FeedbackFinal.
Context {P : Platform}.

Lemma reachable_feedback_kept db db' f :
  reachable db db' -> In f (feedbacks db) -> In f (feedbacks db').
Proof.
  induction 1 as [|db1 db2 Hreach IH Hstep]; intros Hin; [assumption|].
  specialize (IH Hin).
  destruct (step_feedbacks db1 db2 Hstep) as [->|(row & -> & _)];
    [assumption|]. apply in_or_app. now left.
Qed.

End FeedbackFinal.

(** X20.  No route updates or deletes feedback: a feedback row, once in
    the table, is in it after any sequence of writes of the API.  So once
    a request has feedback, no later POST /feedback naming that request is
    answered 201, whoever calls and whatever else has happened since: the
    answer is 400, 404 or 409 and nothing is written. *)
Theorem feedback_is_final
    (P : Platform) (db db' : Db) (f : Feedback.t) :
  reachable db db' ->
  In f (feedbacks db) ->
  In f (feedbacks db')
  /\ forall user body new_id now,
       SubmitFeedbackBody.service_request_id body
       = JS.JString (Feedback.service_request_id f) ->
       In (status (fst (FeedbackRoutes.post user body new_id now db')))
          [400; 404; 409]%nat
       /\ snd (FeedbackRoutes.post user body new_id now db') = db'.
Proof.
  intros Hreach Hin.
  pose proof (reachable_feedback_kept db db' f Hreach Hin) as Hin'.
  split; [exact Hin'|].
  intros user body new_id now Hbody. unfold FeedbackRoutes.post.
  destruct (FeedbackRoutes.submitFeedbackSchema body) as [v|] eqn:Hv;
    [|cbn; auto].
  assert (Hs : SubmitFeedbackData.service_request_id v
               = Feedback.service_request_id f).
  { unfold FeedbackRoutes.submitFeedbackSchema in Hv. rewrite Hbody in Hv.
    unfold Zod.string_min in Hv.
    destruct (1 <=? String.length (Feedback.service_request_id f))%nat;
      [|discriminate].
    destruct (Zod.number_min_max 1 5 _); [|discriminate].
    destruct (Zod.string_optional _); [|discriminate].
    now injection Hv as <-. }
  destruct (FeedbackRoutes.findCompletedRequest db' _ _); [|cbn; auto].
  destruct (findFeedback_exists db' (SubmitFeedbackData.service_request_id v))
    as [g Hg].
  { exists f. auto. }
  rewrite Hg. cbn. auto.
Qed.

Lemma feedback_is_final_witness :
  let ann := mkPayload "c1" "ann@example.org" "customer" in
  let pat := mkPayload "p1" "pat@example.org" "provider" in
  let body := SubmitFeedbackBody.mk (JS.JString "r1") (JS.JNumber 2) JS.JUndefined in
  let req := ServiceRequest.mk "r1" "s1" "c1" "p1" completed None None None in
  let fb := Feedback.mk "f1" "r1" "c1" "p1" 4 None true 10 in
  let db := mkDb [User.mk "p1" "p@x.y" "provider" true 4] [] [req] [fb] in
  let db' := snd (Requests.patch pat "r1" (JS.JString "completed") db) in
  snd (FeedbackRoutes.post (P := floatPlatform) ann body "f2" 30 db') = db'.
Proof.
  intros ann pat body req fb db db'.
  destruct (feedback_is_final floatPlatform db db' fb) as (_ & Hfinal).
  - apply (reach_step (P := floatPlatform) db db db'); [apply reach_here|].
    exact (step_update_status pat "r1" (JS.JString "completed") db).
  - now left.
  - destruct (Hfinal ann body "f2" 30%Z eq_refl) as [_ Hsame]. exact Hsame.
Defined.
